(** * Statutory reports service (server/services/statutory-reports.js)

    A shallow embedding of the three report builders (PF ECR, ESI return,
    TDS summary) and of the payroll-run lookup they share, followed by the
    properties the specification states about them.

    - JavaScript numbers are IEEE-754 binary64 values: Rocq's primitive
      [float], with [Math.round] and [String] written over its exact
      decoding ([Prim2SF]).
    - The relational store is a record of tables (lists of rows); each SQL
      statement of the module is a function from the store to its result
      rows.
    - [await], [throw] and [try/catch] are a state-and-error monad over a
      world made of the store and a trace of the statements issued and of
      the console output. *)

From Stdlib Require Import ZArith List Ascii String Bool Lia.
From Stdlib Require Import DecimalString DecimalZ.
From Stdlib Require Import PrimFloat SpecFloat FloatOps.
From Stdlib Require Import Sorting.Sorted Sorting.Permutation.
From stdpp Require Import base option list strings gmap.

Local Open Scope string_scope.
Local Open Scope Z_scope.
Set Warnings "-inexact-float".

(** ** JavaScript primitives *)

Module JS.

(** [Number(s)] for the decimal text of an integer (node-postgres hands
    [bigint] columns over as text): the nearest binary64 value. *)
Definition Number (z : Z) : float :=
  SF2Prim (binary_normalize prec emax z 0 false).

(** [Math.round(x)]: the integer closest to [x], ties towards +infinity;
    NaN and the infinities are returned as they are, and a result of
    zero keeps the sign of a negative argument. The rounding is done on
    the exact value [m * 2^e] of the argument. *)
Definition Math_round (x : float) : float :=
  match Prim2SF x with
  | S754_finite s m e =>
      let sm := if s then Z.neg m else Z.pos m in
      let r := if 0 <=? e then sm * 2 ^ e
               else (2 * sm + 2 ^ (- e)) / 2 ^ (1 - e) in
      if (r =? 0) && s then (-0)%float else Number r
  | _ => x
  end.

(** Decimal text of an integer, as [String(n)] prints one. *)
Definition String_of_Z (z : Z) : string :=
  NilZero.string_of_int (Z.to_int z).

(** The digits [String(x)] prints for an integral [x] of exact value
    [v] >= 2^53, where not every integer is a number: the integer with
    the fewest significant digits that reads back as [x]; among those
    with that many digits the one closest to [v], and on a tie the one
    whose last significant digit is even. [p] is the power of ten the
    candidates are multiples of; it starts at the leading digit and goes
    down to 1, where [v] itself reads back. *)
Definition reads_back (x : float) (c : Z) : bool :=
  PrimFloat.eqb (Number c) x.

Fixpoint shortest_digits (fuel : nat) (x : float) (v p : Z) : Z :=
  match fuel with
  | O => v
  | S fuel' =>
      let lo := v / p * p in
      let hi := lo + p in
      match reads_back x lo, reads_back x hi with
      | true, true =>
          if v - lo <? hi - v then lo
          else if hi - v <? v - lo then hi
          else if Z.even (v / p) then lo else hi
      | true, false => lo
      | false, true => hi
      | false, false => shortest_digits fuel' x v (p / 10)
      end
  end.

Fixpoint drop_trailing_zeros (s : string) : string :=
  match s with
  | EmptyString => EmptyString
  | String a s' =>
      match drop_trailing_zeros s' with
      | EmptyString => if Ascii.eqb a "0" then EmptyString else String a EmptyString
      | t => String a t
      end
  end.

(** The text of a positive integer [c] whose significant digits are
    already the ones to print: plain digits up to 21 of them, and from
    1e21 on the exponent form [d.ddde+n]. *)
Definition integer_text (c : Z) : string :=
  let digits := String_of_Z c in
  if (String.length digits <=? 21)%nat then digits
  else
    match digits with
    | String d rest =>
        let fraction := drop_trailing_zeros rest in
        String d
          ((if String.eqb fraction "" then "" else "." ++ fraction)
           ++ "e+" ++ String_of_Z (Z.of_nat (String.length rest)))
    | EmptyString => digits
    end.

(** [String(x)] for the numbers this module prints, all of them results
    of [Math.round], so integral, infinite or NaN. Below 2^53 an integral
    value prints as its decimal digits; from 2^53 on as the shortest
    digits that read back as the same number, in exponent form from 1e21
    on. (Non-integral values do not arise here; they are not modelled
    and would print their integer part.) *)
Definition String_of_number (x : float) : string :=
  match Prim2SF x with
  | S754_zero _ => "0"
  | S754_infinity s => if s then "-Infinity" else "Infinity"
  | S754_nan => "NaN"
  | S754_finite s m e =>
      let sm := if s then Z.neg m else Z.pos m in
      let v := if 0 <=? e then Z.pos m * 2 ^ e else Z.quot (Z.pos m) (2 ^ (- e)) in
      if v <? 2 ^ 53 then
        String_of_Z (if 0 <=? e then sm * 2 ^ e else Z.quot sm (2 ^ (- e)))
      else
        let digits := String_of_Z v in
        let c :=
          shortest_digits (String.length digits) (PrimFloat.abs x) v
            (10 ^ Z.of_nat (String.length digits - 1)) in
        (if s then "-" else "") ++ integer_text c
  end.

(** [s.padStart(n, c)] for a one-character filler. *)
Definition padStart (n : nat) (c : ascii) (s : string) : string :=
  string_of_list_ascii (repeat c (n - String.length s)) ++ s.

(** [parts.join(sep)]. *)
Definition join (sep : string) (parts : list string) : string :=
  String.concat sep parts.

(** [s.includes(c)] for a one-character needle. *)
Fixpoint includes (c : ascii) (s : string) : bool :=
  match s with
  | EmptyString => false
  | String a s' => Ascii.eqb a c || includes c s'
  end.

(** White space removed by [trim], on the one-byte characters: tab, line
    feed, vertical tab, form feed, carriage return and space. (The
    Unicode spaces JavaScript also strips are outside this model.) *)
Definition is_space (a : ascii) : bool :=
  let n := nat_of_ascii a in
  ((9 <=? n) && (n <=? 13))%nat || (n =? 32)%nat.

Fixpoint trimStart (s : string) : string :=
  match s with
  | String a s' => if is_space a then trimStart s' else s
  | EmptyString => EmptyString
  end.

(** [trimEnd] drops a character when it is a space and everything after
    it has been dropped too. *)
Fixpoint trimEnd (s : string) : string :=
  match s with
  | EmptyString => EmptyString
  | String a s' =>
      match trimEnd s' with
      | EmptyString => if is_space a then EmptyString else String a EmptyString
      | t => String a t
      end
  end.

Definition trim (s : string) : string := trimEnd (trimStart s).

(** [toUpperCase] on the one-byte letters a-z; other bytes are kept (the
    Unicode case mapping of JavaScript is outside this model). *)
Definition upper_ascii (a : ascii) : ascii :=
  let n := nat_of_ascii a in
  if ((97 <=? n) && (n <=? 122))%nat then ascii_of_nat (n - 32) else a.

Fixpoint toUpperCase (s : string) : string :=
  match s with
  | EmptyString => EmptyString
  | String a s' => String (upper_ascii a) (toUpperCase s')
  end.

(** [a || ''] on a nullable text column: null (and the empty string,
    which is falsy too) give the empty string. *)
Definition or_empty (o : option string) : string :=
  match o with
  | Some s => s
  | None => ""
  end.

(** Truthiness of a nullable text value. *)
Definition truthy (o : option string) : bool :=
  match o with
  | Some s => negb (String.eqb s "")
  | None => false
  end.

End JS.

(** ** The relational store *)

(** A calendar date, as PostgreSQL's [EXTRACT] reads a [date] column. *)
Record date := mkDate { d_year : Z; d_month : Z; d_day : Z }.

Definition date_leb (a b : date) : bool :=
  (d_year a <? d_year b)
  || ((d_year a =? d_year b)
      && ((d_month a <? d_month b)
          || ((d_month a =? d_month b) && (d_day a <=? d_day b)))).

(** Table [payroll_runs]. *)
Record payroll_run := mkRun {
  pr_id : string;
  pr_tenant_id : string;
  pr_pay_period_start : date;
  pr_pay_period_end : date;
  pr_pay_date : date;
  pr_status : string
}.

(** Table [organizations]; the statutory codes are nullable text. *)
Record organization := mkOrg {
  org_id : string;
  org_name : option string;
  org_pf_code : option string;
  org_esi_code : option string;
  org_company_pan : option string;
  org_company_tan : option string
}.

(** Table [employees] (alias [e] in the statements). *)
Record employee := mkEmployee {
  e_id : string;
  e_user_id : string;
  e_tenant_id : string;
  e_employee_id : option string;
  e_uan_number : option string;
  e_esi_number : option string;
  e_pan_number : option string
}.

(** Table [profiles] (alias [p]). *)
Record profile := mkProfile {
  p_id : string;
  p_first_name : option string;
  p_last_name : option string
}.

(** Table [payroll_run_employees] (alias [pre]). The [metadata] column is
    a JSON object; the statements read its integer entries [pf_cents] and
    [tds_cents], so it is a finite map from keys to integers of any size
    (a null column or a null entry is an absent key; an entry that is
    not an integer is outside this model). *)
Record payroll_run_employee := mkPre {
  pre_payroll_run_id : string;
  pre_employee_id : string;
  pre_status : string;
  pre_gross_pay_cents : Z;
  pre_metadata : gmap string Z
}.

(** A row of the diagnostic statement of the lookup: one group of runs
    of a month, a year and a status, with the number of runs in it. *)
Record run_group := mkGroup {
  g_month : Z;
  g_year : Z;
  g_status : string;
  g_count : nat
}.

(** The store. [collation] is the database's order on text, used by
    [ORDER BY e.employee_id]. [tie_order] is the server's choice between
    two rows that the [ORDER BY year DESC, month DESC] of the diagnostic
    statement leaves tied (groups of one month that differ in status):
    [tie_order a b] says that [a] is handed back before [b]. SQL leaves
    that choice open, so it can be any relation. *)
Record database := mkDb {
  payroll_runs : list payroll_run;
  organizations : list organization;
  employees : list employee;
  profiles : list profile;
  payroll_run_employees : list payroll_run_employee;
  collation : string -> string -> bool;
  tie_order : run_group -> run_group -> bool
}.

(** A server that hands tied rows back in the order of the table. *)
Definition stored_order (a b : run_group) : bool := true.

(** ** SQL building blocks *)

Module SQL.

(** [ORDER BY]: an insertion sort by the comparison it is given; where
    the comparison accepts both orders of two rows, they keep the order
    of the table. *)
Fixpoint insert_by {A} (le : A -> A -> bool) (x : A) (l : list A) : list A :=
  match l with
  | [] => [x]
  | y :: l' => if le x y then x :: l else y :: insert_by le x l'
  end.

Definition order_by {A} (le : A -> A -> bool) (l : list A) : list A :=
  fold_right (insert_by le) [] l.

(** [LIMIT n]. *)
Definition limit {A} (n : nat) (l : list A) : list A := firstn n l.

(** Ascending order on a nullable text key, nulls last. *)
Definition nulls_last (le : string -> string -> bool)
    (a b : option string) : bool :=
  match a, b with
  | Some x, Some y => le x y
  | Some _, None => true
  | None, Some _ => false
  | None, None => true
  end.

(** [COALESCE(first || ' ' || last, first, last, '')]: a concatenation
    with a null operand is null. *)
Definition employee_name (p : profile) : string :=
  match p_first_name p, p_last_name p with
  | Some f, Some l => f ++ " " ++ l
  | Some f, None => f
  | None, Some l => l
  | None, None => ""
  end.

(** The range of [bigint]. *)
Definition in_bigint (z : Z) : bool := (- 2 ^ 63 <=? z) && (z <? 2 ^ 63).

(** [COALESCE((metadata->>key)::bigint, 0)], where the cast succeeds: the
    value of the entry, 0 when there is none. The cast fails on a value
    out of the range of [bigint], and the statement with it: see
    [cast_failure]. *)
Definition metadata_cents (key : string) (pre : payroll_run_employee) : Z :=
  default 0 (pre_metadata pre !! key).

End SQL.

(** *** Statements of [getPayrollRunForMonth] *)

(** [SELECT ... FROM payroll_runs WHERE tenant_id = $1 AND EXTRACT(MONTH
    FROM pay_date) = $2 AND EXTRACT(YEAR FROM pay_date) = $3 AND status =
    'completed' ORDER BY pay_date DESC LIMIT 1]. *)
Definition is_completed_run_for (tenantId : string) (month year : Z)
    (r : payroll_run) : bool :=
  String.eqb (pr_tenant_id r) tenantId
  && (d_month (pr_pay_date r) =? month)
  && (d_year (pr_pay_date r) =? year)
  && String.eqb (pr_status r) "completed".

Definition select_completed_run (tenantId : string) (month year : Z)
    (d : database) : list payroll_run :=
  SQL.limit 1
    (SQL.order_by (fun a b => date_leb (pr_pay_date b) (pr_pay_date a))
       (List.filter (is_completed_run_for tenantId month year) (payroll_runs d))).

Definition same_group (r : payroll_run) (g : run_group) : bool :=
  (d_month (pr_pay_date r) =? g_month g)
  && (d_year (pr_pay_date r) =? g_year g)
  && String.eqb (pr_status r) (g_status g).

(** [GROUP BY month, year, status] with [COUNT( * )]: a run joins the group
    it belongs to or opens a new one. *)
Fixpoint add_to_groups (r : payroll_run) (gs : list run_group) : list run_group :=
  match gs with
  | [] => [mkGroup (d_month (pr_pay_date r)) (d_year (pr_pay_date r)) (pr_status r) 1]
  | g :: gs' =>
      if same_group r g
      then mkGroup (g_month g) (g_year g) (g_status g) (S (g_count g)) :: gs'
      else g :: add_to_groups r gs'
  end.

Definition group_runs (runs : list payroll_run) : list run_group :=
  fold_left (fun gs r => add_to_groups r gs) runs [].

(** [a] is of the period of [b] or of a later one. *)
Definition group_after (a b : run_group) : bool :=
  (g_year b <? g_year a) || ((g_year b =? g_year a) && (g_month b <=? g_month a)).

(** [a] is of a later period than [b]. *)
Definition later_period (a b : run_group) : bool :=
  (g_year b <? g_year a) || ((g_year b =? g_year a) && (g_month b <? g_month a)).

Definition same_period (a b : run_group) : bool :=
  (g_year a =? g_year b) && (g_month a =? g_month b).

(** [ORDER BY year DESC, month DESC], ties left to the server. *)
Definition group_before (d : database) (a b : run_group) : bool :=
  later_period a b || (same_period a b && tie_order d a b).

(** [SELECT month, year, status, COUNT( * ) FROM payroll_runs WHERE
    tenant_id = $1 GROUP BY ... ORDER BY year DESC, month DESC LIMIT 10]. *)
Definition select_all_runs (tenantId : string) (d : database) : list run_group :=
  SQL.limit 10
    (SQL.order_by (group_before d)
       (group_runs
          (List.filter (fun r => String.eqb (pr_tenant_id r) tenantId)
             (payroll_runs d)))).

(** *** Statements on [organizations] *)

(** [SELECT ... FROM organizations WHERE id = $1]. *)
Definition select_organization (tenantId : string) (d : database)
    : list organization :=
  List.filter (fun o => String.eqb (org_id o) tenantId) (organizations d).

(** [SELECT esi_code FROM organizations WHERE id = $1]: the ESI builder
    reads this single column. *)
Definition select_esi_code (tenantId : string) (d : database)
    : list (option string) :=
  List.map org_esi_code (select_organization tenantId d).

(** *** Statements on [payroll_run_employees] *)

(** A row of the three-table join. *)
Definition joined : Type := payroll_run_employee * employee * profile.

Definition j_pre (j : joined) : payroll_run_employee := fst (fst j).
Definition j_e (j : joined) : employee := snd (fst j).
Definition j_p (j : joined) : profile := snd j.

(** [FROM payroll_run_employees pre JOIN employees e ON e.id =
    pre.employee_id JOIN profiles p ON p.id = e.user_id]. *)
Definition join_employees (d : database) : list joined :=
  flat_map (fun pre =>
    flat_map (fun e =>
      if String.eqb (e_id e) (pre_employee_id pre)
      then flat_map (fun p =>
             if String.eqb (p_id p) (e_user_id e) then [(pre, e, p)] else [])
             (profiles d)
      else [])
      (employees d))
    (payroll_run_employees d).

(** [WHERE pre.payroll_run_id = $1 AND pre.status = 'processed' AND
    e.tenant_id = $2], shared by the three builders. *)
Definition is_processed (runId tenantId : string) (j : joined) : bool :=
  String.eqb (pre_payroll_run_id (j_pre j)) runId
  && String.eqb (pre_status (j_pre j)) "processed"
  && String.eqb (e_tenant_id (j_e j)) tenantId.

(** [ORDER BY e.employee_id]. *)
Definition by_employee_id (d : database) (a b : joined) : bool :=
  SQL.nulls_last (collation d) (e_employee_id (j_e a)) (e_employee_id (j_e b)).

Definition processed_employees (runId tenantId : string) (d : database)
    : list joined :=
  List.filter (is_processed runId tenantId) (join_employees d).

(** Result row of the PF statement. *)
Record pf_row := mkPfRow {
  pf_employee_id : option string;
  pf_uan_number : option string;
  pf_employee_name : string;
  pf_gross_pay_cents : Z;
  pf_contribution_cents : Z;
  pf_epf_wages_cents : Z;
  pf_eps_wages_cents : Z
}.

Definition pf_project (j : joined) : pf_row :=
  mkPfRow (e_employee_id (j_e j)) (e_uan_number (j_e j))
    (SQL.employee_name (j_p j))
    (pre_gross_pay_cents (j_pre j))
    (SQL.metadata_cents "pf_cents" (j_pre j))
    (Z.min (pre_gross_pay_cents (j_pre j)) 1500000)
    (Z.min (pre_gross_pay_cents (j_pre j)) 1500000).

Definition select_pf_employees (runId tenantId : string) (d : database)
    : list pf_row :=
  List.map pf_project
    (SQL.order_by (by_employee_id d) (processed_employees runId tenantId d)).

(** Result row of the ESI statement; [days_worked] is the statement's
    third parameter handed back. *)
Record esi_row := mkEsiRow {
  esi_employee_id : option string;
  esi_esi_number : option string;
  esi_employee_name : string;
  esi_gross_pay_cents : Z;
  esi_days_worked : Z
}.

Definition esi_project (daysInMonth : Z) (j : joined) : esi_row :=
  mkEsiRow (e_employee_id (j_e j)) (e_esi_number (j_e j))
    (SQL.employee_name (j_p j))
    (pre_gross_pay_cents (j_pre j))
    daysInMonth.

(** [AND pre.gross_pay_cents <= 2100000]. *)
Definition esi_eligible (j : joined) : bool :=
  pre_gross_pay_cents (j_pre j) <=? 2100000.

Definition esi_selected (runId tenantId : string) (d : database)
    : list joined :=
  SQL.order_by (by_employee_id d)
    (List.filter esi_eligible (processed_employees runId tenantId d)).

Definition select_esi_employees (runId tenantId : string) (daysInMonth : Z)
    (d : database) : list esi_row :=
  List.map (esi_project daysInMonth) (esi_selected runId tenantId d).

(** Result row of the TDS statement. *)
Record tds_row := mkTdsRow {
  tds_employee_id : option string;
  tds_pan_number : option string;
  tds_employee_name : string;
  tds_gross_pay_cents : Z;
  tds_cents : Z
}.

Definition tds_project (j : joined) : tds_row :=
  mkTdsRow (e_employee_id (j_e j)) (e_pan_number (j_e j))
    (SQL.employee_name (j_p j))
    (pre_gross_pay_cents (j_pre j))
    (SQL.metadata_cents "tds_cents" (j_pre j)).

(** [AND COALESCE((pre.metadata->>'tds_cents')::bigint, 0) > 0]. *)
Definition has_tds (j : joined) : bool :=
  0 <? SQL.metadata_cents "tds_cents" (j_pre j).

Definition select_tds_employees (runId tenantId : string) (d : database)
    : list tds_row :=
  List.map tds_project
    (SQL.order_by (by_employee_id d)
       (List.filter has_tds (processed_employees runId tenantId d))).

(** ** Effects: statements issued, errors thrown, console output *)

(** [new Error(message)]. *)
Record error := Error { message : string }.

Inductive statement :=
| SelectCompletedRun
| SelectAllRuns
| SelectOrganization
| SelectEsiCode
| SelectPfEmployees
| SelectEsiEmployees
| SelectTdsEmployees.

Inductive event :=
| Query (s : statement)
| ConsoleError (label : string) (e : error).

Record world := mkWorld {
  store : database;
  trace : list event
}.

Inductive outcome (A : Type) :=
| Ok (a : A)
| Throw (e : error).
Arguments Ok {A} a.
Arguments Throw {A} e.

(** An asynchronous computation, run to completion. *)
Definition M (A : Type) : Type := world -> outcome A * world.

Definition ret {A} (a : A) : M A := fun w => (Ok a, w).

Definition bind {A B} (m : M A) (k : A -> M B) : M B :=
  fun w =>
    match m w with
    | (Ok a, w') => k a w'
    | (Throw e, w') => (Throw e, w')
    end.

Definition throw {A} (e : error) : M A := fun w => (Throw e, w).

(** [try { m } catch (error) { h error }]. *)
Definition try_catch {A} (m : M A) (h : error -> M A) : M A :=
  fun w =>
    match m w with
    | (Ok a, w') => (Ok a, w')
    | (Throw e, w') => h e w'
    end.

(** [await query(text, params)]: the statement reads the store and is
    recorded in the trace. *)
Definition query {R} (s : statement) (rows : database -> list R) : M (list R) :=
  fun w => (Ok (rows (store w)), mkWorld (store w) (trace w ++ [Query s])).

(** The error the server raises for a value that does not fit [bigint],
    as [query] rejects with it. *)
Definition out_of_range (z : Z) : error :=
  Error ("value " ++ String "034" (JS.String_of_Z z)
         ++ String "034" " is out of range for type bigint").

(** What the [::bigint] cast of the entry [key] does on the rows it is
    applied to: nothing when every value fits, else the statement fails
    on a value that does not (the first one in the order of the rows
    here; which one the server meets first is its own choice). *)
Definition cast_failure (key : string) (rows : list joined) : option error :=
  match List.find
          (fun j => negb (SQL.in_bigint (SQL.metadata_cents key (j_pre j))))
          rows with
  | Some j => Some (out_of_range (SQL.metadata_cents key (j_pre j)))
  | None => None
  end.

(** [await query(text, params)] for a statement with a cast: when the
    server rejects the statement, [query] rejects with the server's
    error; the statement is recorded in the trace either way. *)
Definition query_cast {R} (s : statement) (failure : database -> option error)
    (rows : database -> list R) : M (list R) :=
  fun w =>
    match failure (store w) with
    | Some e => (Throw e, mkWorld (store w) (trace w ++ [Query s]))
    | None => (Ok (rows (store w)), mkWorld (store w) (trace w ++ [Query s]))
    end.

Definition console_error (label : string) (e : error) : M unit :=
  fun w => (Ok tt, mkWorld (store w) (trace w ++ [ConsoleError label e])).

Notation "'await' x <- m ; k" := (bind m (fun x => k))
  (at level 10, x name, m at level 100, k at level 200).
Notation "'exec' m ; k" := (bind m (fun _ => k))
  (at level 10, m at level 100, k at level 200).

(** The cast of the PF statement is in its select list: it is applied to
    the rows the statement returns. *)
Definition pf_cast_failure (runId tenantId : string) (d : database)
    : option error :=
  cast_failure "pf_cents" (processed_employees runId tenantId d).

(** The cast of the TDS statement is in its select list and in its
    [WHERE] clause: it is applied to the rows that pass the other
    conditions of the clause. (The server may apply it to rows that the
    other conditions exclude as well; the properties that state a success
    take every row of the table in range.) *)
Definition tds_cast_failure (runId tenantId : string) (d : database)
    : option error :=
  cast_failure "tds_cents" (processed_employees runId tenantId d).

(** ** getPayrollRunForMonth *)

(** [`${row.month}/${row.year}`]. *)
Definition run_label (row : run_group) : string :=
  JS.String_of_Z (g_month row) ++ "/" ++ JS.String_of_Z (g_year row).

(** [`${row.month}/${row.year} (${row.status})`]. *)
Definition run_label_status (row : run_group) : string :=
  run_label row ++ " (" ++ g_status row ++ ")".

Definition is_completed_group (row : run_group) : bool :=
  String.eqb (g_status row) "completed".

Definition no_run_prefix (month year : Z) : string :=
  "No completed payroll run found for "
    ++ JS.String_of_Z month ++ "/" ++ JS.String_of_Z year ++ ".".

(** The diagnostic message built from the rows of the second statement. *)
Definition no_run_message (month year : Z) (rows : list run_group) : string :=
  let errorMessage := no_run_prefix month year in
  if (0 <? length rows)%nat then
    let availableRuns :=
      JS.join ", " (List.map run_label (List.filter is_completed_group rows)) in
    if negb (String.eqb availableRuns "") then
      errorMessage ++ " Available completed payroll runs: " ++ availableRuns ++ "."
    else
      let allRuns := JS.join ", " (List.map run_label_status rows) in
      errorMessage ++ " Available payroll runs: " ++ allRuns
        ++ ". Please complete a payroll run first."
  else
    errorMessage ++ " No payroll runs found for this organization."
      ++ " Please create and process a payroll run first.".

Definition getPayrollRunForMonth (tenantId : string) (month year : Z)
    : M payroll_run :=
  await result <- query SelectCompletedRun
                    (select_completed_run tenantId month year);
  match result with
  | [] =>
      await anyRunsResult <- query SelectAllRuns (select_all_runs tenantId);
      throw (Error (no_run_message month year anyRunsResult))
  | row :: _ => ret row
  end.

(** ** generatePFECR *)

(** [rows.reduce((sum, emp) => sum + Number(emp.pf_contribution_cents || 0), 0)]. *)
Definition totalEPF (rows : list pf_row) : float :=
  fold_left (fun sum emp => (sum + JS.Number (pf_contribution_cents emp))%float)
    rows 0%float.

(** [Math.round(cents / 100)] on a [bigint] column. *)
Definition rupees (cents : Z) : float :=
  JS.Math_round (JS.Number cents / 100)%float.

(** Header line: establishment code, month, year, number of employees and
    the three totals. *)
Definition pf_header (org : organization) (month year : Z)
    (rows : list pf_row) : string :=
  let totalEPF := totalEPF rows in
  let totalEPS := JS.Math_round (totalEPF * 0.8333)%float in
  let totalEDLI := JS.Math_round (totalEPF * 0.0005)%float in
  JS.join "|"
    [ JS.or_empty (org_pf_code org);
      JS.padStart 2 "0" (JS.String_of_Z month);
      JS.String_of_Z year;
      JS.String_of_Z (Z.of_nat (length rows));
      JS.String_of_number (JS.Math_round (totalEPF / 100)%float);
      JS.String_of_number (JS.Math_round (totalEPS / 100)%float);
      JS.String_of_number (JS.Math_round (totalEDLI / 100)%float) ].

(** The numeric fields of an employee record, in whole currency units. *)
Definition epfContribution (emp : pf_row) : float :=
  rupees (pf_contribution_cents emp).
Definition epsContribution (emp : pf_row) : float :=
  JS.Math_round (epfContribution emp * 0.8333)%float.
Definition edliContribution (emp : pf_row) : float :=
  JS.Math_round (epfContribution emp * 0.0005)%float.

Definition pf_record_fields (emp : pf_row) : list string :=
  let uan := JS.or_empty (pf_uan_number emp) in
  let name := JS.toUpperCase (JS.trim (pf_employee_name emp)) in
  let grossWages := rupees (pf_gross_pay_cents emp) in
  let epfWages := rupees (pf_epf_wages_cents emp) in
  let epsWages := rupees (pf_eps_wages_cents emp) in
  [ uan;
    name;
    JS.String_of_number grossWages;
    JS.String_of_number epfWages;
    JS.String_of_number epsWages;
    JS.String_of_number (epfContribution emp);
    JS.String_of_number (epsContribution emp);
    JS.String_of_number (edliContribution emp) ].

Definition pf_record (emp : pf_row) : string :=
  JS.join "|" (pf_record_fields emp).

Definition newline : string := String "010" EmptyString.

Definition pf_text (org : organization) (month year : Z)
    (rows : list pf_row) : string :=
  JS.join newline (pf_header org month year rows :: List.map pf_record rows).

Definition generatePFECR (tenantId : string) (month year : Z) : M string :=
  try_catch
    (await payrollRun <- getPayrollRunForMonth tenantId month year;
     await orgResult <- query SelectOrganization (select_organization tenantId);
     match orgResult with
     | [] => throw (Error "Organization not found")
     | org :: _ =>
         if negb (JS.truthy (org_pf_code org)) then
           throw (Error "PF Code not configured for organization")
         else
           await employeesResult <-
             query_cast SelectPfEmployees
               (pf_cast_failure (pr_id payrollRun) tenantId)
               (select_pf_employees (pr_id payrollRun) tenantId);
           match employeesResult with
           | [] => throw (Error "No employees found in payroll run")
           | _ :: _ => ret (pf_text org month year employeesResult)
           end
     end)
    (fun error =>
       exec console_error "Error generating PF ECR:" error;
       throw error).

(** ** generateESIReturn *)

Module Date.

Definition is_leap (y : Z) : bool :=
  ((y mod 4 =? 0) && negb (y mod 100 =? 0)) || (y mod 400 =? 0).

(** Length of the month with index [m] (0 = January). *)
Definition month_length (y m : Z) : Z :=
  if m =? 1 then (if is_leap y then 29 else 28)
  else if (m =? 3) || (m =? 5) || (m =? 8) || (m =? 10) then 30
  else 31.

(** [new Date(year, month, 0).getDate()], for the dates JavaScript can
    hold. The constructor reads a year from 0 to 99 as 1900 + year,
    carries a month index outside 0..11 into the year, and takes day 0
    as the day before the first of that month: the last day of the month
    before it. (A date before April of -271821 or after September of
    275760 is invalid and its [getDate()] is NaN; this function does not
    say so: it stands for the code for the years -271820 to 275759.) *)
Definition last_day_before (year month : Z) : Z :=
  let yr := if (0 <=? year) && (year <=? 99) then 1900 + year else year in
  let ym := yr + month / 12 in
  let mn := month mod 12 in
  if mn =? 0 then month_length (ym - 1) 11 else month_length ym (mn - 1).

End Date.

Definition dquote : ascii := "034"%char.
Definition comma : ascii := ","%char.
Definition line_feed : ascii := "010"%char.

(** The global replace of [escapeCSV]: every double quote is doubled. *)
Fixpoint double_quotes (str : string) : string :=
  match str with
  | EmptyString => EmptyString
  | String a s =>
      if Ascii.eqb a dquote
      then String dquote (String dquote (double_quotes s))
      else String a (double_quotes s)
  end.

(** The local [escapeCSV], on the text [String(value)]. *)
Definition escapeCSV (str : string) : string :=
  if JS.includes comma str || JS.includes dquote str || JS.includes line_feed str
  then String dquote (double_quotes str ++ String dquote EmptyString)
  else str.

Definition ipNumber (emp : esi_row) : string :=
  if JS.truthy (esi_esi_number emp) then JS.or_empty (esi_esi_number emp)
  else if JS.truthy (esi_employee_id emp) then JS.or_empty (esi_employee_id emp)
  else "".

(** [emp.days_worked || daysInMonth]. *)
Definition daysWorked (daysInMonth : Z) (emp : esi_row) : Z :=
  if esi_days_worked emp =? 0 then daysInMonth else esi_days_worked emp.

(** The four fields of an employee row, before escaping. *)
Definition esi_record_fields (daysInMonth : Z) (emp : esi_row) : list string :=
  [ ipNumber emp;
    JS.trim (esi_employee_name emp);
    JS.String_of_Z (daysWorked daysInMonth emp);
    JS.String_of_number (rupees (esi_gross_pay_cents emp)) ].

Definition esi_record (daysInMonth : Z) (emp : esi_row) : string :=
  JS.join "," (List.map escapeCSV (esi_record_fields daysInMonth emp)).

Definition esi_header : string := "IP Number,IP Name,Days Worked,Wages".

Definition esi_text (daysInMonth : Z) (rows : list esi_row) : string :=
  JS.join newline (esi_header :: List.map (esi_record daysInMonth) rows).

Definition generateESIReturn (tenantId : string) (month year : Z) : M string :=
  try_catch
    (await payrollRun <- getPayrollRunForMonth tenantId month year;
     await orgResult <- query SelectEsiCode (select_esi_code tenantId);
     match orgResult with
     | [] => throw (Error "Organization not found")
     | org :: _ =>
         let daysInMonth := Date.last_day_before year month in
         await employeesResult <-
           query SelectEsiEmployees
             (select_esi_employees (pr_id payrollRun) tenantId daysInMonth);
         match employeesResult with
         | [] => throw (Error "No employees eligible for ESI in this payroll run")
         | _ :: _ => ret (esi_text daysInMonth employeesResult)
         end
     end)
    (fun error =>
       exec console_error "Error generating ESI Return:" error;
       throw error).

(** ** generateTDSSummary *)

Record tds_employee := mkTdsEmployee {
  te_employee_id : option string;
  te_pan : string;
  te_name : string;
  te_gross_pay : float;
  te_tds_deducted : float;
  te_section : string
}.

Record tds_section := mkTdsSection {
  sec_section : string;
  sec_description : string;
  sec_total_amount : float;
  sec_employee_count : nat;
  sec_employees : list tds_employee
}.

Record tds_organization := mkTdsOrg {
  to_name : string;
  to_pan : string;
  to_tan : string
}.

Record tds_period := mkTdsPeriod {
  tp_month : Z;
  tp_year : Z;
  tp_pay_date : date
}.

(** The summary object; [by_section] is an object keyed by section code. *)
Record tds_summary := mkTdsSummary {
  s_organization : tds_organization;
  s_period : tds_period;
  s_total_tds : float;
  s_total_employees : nat;
  s_by_section : gmap string tds_section;
  s_employees : list tds_employee
}.

Definition tds_initial (org : organization) (month year : Z)
    (payrollRun : payroll_run) (rows : list tds_row) : tds_summary :=
  {| s_organization :=
       {| to_name := JS.or_empty (org_name org);
          to_pan := JS.or_empty (org_company_pan org);
          to_tan := JS.or_empty (org_company_tan org) |};
     s_period :=
       {| tp_month := month; tp_year := year;
          tp_pay_date := pr_pay_date payrollRun |};
     s_total_tds := 0%float;
     s_total_employees := length rows;
     s_by_section :=
       {[ "192B" :=
            {| sec_section := "192B";
               sec_description := "Tax Deducted at Source on Salary";
               sec_total_amount := 0%float;
               sec_employee_count := 0%nat;
               sec_employees := [] |} ]};
     s_employees := [] |}.

Definition add_amount (x : float) (sec : tds_section) : tds_section :=
  mkTdsSection (sec_section sec) (sec_description sec)
    (sec_total_amount sec + x)%float (sec_employee_count sec) (sec_employees sec).

Definition add_count (sec : tds_section) : tds_section :=
  mkTdsSection (sec_section sec) (sec_description sec)
    (sec_total_amount sec) (sec_employee_count sec + 1)%nat (sec_employees sec).

Definition push_employee (r : tds_employee) (sec : tds_section) : tds_section :=
  mkTdsSection (sec_section sec) (sec_description sec)
    (sec_total_amount sec) (sec_employee_count sec) (sec_employees sec ++ [r]).

(** Body of the [forEach] over the rows: the summary after one more row. *)
Definition tds_add (summary : tds_summary) (emp : tds_row) : tds_summary :=
  let tdsAmount := rupees (tds_cents emp) in
  let employeeRecord :=
    {| te_employee_id := tds_employee_id emp;
       te_pan := JS.or_empty (tds_pan_number emp);
       te_name := JS.trim (tds_employee_name emp);
       te_gross_pay := rupees (tds_gross_pay_cents emp);
       te_tds_deducted := tdsAmount;
       te_section := "192B" |} in
  {| s_organization := s_organization summary;
     s_period := s_period summary;
     s_total_tds := (s_total_tds summary + tdsAmount)%float;
     s_total_employees := s_total_employees summary;
     s_by_section :=
       alter (push_employee employeeRecord) "192B"
         (alter add_count "192B"
            (alter (add_amount tdsAmount) "192B" (s_by_section summary)));
     s_employees := s_employees summary ++ [employeeRecord] |}.

Definition tds_build (org : organization) (month year : Z)
    (payrollRun : payroll_run) (rows : list tds_row) : tds_summary :=
  fold_left tds_add rows (tds_initial org month year payrollRun rows).

Definition generateTDSSummary (tenantId : string) (month year : Z)
    : M tds_summary :=
  try_catch
    (await payrollRun <- getPayrollRunForMonth tenantId month year;
     await orgResult <- query SelectOrganization (select_organization tenantId);
     match orgResult with
     | [] => throw (Error "Organization not found")
     | org :: _ =>
         await tdsResult <-
           query_cast SelectTdsEmployees
             (tds_cast_failure (pr_id payrollRun) tenantId)
             (select_tds_employees (pr_id payrollRun) tenantId);
         ret (tds_build org month year payrollRun tdsResult)
     end)
    (fun error =>
       exec console_error "Error generating TDS Summary:" error;
       throw error).

(** ** Vocabulary of the specification *)

(** The specification's three kinds of failure. The module throws plain
    [Error] objects, so a kind is read off the message. *)
Inductive error_kind := NotFound | InvalidConfig | EmptyResult.

Definition error_class (e : error) : option error_kind :=
  if String.prefix "No completed payroll run found for " (message e)
  then Some NotFound
  else if String.eqb (message e) "Organization not found"
          || String.eqb (message e) "PF Code not configured for organization"
  then Some InvalidConfig
  else if String.eqb (message e) "No employees found in payroll run"
          || String.eqb (message e)
               "No employees eligible for ESI in this payroll run"
  then Some EmptyResult
  else None.

(** Every row of [payroll_run_employees] holds an entry [key] that fits
    [bigint], or none: no cast of the entry can fail. *)
Definition bigint_metadata (key : string) (d : database) : Prop :=
  List.Forall (fun pre => SQL.in_bigint (SQL.metadata_cents key pre) = true)
    (payroll_run_employees d).

(** The three endings of the lookup's diagnostic message. *)
Definition other_periods_text (rows : list run_group) : string :=
  " Available completed payroll runs: "
    ++ JS.join ", " (List.map run_label (List.filter is_completed_group rows))
    ++ ".".

Definition not_completed_text (rows : list run_group) : string :=
  " Available payroll runs: "
    ++ JS.join ", " (List.map run_label_status rows)
    ++ ". Please complete a payroll run first.".

Definition no_runs_text : string :=
  " No payroll runs found for this organization."
    ++ " Please create and process a payroll run first.".

(** Runs of a tenant, and what the specification says about them. *)
Definition tenant_runs (tenantId : string) (d : database) : list payroll_run :=
  List.filter (fun r => String.eqb (pr_tenant_id r) tenantId) (payroll_runs d).

Definition has_completed_run_for (tenantId : string) (month year : Z)
    (d : database) : Prop :=
  exists r, In r (payroll_runs d)
            /\ is_completed_run_for tenantId month year r = true.

Definition has_completed_run (tenantId : string) (d : database) : Prop :=
  exists r, In r (tenant_runs tenantId d) /\ pr_status r = "completed".

(** Number of calendar days of a month (1 = January) of a Gregorian year:
    the specification's reading of Days Worked. *)
Definition gregorian_leap (year : Z) : bool :=
  ((year mod 4 =? 0) && negb (year mod 100 =? 0)) || (year mod 400 =? 0).

Definition calendar_days (year month : Z) : Z :=
  match month with
  | 1 | 3 | 5 | 7 | 8 | 10 | 12 => 31
  | 4 | 6 | 9 | 11 => 30
  | 2 => if gregorian_leap year then 29 else 28
  | _ => 0
  end.

(** Reading a CSV field back, RFC 4180 style: a field that opens with a
    double quote runs to its closing quote, a doubled quote inside it
    standing for one quote; any other field is taken as it is. *)
Fixpoint unquote (s : string) : string :=
  match s with
  | EmptyString => EmptyString
  | String a t =>
      if Ascii.eqb a dquote then
        match t with
        | String b u =>
            if Ascii.eqb b dquote then String dquote (unquote u)
            else EmptyString
        | EmptyString => EmptyString
        end
      else String a (unquote t)
  end.

Definition unescapeCSV (s : string) : string :=
  match s with
  | String a t => if Ascii.eqb a dquote then unquote t else s
  | EmptyString => s
  end.

(** A field needs quoting when it holds a comma, a double quote or a line
    feed. *)
Definition needs_quoting (s : string) : Prop :=
  In comma (list_ascii_of_string s)
  \/ In dquote (list_ascii_of_string s)
  \/ In line_feed (list_ascii_of_string s).

(** The derivation of EPS and EDLI kept in minor units to the end, as the
    specification words it: [round(pf_cents * rate)] cents, converted to
    whole currency units at serialization. *)
Definition eps_from_cents (pf_cents : Z) : float :=
  JS.Math_round (JS.Math_round (JS.Number pf_cents * 0.8333)%float / 100)%float.

Definition edli_from_cents (pf_cents : Z) : float :=
  JS.Math_round (JS.Math_round (JS.Number pf_cents * 0.0005)%float / 100)%float.



(** The summary and its single section agree: same total, same members,
    the count and the running total are those of the member list. *)
Definition tds_sum (records : list tds_employee) : float :=
  fold_left (fun sum r => (sum + te_tds_deducted r)%float) records 0%float.

Definition tds_consistent (s : tds_summary) : Prop :=
  exists sec,
    s_by_section s !! "192B" = Some sec
    /\ sec_section sec = "192B"
    /\ sec_total_amount sec = s_total_tds s
    /\ s_total_tds s = tds_sum (s_employees s)
    /\ sec_employee_count sec = length (s_employees s)
    /\ sec_employees sec = s_employees s
    /\ Forall (fun r => te_section r = "192B") (s_employees s).

(** ** Fixtures *)

Module Fixture.

Definition jan1 : date := mkDate 2025 1 1.

Definition org_acme : organization :=
  mkOrg "t1" (Some "Acme") (Some "MH123") (Some "ESI77") None None.

Definition org_blank_pf : organization :=
  mkOrg "t1" (Some "Acme") None (Some "ESI77") None None.

Definition staff : list employee :=
  [ mkEmployee "e1" "u1" "t1" (Some "EMP1") (Some "UAN1") None (Some "PAN1");
    mkEmployee "e2" "u2" "t1" (Some "EMP0") None (Some "ESI2") None ].

Definition people : list profile :=
  [ mkProfile "u1" (Some "John") (Some "Doe");
    mkProfile "u2" (Some "Doe, Jane") None ].

Definition march_run : payroll_run :=
  mkRun "r1" "t1" jan1 jan1 (mkDate 2025 3 31) "completed".

(** One completed run for March 2025 with two processed employees: the
    first with gross pay 2,000,000 and PF 240,000 cents, the second one
    cent above the ESI ceiling. *)
Definition acme : database :=
  mkDb [march_run] [org_acme] staff people
    [ mkPre "r1" "e1" "processed" 2000000
        {[ "pf_cents" := 240000; "tds_cents" := 12345 ]};
      mkPre "r1" "e2" "processed" 2100001 {[ "pf_cents" := 180050 ]} ]
    String.leb stored_order.

(** The same tenant with the boundary employee exactly at the ceiling. *)
Definition acme_boundary : database :=
  mkDb [march_run] [org_acme] staff people
    [ mkPre "r1" "e1" "processed" 2100001 ∅;
      mkPre "r1" "e2" "processed" 2100000 ∅ ]
    String.leb stored_order.


(** An organization without PF code and without any payroll run. *)
Definition blank_pf_no_runs : database :=
  mkDb [] [org_blank_pf] staff people [] String.leb stored_order.

(** An organization without PF code whose March run is completed. *)
Definition blank_pf_with_run : database :=
  mkDb [march_run] [org_blank_pf] staff people
    [ mkPre "r1" "e1" "processed" 2000000 {[ "pf_cents" := 240000 ]} ]
    String.leb stored_order.

(** A completed run in January 2025 followed by ten draft runs, one in
    each month from February to November 2025. *)
Definition draft_run (month : Z) : payroll_run :=
  mkRun ("d" ++ JS.String_of_Z month) "t1" jan1 jan1 (mkDate 2025 month 28) "draft".

Definition eleven_groups : database :=
  mkDb
    (mkRun "r0" "t1" jan1 jan1 (mkDate 2025 1 31) "completed"
       :: List.map draft_run [2; 3; 4; 5; 6; 7; 8; 9; 10; 11])
    [org_acme] [] [] [] String.leb stored_order.

(** Only draft runs. *)
Definition drafts_only : database :=
  mkDb (List.map draft_run [2; 3]) [org_acme] [] [] [] String.leb stored_order.

Definition fresh (d : database) : world := mkWorld d [].

End Fixture.

(** The lookup's first branch as the specification words it: whenever the
    tenant has a completed run, the message lists completed runs. *)
Definition lists_completed_whenever_any : Prop :=
  forall tenantId month year w e w',
    getPayrollRunForMonth tenantId month year w = (Throw e, w') ->
    has_completed_run tenantId (store w) ->
    exists listing,
      message e = no_run_prefix month year
                    ++ " Available completed payroll runs: " ++ listing.

(** The PF failure as the specification words it: an organization with a
    blank PF code always gets an [InvalidConfig] failure. *)
Definition blank_pf_code_is_invalid_config : Prop :=
  forall tenantId month year w org orgs,
    select_organization tenantId (store w) = org :: orgs ->
    JS.truthy (org_pf_code org) = false ->
    exists e w',
      generatePFECR tenantId month year w = (Throw e, w')
      /\ error_class e = Some InvalidConfig.

(** The TDS summary as the specification words it: for every run the
    lookup finds in which no processed employee has a positive
    [tds_cents], a summary is returned, and it is empty. *)
Definition tds_succeeds_without_deductions : Prop :=
  forall tenantId month year w payrollRun runs,
    select_completed_run tenantId month year (store w) = payrollRun :: runs ->
    (forall j,
       In j (processed_employees (pr_id payrollRun) tenantId (store w)) ->
       default 0 (pre_metadata (j_pre j) !! "tds_cents") <= 0) ->
    exists s w',
      generateTDSSummary tenantId month year w = (Ok s, w')
      /\ s_total_tds s = 0%float
      /\ s_total_employees s = 0%nat
      /\ s_employees s = [].

(** The PF derivation as the specification words it: EPS and EDLI are
    rounded from the contribution in cents and converted afterwards. *)
Definition eps_edli_derived_in_cents : Prop :=
  forall emp : pf_row,
    epsContribution emp = eps_from_cents (pf_contribution_cents emp)
    /\ edliContribution emp = edli_from_cents (pf_contribution_cents emp).

(** ** Readers of the produced files *)

(** The reports are text for a downstream reader. These definitions are
    the readers the properties below use: [String.prototype.split] on a
    one-character separator for the pipe-delimited PF file, and an
    RFC 4180 style reader (line feed as record end) for the ESI file. *)
Module Reader.

(** [s.split(sep)] for a one-character separator: the pieces between the
    separators, the empty text giving one empty piece. *)
Fixpoint split (sep : ascii) (s : string) : list string :=
  match s with
  | EmptyString => [EmptyString]
  | String a t =>
      if Ascii.eqb a sep then EmptyString :: split sep t
      else match split sep t with
           | piece :: pieces => String a piece :: pieces
           | [] => [String a EmptyString]
           end
  end.

(** A CSV text read so far, as records of fields, the text being read
    from its end: a character joins the first field, a comma opens a new
    first field, a line feed a new first record. *)
Definition csv : Type := list (list string).

Definition push (a : ascii) (r : csv) : csv :=
  match r with
  | (f :: fs) :: rs => (String a f :: fs) :: rs
  | [] :: rs => [String a EmptyString] :: rs
  | [] => [[String a EmptyString]]
  end.

Definition new_field (r : csv) : csv :=
  match r with
  | fs :: rs => (EmptyString :: fs) :: rs
  | [] => [[EmptyString]]
  end.

Definition new_record (r : csv) : csv := [EmptyString] :: r.

(** Where the reader is: at the start of a field, inside an unquoted
    field, inside a quoted field, or just after a double quote met inside
    a quoted field (a closing quote unless another quote follows). *)
Inductive mode := FieldStart | Unquoted | Quoted | QuoteSeen.

Fixpoint parse (m : mode) (s : string) : csv :=
  match s with
  | EmptyString => [[EmptyString]]
  | String a t =>
      match m with
      | Quoted =>
          if Ascii.eqb a dquote then parse QuoteSeen t
          else push a (parse Quoted t)
      | QuoteSeen =>
          if Ascii.eqb a dquote then push dquote (parse Quoted t)
          else if Ascii.eqb a comma then new_field (parse FieldStart t)
          else if Ascii.eqb a line_feed then new_record (parse FieldStart t)
          else push a (parse Unquoted t)
      | FieldStart =>
          if Ascii.eqb a dquote then parse Quoted t
          else if Ascii.eqb a comma then new_field (parse FieldStart t)
          else if Ascii.eqb a line_feed then new_record (parse FieldStart t)
          else push a (parse Unquoted t)
      | Unquoted =>
          if Ascii.eqb a comma then new_field (parse FieldStart t)
          else if Ascii.eqb a line_feed then new_record (parse FieldStart t)
          else push a (parse Unquoted t)
      end
  end.

Definition read_csv (text : string) : csv := parse FieldStart text.

End Reader.

(** ** Further vocabulary *)

(** The [employeeRecord] literal of the TDS loop, for one row. *)
Definition employeeRecord (emp : tds_row) : tds_employee :=
  {| te_employee_id := tds_employee_id emp;
     te_pan := JS.or_empty (tds_pan_number emp);
     te_name := JS.trim (tds_employee_name emp);
     te_gross_pay := rupees (tds_gross_pay_cents emp);
     te_tds_deducted := rupees (tds_cents emp);
     te_section := "192B" |}.

(** The seven fields of the PF header, before they are joined. *)
Definition pf_header_fields (org : organization) (month year : Z)
    (rows : list pf_row) : list string :=
  [ JS.or_empty (org_pf_code org);
    JS.padStart 2 "0" (JS.String_of_Z month);
    JS.String_of_Z year;
    JS.String_of_Z (Z.of_nat (length rows));
    JS.String_of_number (JS.Math_round (totalEPF rows / 100)%float);
    JS.String_of_number
      (JS.Math_round (JS.Math_round (totalEPF rows * 0.8333)%float / 100)%float);
    JS.String_of_number
      (JS.Math_round (JS.Math_round (totalEPF rows * 0.0005)%float / 100)%float) ].

(** A text free of the PF file's two delimiters. *)
Definition pf_safe (s : string) : Prop :=
  JS.includes "|" s = false /\ JS.includes line_feed s = false.

(** A total and transitive order on text, as a collation is. *)
Definition is_collation (le : string -> string -> bool) : Prop :=
  (forall a b, le a b = true \/ le b a = true)
  /\ (forall a b c, le a b = true -> le b c = true -> le a c = true).

(** The events a builder leaves besides its statements. *)
Definition is_console_error (ev : event) : bool :=
  match ev with
  | ConsoleError _ _ => true
  | Query _ => false
  end.

Definition pf_label : string := "Error generating PF ECR:".
Definition esi_label : string := "Error generating ESI Return:".
Definition tds_label : string := "Error generating TDS Summary:".

Module Fixture2.

(** A tenant with a completed March run but no organization row. *)
Definition no_organization : database :=
  mkDb [Fixture.march_run] [] Fixture.staff Fixture.people
    [ mkPre "r1" "e1" "processed" 2000000 {[ "pf_cents" := 240000 ]} ]
    String.leb stored_order.

(** The fixture's tenant with a PF contribution of 2^63 cents. *)
Definition pf_out_of_range : database :=
  mkDb [Fixture.march_run] [Fixture.org_acme] Fixture.staff Fixture.people
    [ mkPre "r1" "e1" "processed" 2000000
        {[ "pf_cents" := 9223372036854775808 ]} ]
    String.leb stored_order.

(** The fixture's tenant with a TDS entry one below the least [bigint]. *)
Definition tds_out_of_range : database :=
  mkDb [Fixture.march_run] [Fixture.org_acme] Fixture.staff Fixture.people
    [ mkPre "r1" "e1" "processed" 2000000
        {[ "tds_cents" := -9223372036854775809 ]} ]
    String.leb stored_order.

(** Draft runs in every month from March to December 2025 and a
    completed run in March: eleven groups, two of them for March. The
    order of tied rows is a parameter. *)
Definition tied_march (order : run_group -> run_group -> bool) : database :=
  mkDb
    (List.map Fixture.draft_run [3; 4; 5; 6; 7; 8; 9; 10; 11; 12]
     ++ [mkRun "r3" "t1" Fixture.jan1 Fixture.jan1 (mkDate 2025 3 31) "completed"])
    [Fixture.org_acme] [] [] [] String.leb order.

(** A server that hands a completed group back before the groups it is
    tied with. *)
Definition completed_first (a b : run_group) : bool := is_completed_group a.

(** Two completed runs in March 2025, paid on the 15th and on the 31st. *)
Definition two_march_runs : database :=
  mkDb [ mkRun "r0" "t1" Fixture.jan1 Fixture.jan1 (mkDate 2025 3 15) "completed";
         Fixture.march_run ]
    [Fixture.org_acme] Fixture.staff Fixture.people [] String.leb stored_order.

(** One processed employee with 49 cents of TDS. *)
Definition small_tds : database :=
  mkDb [Fixture.march_run] [Fixture.org_acme] Fixture.staff Fixture.people
    [ mkPre "r1" "e1" "processed" 2000000 {[ "tds_cents" := 49 ]} ]
    String.leb stored_order.

End Fixture2.

(** What the three builders do about failures: the store is never
    changed; a returned result leaves only statements in the trace; an
    error that is thrown, whichever it is (one the builder raises or the
    server's rejection of a statement), is written to the console once,
    under the builder's label, after the statements. *)
Definition reports_failure_once {A} (label : string) (b : M A) : Prop :=
  forall w,
    store (snd (b w)) = store w
    /\ match fst (b w) with
       | Ok _ =>
           exists qs, trace (snd (b w)) = (trace w ++ List.map Query qs)%list
       | Throw e =>
           exists qs,
             trace (snd (b w))
             = (trace w ++ List.map Query qs ++ [ConsoleError label e])%list
       end.

(** Number of occurrences of a character in a text. *)
Fixpoint count_char (c : ascii) (s : string) : nat :=
  match s with
  | EmptyString => 0
  | String a t => (if Ascii.eqb a c then 1 else 0) + count_char c t
  end.

(** The characters [String] can print for a number: digits, the minus
    sign, the letters of NaN and Infinity, and the point, the e and the
    plus sign of the exponent form. *)
Definition number_chars : list ascii :=
  list_ascii_of_string "0123456789-NaInfity.e+".

(** Helpers to state what the reader returns: a whole text pushed in
    front of the first field, and a field put in front of the first
    record. *)
Fixpoint push_text (f : string) (r : Reader.csv) : Reader.csv :=
  match f with
  | EmptyString => r
  | String a t => Reader.push a (push_text t r)
  end.

Definition cons_field (f : string) (r : Reader.csv) : Reader.csv :=
  match r with
  | fs :: rs => (f :: fs) :: rs
  | [] => [[f]]
  end.

(** Where a field may end: at the end of the text, before a comma or
    before a line feed. *)
Definition field_end (tail : string) : Prop :=
  tail = EmptyString
  \/ (exists t, tail = String comma t)
  \/ (exists t, tail = String line_feed t).

Definition esi_header_fields : list string :=
  ["IP Number"; "IP Name"; "Days Worked"; "Wages"].

(** The rows a tenant owns besides its runs and its organization row:
    its employees, the run results of those employees and the profiles
    of those employees. *)
Definition tenant_employees (tenantId : string) (d : database) : list employee :=
  List.filter (fun e => String.eqb (e_tenant_id e) tenantId) (employees d).

Definition result_of_tenant (tenantId : string) (d : database)
    (pre : payroll_run_employee) : bool :=
  existsb (fun e => String.eqb (e_id e) (pre_employee_id pre))
    (tenant_employees tenantId d).

Definition tenant_results (tenantId : string) (d : database)
    : list payroll_run_employee :=
  List.filter (result_of_tenant tenantId d) (payroll_run_employees d).

Definition profile_of_tenant (tenantId : string) (d : database)
    (p : profile) : bool :=
  existsb (fun e => String.eqb (p_id p) (e_user_id e))
    (tenant_employees tenantId d).

Definition tenant_profiles (tenantId : string) (d : database) : list profile :=
  List.filter (profile_of_tenant tenantId d) (profiles d).

(** Two stores that hold the same rows for a tenant, whatever they hold
    for other tenants in any of the five tables, and that order rows the
    same way. *)
Definition same_for_tenant (tenantId : string) (d1 d2 : database) : Prop :=
  List.filter (fun r => String.eqb (pr_tenant_id r) tenantId) (payroll_runs d1)
  = List.filter (fun r => String.eqb (pr_tenant_id r) tenantId) (payroll_runs d2)
  /\ List.filter (fun o => String.eqb (org_id o) tenantId) (organizations d1)
     = List.filter (fun o => String.eqb (org_id o) tenantId) (organizations d2)
  /\ tenant_employees tenantId d1 = tenant_employees tenantId d2
  /\ tenant_results tenantId d1 = tenant_results tenantId d2
  /\ tenant_profiles tenantId d1 = tenant_profiles tenantId d2
  /\ collation d1 = collation d2
  /\ tie_order d1 = tie_order d2.

(** The rows of the join for one run result, one employee and a list of
    profiles. *)
Definition join_with (ps : list profile) (pre : payroll_run_employee)
    (e : employee) : list joined :=
  if String.eqb (e_id e) (pre_employee_id pre)
  then flat_map (fun p =>
         if String.eqb (p_id p) (e_user_id e) then [(pre, e, p)] else [])
         ps
  else [].

(** The rows of the join for one run result and one employee. *)
Definition join_one (d : database) (pre : payroll_run_employee) (e : employee)
    : list joined :=
  if String.eqb (e_id e) (pre_employee_id pre)
  then flat_map (fun p =>
         if String.eqb (p_id p) (e_user_id e) then [(pre, e, p)] else [])
         (profiles d)
  else [].

Module Fixture3.

(** The fixture's tenant beside a second tenant with its own completed
    March run, organization row, employee, profile and run result. *)
Definition two_tenants : database :=
  mkDb [ mkRun "r7" "t2" Fixture.jan1 Fixture.jan1 (mkDate 2025 3 31) "completed";
         Fixture.march_run ]
    [ mkOrg "t2" (Some "Other") (Some "KA999") None None None; Fixture.org_acme ]
    (mkEmployee "e9" "u9" "t2" (Some "X1") (Some "UANX") None None
       :: Fixture.staff)
    (mkProfile "u9" (Some "Ann") (Some "Other") :: Fixture.people)
    [ mkPre "r7" "e9" "processed" 900000 {[ "pf_cents" := 108000 ]};
      mkPre "r1" "e1" "processed" 2000000
        {[ "pf_cents" := 240000; "tds_cents" := 12345 ]};
      mkPre "r1" "e2" "processed" 2100001 {[ "pf_cents" := 180050 ]} ]
    String.leb stored_order.

End Fixture3.

(** ** The financial-year helpers of the tax-declaration forms
    (components/employee-portal/TaxDeclarationsTab.tsx and the
    tax-declaration page) *)

Module FinancialYear.

Definition is_digit (a : ascii) : bool :=
  let n := nat_of_ascii a in ((48 <=? n) && (n <=? 57))%nat.

(** Decimal value of a text of digits, read from the left. *)
Fixpoint digits_value_from (acc : Z) (s : string) : Z :=
  match s with
  | EmptyString => acc
  | String a t =>
      digits_value_from (10 * acc + (Z.of_nat (nat_of_ascii a) - 48)) t
  end.

Definition digits_value (s : string) : Z := digits_value_from 0 s.

Fixpoint digit_prefix (s : string) : string :=
  match s with
  | String a t => if is_digit a then String a (digit_prefix t) else EmptyString
  | EmptyString => EmptyString
  end.

(** [parseInt(s, 10)]: leading white space is skipped, a sign is read,
    then the longest run of digits; [None] is NaN (no digit). *)
Definition parseInt (s : string) : option Z :=
  match JS.trimStart s with
  | String a t =>
      if Ascii.eqb a "-" then
        (if String.eqb (digit_prefix t) "" then None
         else Some (- digits_value (digit_prefix t)))
      else if Ascii.eqb a "+" then
        (if String.eqb (digit_prefix t) "" then None
         else Some (digits_value (digit_prefix t)))
      else
        (if String.eqb (digit_prefix (String a t)) "" then None
         else Some (digits_value (digit_prefix (String a t))))
  | EmptyString => None
  end.

(** [`${start}-${start + 1}`] for a number; NaN prints as NaN. *)
Definition label (start : option Z) : string :=
  match start with
  | Some y => JS.String_of_Z y ++ "-" ++ JS.String_of_Z (y + 1)
  | None => "NaN-NaN"
  end.

(** [getCurrentFinancialYear], as a function of [now.getFullYear()] and
    [now.getMonth()] (0 = January): the year starts in April. *)
Definition getCurrentFinancialYear (year month : Z) : string :=
  let startYear := if 3 <=? month then year else year - 1 in
  JS.String_of_Z startYear ++ "-" ++ JS.String_of_Z (startYear + 1).

(** [financialYearOptions]: the start year is read back from the text of
    the current financial year. *)
Definition financialYearOptions (year month : Z) : list string :=
  let current :=
    parseInt (hd EmptyString
                (Reader.split "-" (getCurrentFinancialYear year month))) in
  List.map label
    [ option_map (fun c => c - 1) current;
      current;
      option_map (fun c => c + 1) current ].

Fixpoint skip_spaces (s : string) : string :=
  match s with
  | String a t => if JS.is_space a then skip_spaces t else s
  | EmptyString => EmptyString
  end.

Fixpoint all_digits (s : string) : bool :=
  match s with
  | EmptyString => true
  | String a t => is_digit a && all_digits t
  end.

(** The pattern of [normalizeFinancialYear]: four digits, optional white
    space, a hyphen or a slash, optional white space, then exactly two or
    exactly four digits up to the end. The result is the two groups.
    (White space is that of [JS.is_space], digits are 0 to 9.) *)
Definition fy_match (s : string) : option (string * string) :=
  match s with
  | String a (String b (String c (String d rest))) =>
      if is_digit a && is_digit b && is_digit c && is_digit d then
        match skip_spaces rest with
        | String sep rest1 =>
            if Ascii.eqb sep "-" || Ascii.eqb sep "/" then
              let e := skip_spaces rest1 in
              if all_digits e
                 && ((String.length e =? 2)%nat || (String.length e =? 4)%nat)
              then Some (String a (String b (String c (String d EmptyString))), e)
              else None
            else None
        | EmptyString => None
        end
      else None
  | _ => None
  end.

Definition normalizeFinancialYear (value : string) : string :=
  if String.eqb value "" then value
  else
    let trimmed := JS.trim value in
    match fy_match trimmed with
    | None => trimmed
    | Some (g1, endPart) =>
        let startYear := digits_value g1 in
        let endYear :=
          if (String.length endPart =? 2)%nat
          then startYear / 100 * 100 + digits_value endPart
          else digits_value endPart in
        let endYear := if endYear <=? startYear then startYear + 1 else endYear in
        JS.String_of_Z startYear ++ "-" ++ JS.String_of_Z endYear
    end.

(** The texts the pattern accepts, written out: four digits, white
    space, a hyphen or a slash, white space, two or four digits. *)
Fixpoint all_spaces (s : string) : bool :=
  match s with
  | EmptyString => true
  | String a t => JS.is_space a && all_spaces t
  end.

Definition year_text (g1 gap1 : string) (sep : ascii) (gap2 g2 : string)
  : string :=
  g1 ++ gap1 ++ String sep (gap2 ++ g2).

Definition year_shape (g1 gap1 : string) (sep : ascii) (gap2 g2 : string)
  : Prop :=
  all_digits g1 = true /\ String.length g1 = 4%nat
  /\ all_spaces gap1 = true
  /\ (sep = "-"%char \/ sep = "/"%char)
  /\ all_spaces gap2 = true
  /\ all_digits g2 = true
  /\ (String.length g2 = 2%nat \/ String.length g2 = 4%nat).

(** The end year a start and an end part stand for: a two-digit end is
    put in the century of the start; an end that is not after the start
    gives way to the year after the start. *)
Definition end_year (g1 g2 : string) : Z :=
  let startYear := digits_value g1 in
  let endYear :=
    if (String.length g2 =? 2)%nat
    then startYear / 100 * 100 + digits_value g2
    else digits_value g2 in
  if endYear <=? startYear then startYear + 1 else endYear.

(** A text of one-byte characters below 128: on these the white space
    and the digits of JavaScript are the ones of this model. *)
Fixpoint ascii_only (s : string) : bool :=
  match s with
  | EmptyString => true
  | String a t => (nat_of_ascii a <? 128)%nat && ascii_only t
  end.

(** A check run over all numbers below a bound. *)
Fixpoint all_below (n : nat) (check : Z -> bool) : bool :=
  match n with
  | O => true
  | S k => check (Z.of_nat k) && all_below k check
  end.

(** A number from 1000 to 9999 prints as four digits that read back as
    the number; a smaller natural number prints as at most three
    characters. *)
Definition prints_four_digits (n : Z) : bool :=
  (n <? 1000)
  || match JS.String_of_Z n with
     | String a (String b (String c (String d EmptyString))) =>
         is_digit a && is_digit b && is_digit c && is_digit d
         && (digits_value (JS.String_of_Z n) =? n)
     | _ => false
     end.

Definition prints_short (n : Z) : bool :=
  (1000 <=? n) || (String.length (JS.String_of_Z n) <=? 3)%nat.

End FinancialYear.

(** ** The tax-declaration page: form state, payload and saving
    (the page component with [buildPayloadItems] and [handleSave]) *)

Module TaxForm.

Record TaxComponentDefinition := mkDefinition {
  def_id : string;
  def_label : string;
  def_section : string;
  def_section_group : option string;
  def_max_limit : option string
}.

(** [FormItemState]. A field is [None] when the object lacks it: the
    handlers build an item by spreading [prev[componentId]], which is
    undefined for a component that has no item yet. *)
Record FormItemState := mkItemState {
  declaredAmount : option string;
  proofUrl : option string;
  include : option bool
}.

(** [formItems] is a plain object used as a map from component ids to
    items: a finite map here. (An id that names a property of
    [Object.prototype] reads as an object without the three fields, which
    the code treats as it treats a missing item; the id [__proto__] is
    outside this model.) *)

(** [{...undefined}]. *)
Definition absent : FormItemState := mkItemState None None None.

Definition spread (prev : gmap string FormItemState) (componentId : string)
  : FormItemState :=
  default absent (prev !! componentId).

Definition handleToggleInclude (componentId : string) (checked : bool)
    (prev : gmap string FormItemState) : gmap string FormItemState :=
  <[componentId :=
      mkItemState
        (Some (if checked
               then JS.or_empty (declaredAmount (spread prev componentId))
               else ""))
        (proofUrl (spread prev componentId))
        (Some checked)]> prev.

Definition handleAmountChange (componentId value : string)
    (prev : gmap string FormItemState) : gmap string FormItemState :=
  <[componentId :=
      mkItemState (Some value) (proofUrl (spread prev componentId))
        (Some true)]> prev.

Definition handleProofChange (componentId value : string)
    (prev : gmap string FormItemState) : gmap string FormItemState :=
  <[componentId :=
      mkItemState (declaredAmount (spread prev componentId)) (Some value)
        (include (spread prev componentId))]> prev.

(** [formItems[def.id]?.include] as a condition. *)
Definition is_marked (formItems : gmap string FormItemState)
    (def : TaxComponentDefinition) : bool :=
  match formItems !! def_id def with
  | Some itemState => default false (include itemState)
  | None => false
  end.

Definition filteredDefinitions (showOnlyMarked : bool)
    (definitions : list TaxComponentDefinition)
    (formItems : gmap string FormItemState) : list TaxComponentDefinition :=
  if negb showOnlyMarked then definitions
  else List.filter (is_marked formItems) definitions.

Record payload_item := mkPayloadItem {
  component_id : string;
  declared_amount : float;
  proof_url : option string
}.

Inductive target_status := Draft | Submitted.

Inductive tax_regime := OldRegime | NewRegime.

Record save_request := mkRequest {
  req_financial_year : string;
  req_chosen_regime : tax_regime;
  req_status : target_status;
  req_items : list payload_item
}.

(** How [api.saveTaxDeclaration] ends: it resolves, or it rejects with
    an error whose message may be missing. *)
Inductive api_outcome := Resolved | Rejected (message : option string).

(** What [handleSave] and [loadData] do, in order: the toasts, the
    requests to the API, the console output and the two busy flags. (The
    setters of the loaded data are left out; the form state they set is
    [draftState] below.) *)
Inductive page_event :=
| Toast (title description : string) (destructive : bool)
| SetSaving (flag : bool)
| SetLoading (flag : bool)
| SaveTaxDeclaration (request : save_request)
| GetTaxDefinitions (financialYear : string)
| GetMyTaxDeclaration (financialYear : string)
| LogError (label : string) (message : option string).

(** [error?.message || fallback]. *)
Definition message_or (message : option string) (fallback : string) : string :=
  if JS.truthy message then JS.or_empty message else fallback.

(** [loadData], given how its [try] block ends: both requests are sent,
    then the data is set, or the failure is logged and shown; the
    loading flag is lowered either way. *)
Definition loadData (financialYear : string) (outcome : api_outcome)
    : list page_event :=
  ([ SetLoading true;
     GetTaxDefinitions financialYear;
     GetMyTaxDeclaration financialYear ]
   ++ match outcome with
      | Resolved => []
      | Rejected message =>
          [ LogError "Failed to load tax declaration data" message;
            Toast "Error"
              (message_or message "Unable to load tax declaration data") true ]
      end
   ++ [ SetLoading false ])%list.

Definition is_submitted (targetStatus : target_status) : bool :=
  match targetStatus with
  | Submitted => true
  | Draft => false
  end.

Section WithNumber.

(** [Number(text)] for a non-empty text: the properties below hold for
    every reading of a text as a number. *)
Variable Number : string -> float.

(** [Number(itemState.declaredAmount || 0)]. *)
Definition declared (itemState : FormItemState) : float :=
  match declaredAmount itemState with
  | Some text => if String.eqb text "" then 0%float else Number text
  | None => 0%float
  end.

(** The body of the [forEach] of [buildPayloadItems]. *)
Definition push_item (formItems : gmap string FormItemState)
    (payloadItems : list payload_item) (def : TaxComponentDefinition)
  : list payload_item :=
  match formItems !! def_id def with
  | None => payloadItems
  | Some itemState =>
      if default false (include itemState)
         && PrimFloat.ltb 0 (declared itemState)
      then
        (payloadItems
         ++ [ mkPayloadItem (def_id def) (declared itemState)
                (if JS.truthy (proofUrl itemState)
                 then proofUrl itemState else None) ])%list
      else payloadItems
  end.

Definition buildPayloadItems (definitions : list TaxComponentDefinition)
    (formItems : gmap string FormItemState) : list payload_item :=
  fold_left (push_item formItems) definitions [].

(** [handleSave], given how the request ends and, when it resolves, how
    the reload after it ends. *)
Definition handleSave (targetStatus : target_status)
    (financialYear : string) (regime : tax_regime)
    (definitions : list TaxComponentDefinition)
    (formItems : gmap string FormItemState)
    (outcome reload : api_outcome) : list page_event :=
  if is_submitted targetStatus && (length definitions =? 0)%nat then
    [ Toast "Missing definitions"
        "No tax components defined for this financial year." true ]
  else
    let payloadItems := buildPayloadItems definitions formItems in
    if is_submitted targetStatus && (length payloadItems =? 0)%nat then
      [ Toast "No deductions"
          "Add at least one tax component before submitting." true ]
    else
      ([ SetSaving true;
         SaveTaxDeclaration
           (mkRequest financialYear regime targetStatus payloadItems) ]
       ++ match outcome with
          | Resolved =>
              Toast (if is_submitted targetStatus
                     then "Declaration submitted" else "Draft saved")
                (if is_submitted targetStatus
                 then "Your declaration has been submitted for approval."
                 else "Your draft was saved successfully.")
                false
              :: loadData financialYear reload
          | Rejected message =>
              [ LogError "Failed to save tax declaration" message;
                Toast "Error"
                  (message_or message "Unable to save tax declaration")
                  true ]
          end
       ++ [ SetSaving false ])%list.

End WithNumber.

(** *** The form state [loadData] builds *)

Record TaxDeclarationItem := mkDeclarationItem {
  item_id : string;
  item_component_id : string;
  item_declared_amount : string;
  item_approved_amount : option string;
  item_proof_url : option string;
  item_notes : option string
}.

(** [items.find(item => item.component_id === id)]. *)
Definition find_item (items : list TaxDeclarationItem) (id : string)
  : option TaxDeclarationItem :=
  List.find (fun item => String.eqb (item_component_id item) id) items.

Section WithParsing.

(** [parseFloat] and the [toString] of numbers: the properties below
    hold for every pair of them. *)
Variable parseFloat : string -> float.
Variable toString : float -> string.

(** [parseFloat(existing.declared_amount).toString() || "0"]. *)
Definition loaded_text (existing : TaxDeclarationItem) : string :=
  let text := toString (parseFloat (item_declared_amount existing)) in
  if String.eqb text "" then "0" else text.

Definition draft_item (existing : option TaxDeclarationItem) : FormItemState :=
  match existing with
  | Some item =>
      mkItemState (Some (loaded_text item))
        (Some (JS.or_empty (item_proof_url item)))
        (Some (PrimFloat.ltb 0 (parseFloat (item_declared_amount item))))
  | None => mkItemState (Some "") (Some "") (Some false)
  end.

(** The [draftState] of [loadData]: [defs] is [None] when the API gave
    no definitions ([defs?.forEach], [defs || []]); [items] is
    [declResult.items || []]. *)
Definition draftState (defs : option (list TaxComponentDefinition))
    (items : list TaxDeclarationItem) : gmap string FormItemState :=
  fold_left
    (fun draft def =>
       <[def_id def := draft_item (find_item items (def_id def))]> draft)
    (default [] defs) ∅.

(** What the stored items hold for a definition: the first item of the
    component, when its amount is greater than zero. *)
Definition stored_entry (items : list TaxDeclarationItem)
    (def : TaxComponentDefinition) : list payload_item :=
  match find_item items (def_id def) with
  | Some item =>
      if PrimFloat.ltb 0 (parseFloat (item_declared_amount item))
      then [ mkPayloadItem (def_id def)
               (parseFloat (item_declared_amount item))
               (if JS.truthy (item_proof_url item)
                then item_proof_url item else None) ]
      else []
  | None => []
  end.

Definition has_stored_amount (items : list TaxDeclarationItem)
    (def : TaxComponentDefinition) : bool :=
  match find_item items (def_id def) with
  | Some item => PrimFloat.ltb 0 (parseFloat (item_declared_amount item))
  | None => false
  end.

End WithParsing.

(** *** The declaration form of the employee portal ([handleSubmit]) *)

Record form_data := mkFormData {
  fd_financial_year : string;
  fd_section80C : string;
  fd_section80D : string;
  fd_hra : string;
  fd_homeLoanInterest : string;
  fd_otherDeductions : string
}.

Record declaration_data := mkDeclarationData {
  dd_section80C : float;
  dd_section80D : float;
  dd_hra : float;
  dd_homeLoanInterest : float;
  dd_otherDeductions : float
}.

Record submit_item := mkSubmitItem {
  si_component_id : string;
  si_declared_amount : float
}.

Record submit_payload := mkSubmitPayload {
  sp_financial_year : string;
  sp_declaration_data : declaration_data;
  sp_status : string;
  sp_items : list submit_item
}.

(** A number as a condition: zero, negative zero and NaN are falsy. *)
Definition number_truthy (x : float) : bool :=
  match Prim2SF x with
  | S754_zero _ => false
  | S754_nan => false
  | _ => true
  end.

(** [Number(text) || 0]. *)
Definition number_or_zero (Number : string -> float) (text : string) : float :=
  if number_truthy (Number text) then Number text else 0%float.

(** The payload [handleSubmit] posts. *)
Definition handleSubmit_payload (Number : string -> float)
    (formData : form_data) : submit_payload :=
  let declarationData :=
    mkDeclarationData
      (number_or_zero Number (fd_section80C formData))
      (number_or_zero Number (fd_section80D formData))
      (number_or_zero Number (fd_hra formData))
      (number_or_zero Number (fd_homeLoanInterest formData))
      (number_or_zero Number (fd_otherDeductions formData)) in
  let normalizedFY :=
    FinancialYear.normalizeFinancialYear (fd_financial_year formData) in
  mkSubmitPayload normalizedFY declarationData "draft"
    [ mkSubmitItem "PAYROLL_SECTION_80C" (dd_section80C declarationData);
      mkSubmitItem "PAYROLL_SECTION_80D" (dd_section80D declarationData);
      mkSubmitItem "PAYROLL_SECTION_24B" (dd_homeLoanInterest declarationData);
      mkSubmitItem "PAYROLL_HRA" (dd_hra declarationData);
      mkSubmitItem "PAYROLL_OTHER_DEDUCTIONS"
        (dd_otherDeductions declarationData) ].

(** *** Vocabulary of the properties *)

(** The item a definition contributes to the payload, if any. *)
Definition entry (Number : string -> float)
    (formItems : gmap string FormItemState) (def : TaxComponentDefinition)
  : list payload_item :=
  push_item Number formItems [] def.

Definition other_than (componentId : string) (item : payload_item) : bool :=
  negb (String.eqb (component_id item) componentId).

Definition amount_of (item : payload_item) : string * float :=
  (component_id item, declared_amount item).

Definition requests (events : list page_event) : list save_request :=
  flat_map (fun e => match e with
                     | SaveTaxDeclaration r => [r]
                     | _ => []
                     end) events.

Definition toasts (events : list page_event) : list page_event :=
  List.filter (fun e => match e with Toast _ _ _ => true | _ => false end)
    events.

Definition saving_flags (events : list page_event) : list bool :=
  flat_map (fun e => match e with SetSaving b => [b] | _ => [] end) events.

(** The financial years for which the declaration is fetched again. *)
Definition reloads (events : list page_event) : list string :=
  flat_map (fun e => match e with
                     | GetMyTaxDeclaration year => [year]
                     | _ => []
                     end) events.

(** [Number] on the texts of digits, for the examples: a text of digits
    is its value, any other text is taken as NaN here. *)
Definition digits_number (text : string) : float :=
  if FinancialYear.all_digits text && negb (String.eqb text "")
  then JS.Number (FinancialYear.digits_value text)
  else PrimFloat.nan.

(** A component of the examples. *)
Definition c80 : TaxComponentDefinition :=
  mkDefinition "c80" "Section 80C" "80C" None (Some "150000").

End TaxForm.

(** ** Lemmas on the SQL building blocks *)

Section OrderBy.
Context {A : Type} (le : A -> A -> bool).

Lemma insert_by_In (x y : A) (l : list A) :
  In y (SQL.insert_by le x l) <-> y = x \/ In y l.
Proof.
  induction l as [|z l IH]; simpl.
  - intuition.
  - destruct (le x z); simpl; rewrite ?IH; intuition.
Qed.

Lemma order_by_In (y : A) (l : list A) :
  In y (SQL.order_by le l) <-> In y l.
Proof.
  induction l as [|x l IH]; simpl; [reflexivity|].
  rewrite insert_by_In, IH. intuition.
Qed.

Lemma insert_by_length (x : A) (l : list A) :
  length (SQL.insert_by le x l) = S (length l).
Proof.
  induction l as [|z l IH]; simpl; [reflexivity|].
  destruct (le x z); simpl; [reflexivity | now rewrite IH].
Qed.

Lemma order_by_length (l : list A) :
  length (SQL.order_by le l) = length l.
Proof.
  induction l as [|x l IH]; simpl; [reflexivity|].
  now rewrite insert_by_length, IH.
Qed.

Lemma order_by_nil (l : list A) : SQL.order_by le l = [] <-> l = [].
Proof.
  split; intros H.
  - apply length_zero_iff_nil. rewrite <- (order_by_length l), H. reflexivity.
  - subst l. reflexivity.
Qed.
End OrderBy.

Lemma limit_nil {A} (n : nat) (l : list A) :
  (0 < n)%nat -> SQL.limit n l = [] <-> l = [].
Proof.
  intros Hn. destruct n; [lia|]. destruct l; simpl; split; congruence.
Qed.

Lemma limit_all {A} (n : nat) (l : list A) :
  (length l <= n)%nat -> SQL.limit n l = l.
Proof. intros H. unfold SQL.limit. now apply firstn_all2. Qed.

Lemma limit_In {A} (n : nat) (l : list A) (x : A) :
  In x (SQL.limit n l) -> In x l.
Proof.
  unfold SQL.limit. revert l. induction n as [|n IH]; intros [|y l]; simpl; try tauto.
  intros [->|H]; [now left | right; now apply IH].
Qed.

Lemma limit_length {A} (n : nat) (l : list A) :
  (length (SQL.limit n l) <= n)%nat.
Proof. unfold SQL.limit. apply firstn_le_length. Qed.

Lemma filter_nil_iff {A} (p : A -> bool) (l : list A) :
  List.filter p l = [] <-> forall x, In x l -> p x = false.
Proof.
  induction l as [|y l IH]; simpl.
  - split; [intros _ x [] | reflexivity].
  - destruct (p y) eqn:Hy; split.
    + discriminate.
    + intros H. specialize (H y (or_introl eq_refl)). congruence.
    + intros H x [->|Hx]; [assumption | now apply IH].
    + intros H. apply IH. intros x Hx. apply H. now right.
Qed.

(** *** Grouping *)

Lemma add_to_groups_member (r : payroll_run) (gs : list run_group) :
  exists g, In g (add_to_groups r gs) /\ same_group r g = true.
Proof.
  induction gs as [|g gs [g' [Hin Hg']]]; simpl.
  - eexists. split; [now left|]. unfold same_group. simpl.
    now rewrite !Z.eqb_refl, String.eqb_refl.
  - destruct (same_group r g) eqn:Hg.
    + eexists. split; [now left|]. exact Hg.
    + exists g'. split; [now right | assumption].
Qed.

Lemma add_to_groups_keeps (r r0 : payroll_run) (gs : list run_group) :
  (exists g, In g gs /\ same_group r0 g = true) ->
  exists g, In g (add_to_groups r gs) /\ same_group r0 g = true.
Proof.
  induction gs as [|g gs IH]; simpl; intros [g0 [Hin Hg0]]; [contradiction|].
  destruct Hin as [->|Hin].
  - destruct (same_group r g0) eqn:Hg.
    + eexists. split; [now left|]. exact Hg0.
    + exists g0. split; [now left | assumption].
  - destruct (same_group r g) eqn:Hg.
    + exists g0. split; [now right | assumption].
    + destruct IH as [g1 [H1 H2]]; [now exists g0|].
      exists g1. split; [now right | assumption].
Qed.

Lemma add_to_groups_source (r : payroll_run) (gs : list run_group) (g : run_group) :
  In g (add_to_groups r gs) ->
  same_group r g = true
  \/ exists g0, In g0 gs /\ g_month g0 = g_month g /\ g_year g0 = g_year g
                /\ g_status g0 = g_status g.
Proof.
  induction gs as [|g1 gs IH]; simpl.
  - intros [<-|[]]. left. unfold same_group. simpl.
    now rewrite !Z.eqb_refl, String.eqb_refl.
  - destruct (same_group r g1) eqn:Hg.
    + intros [<-|Hin].
      * left. exact Hg.
      * right. exists g. auto.
    + intros [<-|Hin].
      * right. exists g1. auto.
      * destruct (IH Hin) as [H|[g0 [H0 H1]]]; [now left|].
        right. exists g0. auto.
Qed.

Lemma group_runs_acc_member (runs : list payroll_run) (gs : list run_group)
    (r : payroll_run) :
  In r runs \/ (exists g, In g gs /\ same_group r g = true) ->
  exists g, In g (fold_left (fun gs r => add_to_groups r gs) runs gs)
            /\ same_group r g = true.
Proof.
  revert gs. induction runs as [|r1 runs IH]; simpl; intros gs [Hin|Hg].
  - contradiction.
  - assumption.
  - apply IH. destruct Hin as [->|Hin]; [right | now left].
    apply add_to_groups_member.
  - apply IH. right. now apply add_to_groups_keeps.
Qed.

Lemma group_runs_acc_source (runs : list payroll_run) (gs : list run_group)
    (g : run_group) :
  In g (fold_left (fun gs r => add_to_groups r gs) runs gs) ->
  (exists r, In r runs /\ same_group r g = true)
  \/ exists g0, In g0 gs /\ g_month g0 = g_month g /\ g_year g0 = g_year g
                /\ g_status g0 = g_status g.
Proof.
  revert gs. induction runs as [|r1 runs IH]; simpl; intros gs Hin.
  - right. exists g. auto.
  - destruct (IH _ Hin) as [[r [Hr Hg]]|[g0 [H0 [Hm [Hy Hs]]]]].
    + left. exists r. auto.
    + destruct (add_to_groups_source _ _ _ H0) as [H|[g1 [H1 [Hm1 [Hy1 Hs1]]]]].
      * left. exists r1. split; [now left|].
        unfold same_group in *. now rewrite <- Hm, <- Hy, <- Hs.
      * right. exists g1. repeat split; congruence.
Qed.

Lemma group_runs_member (runs : list payroll_run) (r : payroll_run) :
  In r runs -> exists g, In g (group_runs runs) /\ same_group r g = true.
Proof. intros H. apply group_runs_acc_member. now left. Qed.

Lemma group_runs_source (runs : list payroll_run) (g : run_group) :
  In g (group_runs runs) -> exists r, In r runs /\ same_group r g = true.
Proof.
  intros H. destruct (group_runs_acc_source _ _ _ H) as [Hr|[g0 [[] _]]].
  exact Hr.
Qed.

Lemma group_runs_nil (runs : list payroll_run) :
  group_runs runs = [] <-> runs = [].
Proof.
  split; intros H; [|now subst].
  destruct runs as [|r runs]; [reflexivity|].
  destruct (group_runs_member (r :: runs) r) as [g [Hin _]]; [now left|].
  rewrite H in Hin. contradiction.
Qed.

Lemma same_group_spec (r : payroll_run) (g : run_group) :
  same_group r g = true <->
  d_month (pr_pay_date r) = g_month g /\ d_year (pr_pay_date r) = g_year g
  /\ pr_status r = g_status g.
Proof.
  unfold same_group. rewrite !andb_true_iff, !Z.eqb_eq, String.eqb_eq. tauto.
Qed.

(** ** Lemmas on texts *)

Lemma join_cons_nonempty (sep x : string) (l : list string) :
  x <> "" -> JS.join sep (x :: l) <> "".
Proof.
  intros Hx. unfold JS.join. simpl.
  destruct l; [assumption|].
  destruct x; [congruence | discriminate].
Qed.

Lemma run_label_nonempty (g : run_group) : run_label g <> "".
Proof.
  unfold run_label. destruct (JS.String_of_Z (g_month g)); discriminate.
Qed.

Lemma available_runs_empty (rows : list run_group) :
  String.eqb
    (JS.join ", " (List.map run_label (List.filter is_completed_group rows))) ""
  = negb (existsb is_completed_group rows).
Proof.
  induction rows as [|g rows IH]; simpl; [reflexivity|].
  destruct (is_completed_group g) eqn:Hg; simpl; [|exact IH].
  apply String.eqb_neq. apply join_cons_nonempty, run_label_nonempty.
Qed.

Lemma string_app_assoc (a b c : string) : (a ++ b) ++ c = a ++ (b ++ c).
Proof.
  induction a as [|x a IH]; [reflexivity|].
  change (String x ((a ++ b) ++ c) = String x (a ++ (b ++ c))).
  now rewrite IH.
Qed.

Lemma prefix_append (p s : string) : String.prefix p (p ++ s) = true.
Proof.
  induction p as [|a p IH].
  - now destruct s.
  - change (String.prefix (String a p) (String a (p ++ s)) = true).
    simpl. destruct (ascii_dec a a); [exact IH | congruence].
Qed.

Lemma no_run_message_class (month year : Z) (rows : list run_group) :
  error_class (Error (no_run_message month year rows)) = Some NotFound.
Proof.
  unfold error_class, no_run_message, no_run_prefix. simpl message.
  destruct (0 <? length rows)%nat;
    [destruct (negb _)|];
    rewrite string_app_assoc, prefix_append; reflexivity.
Qed.

Lemma endings_differ (rows1 rows2 : list run_group) :
  other_periods_text rows1 <> not_completed_text rows2
  /\ other_periods_text rows1 <> no_runs_text
  /\ not_completed_text rows2 <> no_runs_text.
Proof.
  unfold other_periods_text, not_completed_text, no_runs_text.
  repeat split; simpl; discriminate.
Qed.

(** ** Running the lookup *)

Lemma select_completed_run_nil (tenantId : string) (month year : Z)
    (d : database) :
  select_completed_run tenantId month year d = []
  <-> ~ has_completed_run_for tenantId month year d.
Proof.
  unfold select_completed_run, has_completed_run_for.
  rewrite limit_nil by lia. rewrite order_by_nil, filter_nil_iff.
  split.
  - intros H [r [Hin Hr]]. rewrite (H r Hin) in Hr. discriminate.
  - intros H r Hin. destruct (is_completed_run_for _ _ _ r) eqn:Hr; [|reflexivity].
    exfalso. apply H. now exists r.
Qed.

Lemma select_completed_run_head (tenantId : string) (month year : Z)
    (d : database) (r : payroll_run) (rest : list payroll_run) :
  select_completed_run tenantId month year d = r :: rest ->
  In r (payroll_runs d) /\ is_completed_run_for tenantId month year r = true.
Proof.
  unfold select_completed_run. intros H.
  assert (Hin : In r (SQL.limit 1
     (SQL.order_by (fun a b => date_leb (pr_pay_date b) (pr_pay_date a))
        (List.filter (is_completed_run_for tenantId month year) (payroll_runs d)))))
    by (rewrite H; now left).
  apply limit_In, order_by_In, filter_In in Hin. exact Hin.
Qed.

Lemma getPayrollRunForMonth_found (tenantId : string) (month year : Z)
    (w : world) (r : payroll_run) (rest : list payroll_run) :
  select_completed_run tenantId month year (store w) = r :: rest ->
  getPayrollRunForMonth tenantId month year w
  = (Ok r, mkWorld (store w) (trace w ++ [Query SelectCompletedRun])).
Proof.
  intros H. unfold getPayrollRunForMonth, bind, query. simpl. now rewrite H.
Qed.

Lemma getPayrollRunForMonth_missing (tenantId : string) (month year : Z)
    (w : world) :
  select_completed_run tenantId month year (store w) = [] ->
  getPayrollRunForMonth tenantId month year w
  = (Throw (Error (no_run_message month year (select_all_runs tenantId (store w)))),
     mkWorld (store w)
       (trace w ++ [Query SelectCompletedRun; Query SelectAllRuns])).
Proof.
  intros H. unfold getPayrollRunForMonth, bind, query, throw. simpl.
  rewrite H. simpl. now rewrite <- app_assoc.
Qed.

Lemma select_all_runs_nil (tenantId : string) (d : database) :
  select_all_runs tenantId d = [] <-> tenant_runs tenantId d = [].
Proof.
  unfold select_all_runs, tenant_runs.
  rewrite limit_nil by lia. now rewrite order_by_nil, group_runs_nil.
Qed.

Lemma select_all_runs_source (tenantId : string) (d : database) (g : run_group) :
  In g (select_all_runs tenantId d) ->
  exists r, In r (tenant_runs tenantId d) /\ same_group r g = true.
Proof.
  unfold select_all_runs. intros H.
  apply limit_In, order_by_In in H. now apply group_runs_source.
Qed.

Lemma select_all_runs_completed (tenantId : string) (d : database) :
  (length (group_runs (tenant_runs tenantId d)) <= 10)%nat ->
  existsb is_completed_group (select_all_runs tenantId d) = true
  <-> has_completed_run tenantId d.
Proof.
  intros Hlen. unfold has_completed_run. rewrite existsb_exists. split.
  - intros [g [Hin Hg]].
    destruct (select_all_runs_source _ _ _ Hin) as [r [Hr Hsame]].
    exists r. split; [assumption|].
    apply same_group_spec in Hsame as (_ & _ & ->).
    now apply String.eqb_eq.
  - intros [r [Hr Hs]].
    destruct (group_runs_member _ _ Hr) as [g [Hin Hsame]].
    exists g. split.
    + unfold select_all_runs. rewrite limit_all.
      * apply order_by_In. exact Hin.
      * rewrite order_by_length. exact Hlen.
    + apply same_group_spec in Hsame as (_ & _ & Hst).
      unfold is_completed_group. rewrite <- Hst, Hs. reflexivity.
Qed.

(** *** The order of the diagnostic statement *)

Section SortedBy.
Context {A : Type} (le : A -> A -> bool) (R : A -> A -> Prop).
Hypothesis le_R : forall a b, le a b = true -> R a b.
Hypothesis not_le_R : forall a b, le a b = false -> R b a.
Hypothesis R_trans : forall a b c, R a b -> R b c -> R a c.

Lemma insert_by_sorted_by (x : A) (l : list A) :
  StronglySorted R l -> StronglySorted R (SQL.insert_by le x l).
Proof.
  induction 1 as [|y l Hsorted IH Hy]; simpl.
  - constructor; constructor.
  - destruct (le x y) eqn:Hxy.
    + constructor; [now constructor|].
      constructor; [now apply le_R|].
      apply List.Forall_forall. intros z Hz.
      rewrite List.Forall_forall in Hy.
      apply (R_trans x y z); [now apply le_R | now apply Hy].
    + constructor; [assumption|].
      apply List.Forall_forall. intros z Hz.
      apply insert_by_In in Hz as [->|Hz].
      * now apply not_le_R.
      * rewrite List.Forall_forall in Hy. now apply Hy.
Qed.

Lemma order_by_sorted_by (l : list A) : StronglySorted R (SQL.order_by le l).
Proof.
  induction l as [|x l IH]; simpl; [constructor|].
  now apply insert_by_sorted_by.
Qed.
End SortedBy.

Lemma sorted_limit {A} (R : A -> A -> Prop) (n : nat) (l : list A) :
  StronglySorted R l -> StronglySorted R (SQL.limit n l).
Proof.
  unfold SQL.limit. revert l.
  induction n as [|n IH]; intros l Hs; [constructor|].
  destruct Hs as [|x l Hs Hx]; simpl; [constructor|].
  constructor; [now apply IH|].
  apply List.Forall_forall. intros z Hz.
  rewrite List.Forall_forall in Hx. apply Hx.
  exact (limit_In n l z Hz).
Qed.

(** A row cut off by [LIMIT] comes after every row that is kept. *)
Lemma limit_cuts_the_end {A} (R : A -> A -> Prop) (n : nat) (l : list A)
    (a b : A) :
  StronglySorted R l ->
  In a (SQL.limit n l) -> In b (skipn n l) -> R a b.
Proof.
  unfold SQL.limit. revert l.
  induction n as [|n IH]; intros l Hs Ha Hb; [destruct Ha|].
  destruct Hs as [|x l Hs Hx]; simpl in Ha, Hb; [destruct Ha|].
  destruct Ha as [<-|Ha]; [|now apply (IH l)].
  rewrite List.Forall_forall in Hx. apply Hx.
  rewrite <- (firstn_skipn n l). apply in_or_app. now right.
Qed.

Lemma limit_or_cut {A} (n : nat) (l : list A) (x : A) :
  In x l -> In x (SQL.limit n l) \/ In x (skipn n l).
Proof.
  intros H. unfold SQL.limit.
  rewrite <- (firstn_skipn n l) in H. now apply in_app_or in H.
Qed.

Lemma limit_full {A} (n : nat) (l : list A) (x : A) :
  In x (skipn n l) -> length (SQL.limit n l) = n.
Proof.
  intros H. unfold SQL.limit. apply firstn_length_le.
  destruct (Nat.le_gt_cases n (length l)) as [Hle|Hgt]; [assumption|].
  rewrite skipn_all2 in H by lia. destruct H.
Qed.

Lemma group_before_after (d : database) (a b : run_group) :
  group_before d a b = true -> group_after a b = true.
Proof.
  unfold group_before, group_after, later_period, same_period.
  rewrite !orb_true_iff, !andb_true_iff, !Z.ltb_lt, !Z.eqb_eq, Z.leb_le.
  intros [[H|[H1 H2]]|[[H1 H2] _]]; [left | right | right]; lia.
Qed.

Lemma not_group_before_after (d : database) (a b : run_group) :
  group_before d a b = false -> group_after b a = true.
Proof.
  unfold group_before, group_after, later_period, same_period.
  rewrite !orb_false_iff, !andb_false_iff.
  rewrite !orb_true_iff, !andb_true_iff, !Z.ltb_lt, !Z.eqb_eq, Z.leb_le.
  rewrite !Z.ltb_ge, !Z.eqb_neq.
  intros [[Hy Hm] _].
  destruct (Z.eq_dec (g_year a) (g_year b)) as [He|He]; [right | left]; lia.
Qed.

Lemma group_after_trans (a b c : run_group) :
  group_after a b = true -> group_after b c = true -> group_after a c = true.
Proof.
  unfold group_after.
  rewrite !orb_true_iff, !andb_true_iff, !Z.ltb_lt, !Z.eqb_eq, !Z.leb_le.
  intros [H1|[H1 H2]] [H3|[H3 H4]]; [left | left | left | right]; lia.
Qed.

(** The rows of the diagnostic statement are in the order of the
    statement, most recent period first, whatever the server does with
    ties. *)
Lemma all_runs_sorted (tenantId : string) (d : database) :
  StronglySorted (fun a b => group_after a b = true)
    (SQL.order_by (group_before d) (group_runs (tenant_runs tenantId d))).
Proof.
  apply order_by_sorted_by.
  - apply group_before_after.
  - apply not_group_before_after.
  - apply group_after_trans.
Qed.

Lemma select_all_runs_sorted (tenantId : string) (d : database) :
  StronglySorted (fun a b => group_after a b = true)
    (select_all_runs tenantId d).
Proof. apply sorted_limit, all_runs_sorted. Qed.

Lemma select_all_runs_groups (tenantId : string) (d : database) (g : run_group) :
  In g (select_all_runs tenantId d) ->
  In g (group_runs (tenant_runs tenantId d)).
Proof.
  unfold select_all_runs. intros H. now apply limit_In, order_by_In in H.
Qed.

(** A group that the statement does not return was cut off by the limit:
    ten rows are returned, each of its period or of a later one. *)
Lemma select_all_runs_most_recent (tenantId : string) (d : database)
    (g : run_group) :
  In g (group_runs (tenant_runs tenantId d)) ->
  ~ In g (select_all_runs tenantId d) ->
  length (select_all_runs tenantId d) = 10%nat
  /\ forall r, In r (select_all_runs tenantId d) -> group_after r g = true.
Proof.
  intros Hg Hout.
  apply (order_by_In (group_before d)) in Hg.
  apply (limit_or_cut 10) in Hg as [Hg|Hg]; [contradiction|].
  split; [exact (limit_full _ _ _ Hg)|].
  intros r Hr.
  exact (limit_cuts_the_end _ 10 _ r g (all_runs_sorted tenantId d) Hr Hg).
Qed.

(** ** The payroll-run lookup *)

(** Claim C4, as amended. The lookup returns a run exactly when a
    completed run exists for the tenant and period; otherwise it throws
    once, a NotFound-class error, and changes nothing in the store. The
    message is the fixed opening followed by exactly one of three endings,
    chosen from the rows of the diagnostic statement, which are the at most
    ten most recent (month, year, status) groups of the tenant's runs:
    the completed groups among them as month/year when there is one; else
    every group as month/year (status) with the advice to complete a run
    when there is any group; else the advice to create a run, which
    happens exactly when the tenant has no run at all. Every completed
    group listed is for another period, and when the tenant has at most
    ten groups the first ending is chosen exactly when the tenant has a
    completed run. The rows are groups of the tenant's runs, most recent
    period first; a group that is not among them was cut off by the
    limit, behind ten rows each of its period or of a later one. Which of
    several groups of one period comes first, and so which of them the
    limit keeps, is the server's choice ([tie_order]); all of this holds
    for every such choice. *)
Theorem lookup_diagnostic (tenantId : string) (month year : Z) (w : world) :
  (has_completed_run_for tenantId month year (store w) ->
     exists r w',
       getPayrollRunForMonth tenantId month year w = (Ok r, w')
       /\ In r (payroll_runs (store w))
       /\ is_completed_run_for tenantId month year r = true)
  /\ (~ has_completed_run_for tenantId month year (store w) ->
     exists e w',
       getPayrollRunForMonth tenantId month year w = (Throw e, w')
       /\ error_class e = Some NotFound
       /\ store w' = store w
       /\ (length (select_all_runs tenantId (store w)) <= 10)%nat
       /\ (existsb is_completed_group (select_all_runs tenantId (store w)) = true ->
           message e = no_run_prefix month year
                         ++ other_periods_text (select_all_runs tenantId (store w)))
       /\ (existsb is_completed_group (select_all_runs tenantId (store w)) = false ->
           select_all_runs tenantId (store w) <> [] ->
           message e = no_run_prefix month year
                         ++ not_completed_text (select_all_runs tenantId (store w)))
       /\ (select_all_runs tenantId (store w) = [] ->
           message e = no_run_prefix month year ++ no_runs_text)
       /\ (select_all_runs tenantId (store w) = []
           <-> tenant_runs tenantId (store w) = [])
       /\ (forall g, In g (select_all_runs tenantId (store w)) ->
             is_completed_group g = true ->
             ~ (g_month g = month /\ g_year g = year))
       /\ ((length (group_runs (tenant_runs tenantId (store w))) <= 10)%nat ->
           (existsb is_completed_group (select_all_runs tenantId (store w)) = true
            <-> has_completed_run tenantId (store w)))
       /\ StronglySorted (fun a b => group_after a b = true)
            (select_all_runs tenantId (store w))
       /\ (forall g, In g (select_all_runs tenantId (store w)) ->
             In g (group_runs (tenant_runs tenantId (store w))))
       /\ (forall g,
             In g (group_runs (tenant_runs tenantId (store w))) ->
             ~ In g (select_all_runs tenantId (store w)) ->
             length (select_all_runs tenantId (store w)) = 10%nat
             /\ forall r, In r (select_all_runs tenantId (store w)) ->
                  group_after r g = true))
  /\ (forall rows1 rows2,
        other_periods_text rows1 <> not_completed_text rows2
        /\ other_periods_text rows1 <> no_runs_text
        /\ not_completed_text rows2 <> no_runs_text).
Proof.
  split; [|split].
  - intros Hrun.
    destruct (select_completed_run tenantId month year (store w)) as [|r rest] eqn:Hsel.
    + apply select_completed_run_nil in Hsel. contradiction.
    + exists r. eexists. split; [exact (getPayrollRunForMonth_found _ _ _ _ _ _ Hsel)|].
      exact (select_completed_run_head _ _ _ _ _ _ Hsel).
  - intros Hnone.
    assert (Hsel := proj2 (select_completed_run_nil tenantId month year (store w)) Hnone).
    rewrite (getPayrollRunForMonth_missing _ _ _ _ Hsel).
    eexists. eexists. split; [reflexivity|].
    split; [apply no_run_message_class|].
    split; [reflexivity|].
    split; [apply limit_length|].
    simpl message. unfold no_run_message. rewrite available_runs_empty.
    split; [|split; [|split; [|split; [|split]]]].
    + intros Hex. rewrite Hex. simpl.
      destruct (select_all_runs tenantId (store w)); [discriminate Hex | reflexivity].
    + intros Hex Hne. rewrite Hex. simpl.
      destruct (select_all_runs tenantId (store w)); [congruence | reflexivity].
    + intros ->. reflexivity.
    + apply select_all_runs_nil.
    + intros g Hin Hg [Hm Hy].
      destruct (select_all_runs_source _ _ _ Hin) as [r [Hr Hsame]].
      apply same_group_spec in Hsame as (Hm' & Hy' & Hst).
      apply filter_In in Hr as [Hr Ht].
      apply Hnone. exists r. split; [assumption|].
      unfold is_completed_run_for, is_completed_group in *.
      rewrite Ht, Hm', Hy', Hst, Hm, Hy, !Z.eqb_refl, Hg. reflexivity.
    + split; [apply select_all_runs_completed|].
      split; [apply select_all_runs_sorted|].
      split; [apply select_all_runs_groups|].
      apply select_all_runs_most_recent.
  - apply endings_differ.
Qed.

(** At a tenant with only draft runs the lookup fails with the second
    ending. *)
Lemma lookup_diagnostic_witness :
  exists e w',
    getPayrollRunForMonth "t1" 12 2025 (Fixture.fresh Fixture.drafts_only)
    = (Throw e, w')
    /\ error_class e = Some NotFound
    /\ message e =
       "No completed payroll run found for 12/2025. Available payroll runs: 3/2025 (draft), 2/2025 (draft). Please complete a payroll run first.".
Proof.
  destruct (proj1 (proj2 (lookup_diagnostic "t1" 12 2025
                            (Fixture.fresh Fixture.drafts_only))))
    as (e & w' & Hrun & Hclass & _ & _ & _ & Hb & _).
  - intros [r [Hin Hr]]. simpl in Hin.
    destruct Hin as [<-|[<-|[]]]; vm_compute in Hr; discriminate Hr.
  - exists e, w'. split; [exact Hrun|]. split; [exact Hclass|].
    rewrite Hb; [vm_compute; reflexivity | vm_compute; reflexivity |].
    vm_compute. discriminate.
Defined.

(** Claim C4 fails as stated: with a completed run in January 2025 hidden
    behind ten more recent groups of draft runs, the message for December
    2025 lists the drafts and asks to complete a run, although the tenant
    has a completed run for another period. *)
Lemma lookup_hides_completed_run : ~ lists_completed_whenever_any.
Proof.
  intros H.
  destruct (H "t1" 12 2025 (Fixture.fresh Fixture.eleven_groups)
              (Error "No completed payroll run found for 12/2025. Available payroll runs: 11/2025 (draft), 10/2025 (draft), 9/2025 (draft), 8/2025 (draft), 7/2025 (draft), 6/2025 (draft), 5/2025 (draft), 4/2025 (draft), 3/2025 (draft), 2/2025 (draft). Please complete a payroll run first.")
              (mkWorld Fixture.eleven_groups [Query SelectCompletedRun; Query SelectAllRuns]))
    as [listing Hmsg].
  - vm_compute. reflexivity.
  - exists (mkRun "r0" "t1" Fixture.jan1 Fixture.jan1 (mkDate 2025 1 31) "completed").
    split; [vm_compute; now left | reflexivity].
  - vm_compute in Hmsg. discriminate Hmsg.
Qed.

(** With two groups for March behind nine later months, the limit keeps
    one of them, and the server's order of the tie decides which, and
    with it the ending of the message. *)
Example lookup_ties_decide :
  fst (getPayrollRunForMonth "t1" 1 2026
         (Fixture.fresh (Fixture2.tied_march stored_order)))
  = Throw (Error "No completed payroll run found for 1/2026. Available payroll runs: 12/2025 (draft), 11/2025 (draft), 10/2025 (draft), 9/2025 (draft), 8/2025 (draft), 7/2025 (draft), 6/2025 (draft), 5/2025 (draft), 4/2025 (draft), 3/2025 (draft). Please complete a payroll run first.")
  /\ fst (getPayrollRunForMonth "t1" 1 2026
            (Fixture.fresh (Fixture2.tied_march Fixture2.completed_first)))
     = Throw (Error "No completed payroll run found for 1/2026. Available completed payroll runs: 3/2025.").
Proof. split; vm_compute; reflexivity. Qed.

(** ** Running the builders *)

Ltac run_builder :=
  unfold try_catch, bind, query, query_cast, throw, ret, console_error; simpl;
  rewrite <- ?app_assoc; simpl.

(** What [generatePFECR] returns and leaves in the trace, case by case. *)
Lemma generatePFECR_run (tenantId : string) (month year : Z) (w : world) :
  generatePFECR tenantId month year w =
  let after (evs : list event) := mkWorld (store w) (trace w ++ evs) in
  let failed (evs : list event) e :=
    (Throw e, after (evs ++ [ConsoleError "Error generating PF ECR:" e])%list) in
  match select_completed_run tenantId month year (store w) with
  | [] =>
      failed [Query SelectCompletedRun; Query SelectAllRuns]
        (Error (no_run_message month year (select_all_runs tenantId (store w))))
  | payrollRun :: _ =>
      match select_organization tenantId (store w) with
      | [] =>
          failed [Query SelectCompletedRun; Query SelectOrganization]
            (Error "Organization not found")
      | org :: _ =>
          if negb (JS.truthy (org_pf_code org)) then
            failed [Query SelectCompletedRun; Query SelectOrganization]
              (Error "PF Code not configured for organization")
          else
            match pf_cast_failure (pr_id payrollRun) tenantId (store w) with
            | Some e =>
                failed [Query SelectCompletedRun; Query SelectOrganization;
                        Query SelectPfEmployees] e
            | None =>
                match select_pf_employees (pr_id payrollRun) tenantId (store w) with
                | [] =>
                    failed [Query SelectCompletedRun; Query SelectOrganization;
                            Query SelectPfEmployees]
                      (Error "No employees found in payroll run")
                | emp :: rows =>
                    (Ok (pf_text org month year (emp :: rows)),
                     after [Query SelectCompletedRun; Query SelectOrganization;
                            Query SelectPfEmployees])
                end
            end
      end
  end.
Proof.
  unfold generatePFECR.
  destruct (select_completed_run tenantId month year (store w)) as [|run runs] eqn:Hrun.
  - unfold try_catch at 1, bind at 1.
    rewrite (getPayrollRunForMonth_missing _ _ _ _ Hrun). run_builder. reflexivity.
  - unfold try_catch at 1, bind at 1.
    rewrite (getPayrollRunForMonth_found _ _ _ _ _ _ Hrun). run_builder.
    destruct (select_organization tenantId (store w)) as [|org orgs];
      [run_builder; reflexivity|].
    destruct (JS.truthy (org_pf_code org)); simpl; [|run_builder; reflexivity].
    run_builder.
    destruct (pf_cast_failure (pr_id run) tenantId (store w));
      [run_builder; reflexivity|].
    destruct (select_pf_employees (pr_id run) tenantId (store w));
      run_builder; reflexivity.
Qed.

(** The same for [generateESIReturn]. *)
Lemma generateESIReturn_run (tenantId : string) (month year : Z) (w : world) :
  generateESIReturn tenantId month year w =
  let after (evs : list event) := mkWorld (store w) (trace w ++ evs) in
  let failed (evs : list event) e :=
    (Throw e, after (evs ++ [ConsoleError "Error generating ESI Return:" e])%list) in
  match select_completed_run tenantId month year (store w) with
  | [] =>
      failed [Query SelectCompletedRun; Query SelectAllRuns]
        (Error (no_run_message month year (select_all_runs tenantId (store w))))
  | payrollRun :: _ =>
      match select_esi_code tenantId (store w) with
      | [] =>
          failed [Query SelectCompletedRun; Query SelectEsiCode]
            (Error "Organization not found")
      | _ :: _ =>
          match select_esi_employees (pr_id payrollRun) tenantId
                  (Date.last_day_before year month) (store w) with
          | [] =>
              failed [Query SelectCompletedRun; Query SelectEsiCode;
                      Query SelectEsiEmployees]
                (Error "No employees eligible for ESI in this payroll run")
          | emp :: rows =>
              (Ok (esi_text (Date.last_day_before year month) (emp :: rows)),
               after [Query SelectCompletedRun; Query SelectEsiCode;
                      Query SelectEsiEmployees])
          end
      end
  end.
Proof.
  unfold generateESIReturn.
  destruct (select_completed_run tenantId month year (store w)) as [|run runs] eqn:Hrun.
  - unfold try_catch at 1, bind at 1.
    rewrite (getPayrollRunForMonth_missing _ _ _ _ Hrun). run_builder. reflexivity.
  - unfold try_catch at 1, bind at 1.
    rewrite (getPayrollRunForMonth_found _ _ _ _ _ _ Hrun). run_builder.
    destruct (select_esi_code tenantId (store w)) as [|org orgs];
      [run_builder; reflexivity|].
    run_builder.
    destruct (select_esi_employees (pr_id run) tenantId _ (store w));
      run_builder; reflexivity.
Qed.

(** The same for [generateTDSSummary]. *)
Lemma generateTDSSummary_run (tenantId : string) (month year : Z) (w : world) :
  generateTDSSummary tenantId month year w =
  let after (evs : list event) := mkWorld (store w) (trace w ++ evs) in
  let failed (evs : list event) e :=
    (Throw e, after (evs ++ [ConsoleError "Error generating TDS Summary:" e])%list) in
  match select_completed_run tenantId month year (store w) with
  | [] =>
      failed [Query SelectCompletedRun; Query SelectAllRuns]
        (Error (no_run_message month year (select_all_runs tenantId (store w))))
  | payrollRun :: _ =>
      match select_organization tenantId (store w) with
      | [] =>
          failed [Query SelectCompletedRun; Query SelectOrganization]
            (Error "Organization not found")
      | org :: _ =>
          match tds_cast_failure (pr_id payrollRun) tenantId (store w) with
          | Some e =>
              failed [Query SelectCompletedRun; Query SelectOrganization;
                      Query SelectTdsEmployees] e
          | None =>
              (Ok (tds_build org month year payrollRun
                     (select_tds_employees (pr_id payrollRun) tenantId (store w))),
               after [Query SelectCompletedRun; Query SelectOrganization;
                      Query SelectTdsEmployees])
          end
      end
  end.
Proof.
  unfold generateTDSSummary.
  destruct (select_completed_run tenantId month year (store w)) as [|run runs] eqn:Hrun.
  - unfold try_catch at 1, bind at 1.
    rewrite (getPayrollRunForMonth_missing _ _ _ _ Hrun). run_builder. reflexivity.
  - unfold try_catch at 1, bind at 1.
    rewrite (getPayrollRunForMonth_found _ _ _ _ _ _ Hrun). run_builder.
    destruct (select_organization tenantId (store w)) as [|org orgs];
      [run_builder; reflexivity|].
    run_builder.
    destruct (tds_cast_failure (pr_id run) tenantId (store w));
      run_builder; reflexivity.
Qed.

(** Where every entry of the table fits [bigint], no cast fails. *)
Lemma cast_failure_none (key : string) (rows : list joined) :
  (forall j, In j rows -> SQL.in_bigint (SQL.metadata_cents key (j_pre j)) = true) ->
  cast_failure key rows = None.
Proof.
  intros Hall. unfold cast_failure.
  destruct (List.find _ rows) as [j|] eqn:Hfind; [|reflexivity].
  apply find_some in Hfind as [Hin Hj].
  rewrite (Hall j Hin) in Hj. discriminate Hj.
Qed.

Lemma cast_failure_some (key : string) (rows : list joined) (e : error) :
  cast_failure key rows = Some e ->
  exists j,
    In j rows
    /\ SQL.in_bigint (SQL.metadata_cents key (j_pre j)) = false
    /\ e = out_of_range (SQL.metadata_cents key (j_pre j)).
Proof.
  unfold cast_failure.
  destruct (List.find _ rows) as [j|] eqn:Hfind; [|discriminate].
  intros [= <-]. apply find_some in Hfind as [Hin Hj].
  exists j. split; [assumption|]. split; [|reflexivity].
  now apply negb_true_iff in Hj.
Qed.

Lemma cast_failure_found (key : string) (rows : list joined) (j : joined) :
  In j rows ->
  SQL.in_bigint (SQL.metadata_cents key (j_pre j)) = false ->
  exists e, cast_failure key rows = Some e.
Proof.
  intros Hin Hj. unfold cast_failure.
  destruct (List.find _ rows) as [j'|] eqn:Hfind; [eauto|].
  apply (find_none _ _ Hfind) in Hin. rewrite Hj in Hin. discriminate Hin.
Qed.

Lemma out_of_range_class (z : Z) : error_class (out_of_range z) = None.
Proof. reflexivity. Qed.

(** The rows of the join come from the table. *)
Lemma processed_employees_pre (runId tenantId : string) (d : database)
    (j : joined) :
  In j (processed_employees runId tenantId d) ->
  In (j_pre j) (payroll_run_employees d).
Proof.
  unfold processed_employees, join_employees. intros H.
  apply filter_In in H as [H _].
  apply in_flat_map in H as (pre & Hpre & H).
  apply in_flat_map in H as (e & _ & H).
  destruct (String.eqb (e_id e) (pre_employee_id pre)); [|contradiction].
  apply in_flat_map in H as (p & _ & H).
  destruct (String.eqb (p_id p) (e_user_id e)); [|contradiction].
  destruct H as [<-|[]]. exact Hpre.
Qed.

Lemma bigint_metadata_no_failure (key : string) (runId tenantId : string)
    (d : database) :
  bigint_metadata key d ->
  cast_failure key (processed_employees runId tenantId d) = None.
Proof.
  intros Hall. apply cast_failure_none. intros j Hj.
  unfold bigint_metadata in Hall. rewrite List.Forall_forall in Hall.
  apply Hall. now apply processed_employees_pre in Hj.
Qed.

(** ** The PF report *)

Lemma blank_is_falsy (code : option string) :
  code = None \/ code = Some "" -> JS.truthy code = false.
Proof. intros [->| ->]; reflexivity. Qed.

(** Claim C3, as amended. For a tenant whose organization row exists with
    a null or empty PF code, [generatePFECR] always fails, never issues
    the employee statement and leaves the store as it was. The failure is
    the InvalidConfig error "PF Code not configured for organization" when
    the lookup finds a completed run for the period; when it finds none,
    the lookup's NotFound error comes first. *)
Theorem pf_blank_code_fails (tenantId : string) (month year : Z) (w : world)
    (org : organization) (orgs : list organization) :
  select_organization tenantId (store w) = org :: orgs ->
  org_pf_code org = None \/ org_pf_code org = Some "" ->
  exists e w' evs,
    generatePFECR tenantId month year w = (Throw e, w')
    /\ store w' = store w
    /\ trace w' = (trace w ++ evs)%list
    /\ ~ In (Query SelectPfEmployees) evs
    /\ (has_completed_run_for tenantId month year (store w) ->
        message e = "PF Code not configured for organization"
        /\ error_class e = Some InvalidConfig)
    /\ (~ has_completed_run_for tenantId month year (store w) ->
        error_class e = Some NotFound).
Proof.
  intros Horg Hblank. apply blank_is_falsy in Hblank.
  rewrite generatePFECR_run, Horg, Hblank. simpl.
  destruct (select_completed_run tenantId month year (store w)) as [|r rs] eqn:Hsel.
  - apply select_completed_run_nil in Hsel.
    eexists. eexists. eexists. split; [reflexivity|].
    split; [reflexivity|]. split; [reflexivity|].
    split; [simpl; intros [H|[H|[H|[]]]]; discriminate H|].
    split; [intros H; contradiction|].
    intros _. apply no_run_message_class.
  - eexists. eexists. eexists. split; [reflexivity|].
    split; [reflexivity|]. split; [reflexivity|].
    split; [simpl; intros [H|[H|[H|[]]]]; discriminate H|].
    split; [intros _; split; reflexivity|].
    intros Hnone. exfalso. apply Hnone.
    destruct (select_completed_run_head _ _ _ _ _ _ Hsel) as [Hin Hr].
    now exists r.
Qed.

(** With a completed March run and no PF code the failure is the
    InvalidConfig one. *)
Lemma pf_blank_code_fails_witness :
  exists e w' evs,
    generatePFECR "t1" 3 2025 (Fixture.fresh Fixture.blank_pf_with_run)
    = (Throw e, w')
    /\ store w' = Fixture.blank_pf_with_run
    /\ trace w' = evs
    /\ ~ In (Query SelectPfEmployees) evs.
Proof.
  destruct (pf_blank_code_fails "t1" 3 2025
              (Fixture.fresh Fixture.blank_pf_with_run)
              Fixture.org_blank_pf [])
    as (e & w' & evs & Hrun & Hstore & Htrace & Hq & _).
  - reflexivity.
  - left. reflexivity.
  - exists e, w', evs. auto.
Defined.

(** Claim C3 fails as stated: an organization without PF code and without
    any payroll run gets the lookup's NotFound error, not InvalidConfig. *)
Lemma pf_blank_code_without_run : ~ blank_pf_code_is_invalid_config.
Proof.
  intros H.
  destruct (H "t1" 3 2025 (Fixture.fresh Fixture.blank_pf_no_runs)
              Fixture.org_blank_pf [] eq_refl eq_refl)
    as (e & w' & Hrun & Hclass).
  vm_compute in Hrun. injection Hrun as <- _.
  vm_compute in Hclass. discriminate Hclass.
Qed.

(** A report is returned only when the run is found, the organization
    has a PF code and some employee row is selected. *)
Lemma generatePFECR_ok (tenantId : string) (month year : Z) (w w' : world)
    (text : string) :
  generatePFECR tenantId month year w = (Ok text, w') ->
  exists payrollRun runs org orgs code,
    select_completed_run tenantId month year (store w) = payrollRun :: runs
    /\ select_organization tenantId (store w) = org :: orgs
    /\ org_pf_code org = Some code /\ code <> ""
    /\ select_pf_employees (pr_id payrollRun) tenantId (store w) <> []
    /\ text = pf_text org month year
                (select_pf_employees (pr_id payrollRun) tenantId (store w)).
Proof.
  rewrite generatePFECR_run. simpl.
  destruct (select_completed_run tenantId month year (store w)) as [|r rs];
    [intros [=]|].
  destruct (select_organization tenantId (store w)) as [|org orgs];
    [intros [=]|].
  destruct (org_pf_code org) as [code|] eqn:Hcode; simpl; [|intros [=]].
  destruct (String.eqb code "") eqn:Hne; simpl; [intros [=]|].
  destruct (pf_cast_failure (pr_id r) tenantId (store w)); [intros [=]|].
  destruct (select_pf_employees (pr_id r) tenantId (store w)) as [|emp rows] eqn:Hrows;
    [intros [=]|].
  intros [= <- _].
  exists r, rs, org, orgs, code.
  apply String.eqb_neq in Hne. rewrite Hrows.
  repeat split; try assumption; try reflexivity.
  discriminate.
Qed.

Lemma pad_month (month : Z) :
  1 <= month <= 12 ->
  String.length (JS.padStart 2 "0" (JS.String_of_Z month)) = 2%nat.
Proof.
  intros H.
  assert (Hcases : In month [1; 2; 3; 4; 5; 6; 7; 8; 9; 10; 11; 12]).
  { simpl. lia. }
  simpl in Hcases.
  repeat (destruct Hcases as [<-|Hcases]; [reflexivity|]).
  contradiction.
Qed.

Lemma select_pf_employees_length (runId tenantId : string) (d : database) :
  length (select_pf_employees runId tenantId d)
  = length (processed_employees runId tenantId d).
Proof.
  unfold select_pf_employees. now rewrite length_map, order_by_length.
Qed.

(** When the run is found, the organization has a PF code, the run has a
    processed employee and the cast of the statement does not fail,
    [generatePFECR] returns the report. *)
Lemma generatePFECR_succeeds (tenantId : string) (month year : Z) (w : world)
    (payrollRun : payroll_run) (runs : list payroll_run)
    (org : organization) (orgs : list organization) (code : string)
    (j : joined) :
  select_completed_run tenantId month year (store w) = payrollRun :: runs ->
  select_organization tenantId (store w) = org :: orgs ->
  org_pf_code org = Some code ->
  code <> "" ->
  In j (processed_employees (pr_id payrollRun) tenantId (store w)) ->
  pf_cast_failure (pr_id payrollRun) tenantId (store w) = None ->
  generatePFECR tenantId month year w
  = (Ok (pf_text org month year
           (select_pf_employees (pr_id payrollRun) tenantId (store w))),
     mkWorld (store w)
       (trace w ++ [Query SelectCompletedRun; Query SelectOrganization;
                    Query SelectPfEmployees])).
Proof.
  intros Hrun Horg Hcode Hne Hj Hcast.
  rewrite generatePFECR_run, Hrun, Horg, Hcode. simpl.
  apply String.eqb_neq in Hne. rewrite Hne, Hcast. simpl.
  destruct (select_pf_employees (pr_id payrollRun) tenantId (store w))
    as [|emp rows] eqn:Hrows; [|reflexivity].
  exfalso. apply (f_equal (@length _)) in Hrows.
  rewrite select_pf_employees_length in Hrows.
  destruct (processed_employees (pr_id payrollRun) tenantId (store w));
    [contradiction | discriminate].
Qed.

(** Claim C1, at the input where the code departs from it. The record of
    an employee divides the contribution by 100 and rounds it before
    deriving EPS and EDLI, where the header of the same report derives
    its totals from the cents and converts last. In the March report of
    the fixture the employee with a PF contribution of 180,050 cents has
    the record [|DOE, JANE|21000|15000|15000|1801|1501|1]: EPS 1501, from
    1801 whole units, where [round(180050 x 0.8333)] cents converted
    afterwards is 1500. The claim's own example, gross pay 2,000,000 and
    PF 240,000 cents, comes out as the claim says: wage bases 15000, PF
    2400, EPS 2000, EDLI 1. *)
Theorem pf_record_rounds_before_deriving :
  generatePFECR "t1" 3 2025 (Fixture.fresh Fixture.acme)
  = (Ok (JS.join newline
           [ "MH123|03|2025|2|4201|3500|2";
             "|DOE, JANE|21000|15000|15000|1801|1501|1";
             "UAN1|JOHN DOE|20000|15000|15000|2400|2000|1" ]),
     mkWorld Fixture.acme
       [Query SelectCompletedRun; Query SelectOrganization;
        Query SelectPfEmployees])
  /\ JS.String_of_number (eps_from_cents 180050) = "1500"
  /\ JS.String_of_number (edli_from_cents 180050) = "1"
  /\ JS.String_of_number (eps_from_cents 240000) = "2000"
  /\ JS.String_of_number (edli_from_cents 240000) = "1".
Proof. repeat split; vm_compute; reflexivity. Qed.

(** The derivation the claim words does not hold of the records: for a
    PF contribution of 180,050 cents the record shows EPS 1501 (from 1801
    whole units), where rounding 180,050 x 0.8333 in cents and converting
    afterwards gives 1500. *)
Lemma pf_eps_not_derived_in_cents : ~ eps_edli_derived_in_cents.
Proof.
  intros H.
  destruct (H (mkPfRow (Some "EMP0") None "Doe, Jane" 2100001 180050
                 1500000 1500000)) as [Heps _].
  apply (f_equal (fun x => PrimFloat.eqb x 1501%float)) in Heps.
  vm_compute in Heps. discriminate Heps.
Qed.

Lemma join_cons_cons (sep x y : string) (l : list string) :
  JS.join sep (x :: y :: l) = x ++ sep ++ JS.join sep (y :: l).
Proof. reflexivity. Qed.

(** Claim C2. For every run with at least one processed employee (the
    run found by the lookup, the organization carrying a PF code, the
    [pf_cents] entries of the run results fitting [bigint], so that the
    statement is not rejected), the report is returned and its first
    line is the header
    [establishment_code|MM|YYYY|employee_count|total_PF|total_EPS|total_EDLI]:
    the organization's PF code, the month padded with a zero to two
    characters, the year, the number of employee records, and the three
    totals, where the total PF is the sum of the employees' contributions
    in cents, the total EPS is [round(0.8333 x that sum)], the total EDLI
    is [round(0.0005 x that sum)], each derived from the sum and not from
    the employees' derived values, and each total is then divided by 100
    and rounded to whole currency units. The employee records follow on
    the lines after it. *)
Theorem pf_header_line (tenantId : string) (month year : Z) (w : world)
    (payrollRun : payroll_run) (runs : list payroll_run)
    (org : organization) (orgs : list organization) (code : string)
    (j0 : joined) :
  select_completed_run tenantId month year (store w) = payrollRun :: runs ->
  select_organization tenantId (store w) = org :: orgs ->
  org_pf_code org = Some code ->
  code <> "" ->
  In j0 (processed_employees (pr_id payrollRun) tenantId (store w)) ->
  bigint_metadata "pf_cents" (store w) ->
  exists w' rows sum body,
    rows = select_pf_employees (pr_id payrollRun) tenantId (store w)
    /\ sum = fold_left
               (fun sum e => (sum + JS.Number (pf_contribution_cents e))%float)
               rows 0%float
    /\ generatePFECR tenantId month year w =
         (Ok (JS.join "|"
                [ code;
                  JS.padStart 2 "0" (JS.String_of_Z month);
                  JS.String_of_Z year;
                  JS.String_of_Z (Z.of_nat (length rows));
                  JS.String_of_number (JS.Math_round (sum / 100)%float);
                  JS.String_of_number
                    (JS.Math_round
                       (JS.Math_round (sum * 0.8333)%float / 100)%float);
                  JS.String_of_number
                    (JS.Math_round
                       (JS.Math_round (sum * 0.0005)%float / 100)%float) ]
              ++ newline ++ body),
          w')
    /\ length rows
       = length (processed_employees (pr_id payrollRun) tenantId (store w))
    /\ (0 < length rows)%nat
    /\ (1 <= month <= 12 ->
        String.length (JS.padStart 2 "0" (JS.String_of_Z month)) = 2%nat).
Proof.
  intros Hrun Horg Hcode Hne Hj0 Hfit.
  assert (Hcast := bigint_metadata_no_failure "pf_cents" (pr_id payrollRun)
                     tenantId (store w) Hfit).
  eexists. eexists. eexists.
  exists (JS.join newline
            (List.map pf_record
               (select_pf_employees (pr_id payrollRun) tenantId (store w)))).
  split; [reflexivity|]. split; [reflexivity|].
  assert (Hlen := select_pf_employees_length (pr_id payrollRun) tenantId (store w)).
  split; [|split; [exact Hlen | split; [|apply pad_month]]].
  - rewrite (generatePFECR_succeeds _ _ _ _ _ _ _ _ _ _ Hrun Horg Hcode Hne Hj0
               Hcast).
    destruct (select_pf_employees (pr_id payrollRun) tenantId (store w))
      as [|emp rows] eqn:Hrows.
    + exfalso. simpl in Hlen.
      destruct (processed_employees (pr_id payrollRun) tenantId (store w));
        [contradiction | discriminate].
    + unfold pf_text. change (List.map pf_record (emp :: rows))
        with (pf_record emp :: List.map pf_record rows).
      rewrite join_cons_cons. unfold pf_header, totalEPF. rewrite Hcode.
      reflexivity.
  - rewrite Hlen.
    destruct (processed_employees (pr_id payrollRun) tenantId (store w));
      [contradiction | simpl; lia].
Qed.

(** The header of the fixture's March report. *)
Lemma pf_header_line_witness :
  exists w' body,
    generatePFECR "t1" 3 2025 (Fixture.fresh Fixture.acme) =
      (Ok ("MH123|03|2025|2|4201|3500|2" ++ newline ++ body), w').
Proof.
  destruct (pf_header_line "t1" 3 2025 (Fixture.fresh Fixture.acme)
              Fixture.march_run [] Fixture.org_acme [] "MH123"
              (mkPre "r1" "e1" "processed" 2000000
                 {[ "pf_cents" := 240000; "tds_cents" := 12345 ]},
               mkEmployee "e1" "u1" "t1" (Some "EMP1") (Some "UAN1") None
                 (Some "PAN1"),
               mkProfile "u1" (Some "John") (Some "Doe")))
    as (w' & rows & sum & body & _ & _ & Hok & _).
  - reflexivity.
  - reflexivity.
  - reflexivity.
  - discriminate.
  - vm_compute. now left.
  - repeat constructor.
  - assert (Hrun : generatePFECR "t1" 3 2025 (Fixture.fresh Fixture.acme)
                   = (Ok ("MH123|03|2025|2|4201|3500|2" ++ newline
                          ++ JS.join newline
                               [ "|DOE, JANE|21000|15000|15000|1801|1501|1";
                                 "UAN1|JOHN DOE|20000|15000|15000|2400|2000|1" ]),
                      mkWorld Fixture.acme
                        [Query SelectCompletedRun; Query SelectOrganization;
                         Query SelectPfEmployees]))
      by (vm_compute; reflexivity).
    rewrite Hrun in Hok. injection Hok as _ <-.
    eexists. eexists. exact Hrun.
Defined.

(** The header totals are derived from the aggregate: in the fixture the
    EPS total is 3500 while the employees' EPS fields add up to 3501. *)
Example pf_totals_not_sum_of_derived :
  let rows := select_pf_employees "r1" "t1" Fixture.acme in
  JS.String_of_number
    (JS.Math_round (JS.Math_round (totalEPF rows * 0.8333)%float / 100)%float)
  = "3500"
  /\ JS.String_of_number
       (fold_left (fun sum e => (sum + epsContribution e)%float) rows 0%float)
     = "3501".
Proof. split; vm_compute; reflexivity. Qed.

(** ** CSV escaping *)

Lemma includes_In (c : ascii) (s : string) :
  JS.includes c s = true <-> In c (list_ascii_of_string s).
Proof.
  induction s as [|a s IH]; simpl.
  - split; [discriminate | contradiction].
  - rewrite orb_true_iff, IH, Ascii.eqb_eq. tauto.
Qed.

Lemma needs_quoting_spec (s : string) :
  JS.includes comma s || JS.includes dquote s || JS.includes line_feed s = true
  <-> needs_quoting s.
Proof.
  unfold needs_quoting. rewrite !orb_true_iff, !includes_In. tauto.
Qed.

Lemma append_cons (a : ascii) (s t : string) :
  String a s ++ t = String a (s ++ t).
Proof. reflexivity. Qed.

Lemma string_length_app (s t : string) :
  String.length (s ++ t) = (String.length s + String.length t)%nat.
Proof.
  induction s as [|a s IH]; [reflexivity|].
  rewrite append_cons. simpl. now rewrite IH.
Qed.

Lemma unquote_double_quotes (s : string) :
  unquote (double_quotes s ++ String dquote EmptyString) = s.
Proof.
  induction s as [|a s IH].
  - reflexivity.
  - simpl double_quotes. destruct (Ascii.eqb a dquote) eqn:Ha.
    + apply Ascii.eqb_eq in Ha. subst a.
      rewrite !append_cons. simpl. now rewrite IH.
    + rewrite append_cons. simpl. now rewrite Ha, IH.
Qed.

(** Claim C6. [escapeCSV] wraps a field in double quotes, every inner
    double quote doubled, exactly when the field holds a comma, a double
    quote or a line feed, and returns it unchanged otherwise; reading the
    escaped field back RFC 4180 style gives the original text for every
    string, in particular for the name [Doe, John], which is escaped to a
    single quoted field. *)
Theorem escapeCSV_round_trip :
  (forall s : string,
     (needs_quoting s ->
      escapeCSV s = String dquote (double_quotes s ++ String dquote EmptyString))
     /\ (~ needs_quoting s -> escapeCSV s = s)
     /\ (escapeCSV s = s <-> ~ needs_quoting s)
     /\ unescapeCSV (escapeCSV s) = s)
  /\ escapeCSV "Doe, John"
     = String dquote ("Doe, John" ++ String dquote EmptyString)
  /\ unescapeCSV (escapeCSV "Doe, John") = "Doe, John".
Proof.
  split; [|split; reflexivity].
  intros s. unfold escapeCSV.
  destruct (JS.includes comma s || JS.includes dquote s || JS.includes line_feed s)
    eqn:Hq.
  - assert (Hn : needs_quoting s) by now apply needs_quoting_spec.
    split; [reflexivity|]. split; [tauto|]. split.
    + split; [|tauto]. intros Heq. exfalso.
      apply (f_equal String.length) in Heq. simpl in Heq.
      rewrite string_length_app in Heq.
      assert (String.length s <= String.length (double_quotes s))%nat.
      { clear. induction s as [|a s IH]; simpl; [lia|].
        destruct (Ascii.eqb a dquote); simpl; lia. }
      simpl in Heq. lia.
    + simpl. apply unquote_double_quotes.
  - assert (Hn : ~ needs_quoting s).
    { intros H. apply needs_quoting_spec in H. congruence. }
    split; [tauto|]. split; [reflexivity|]. split; [tauto|].
    apply orb_false_iff in Hq as [Hq _]. apply orb_false_iff in Hq as [_ Hq].
    destruct s as [|a s]; [reflexivity|].
    simpl in Hq. apply orb_false_iff in Hq as [Ha _].
    simpl. now rewrite Ha.
Qed.

Lemma escapeCSV_round_trip_witness :
  needs_quoting "Doe, John"
  /\ unescapeCSV (escapeCSV "Doe, John") = "Doe, John".
Proof.
  split.
  - left. vm_compute. tauto.
  - exact (proj2 (proj2 (proj2 (proj1 escapeCSV_round_trip "Doe, John")))).
Defined.

(** ** The ESI return *)

(** A return is produced only when the run is found, the organization
    row exists and some employee is selected. *)
Lemma generateESIReturn_ok (tenantId : string) (month year : Z) (w w' : world)
    (text : string) :
  generateESIReturn tenantId month year w = (Ok text, w') ->
  exists payrollRun runs,
    select_completed_run tenantId month year (store w) = payrollRun :: runs
    /\ select_esi_code tenantId (store w) <> []
    /\ esi_selected (pr_id payrollRun) tenantId (store w) <> []
    /\ text = esi_text (Date.last_day_before year month)
                (select_esi_employees (pr_id payrollRun) tenantId
                   (Date.last_day_before year month) (store w)).
Proof.
  rewrite generateESIReturn_run. simpl.
  destruct (select_completed_run tenantId month year (store w)) as [|r rs];
    [intros [=]|].
  destruct (select_esi_code tenantId (store w)) as [|org orgs];
    [intros [=]|].
  destruct (select_esi_employees (pr_id r) tenantId _ (store w)) as [|emp rows] eqn:Hrows;
    [intros [=]|].
  intros [= <- _].
  exists r, rs. split; [reflexivity|]. split; [discriminate|].
  split; [|now rewrite Hrows].
  unfold select_esi_employees in Hrows. intros Hnil. rewrite Hnil in Hrows.
  discriminate Hrows.
Qed.

Lemma esi_selected_In (runId tenantId : string) (d : database) (j : joined) :
  In j (esi_selected runId tenantId d)
  <-> In j (processed_employees runId tenantId d)
      /\ pre_gross_pay_cents (j_pre j) <= 2100000.
Proof.
  unfold esi_selected. rewrite order_by_In, filter_In.
  unfold esi_eligible. now rewrite Z.leb_le.
Qed.

(** When the run is found, the organization row exists and a processed
    employee of the run is within the ceiling, [generateESIReturn]
    returns the text. *)
Lemma generateESIReturn_succeeds (tenantId : string) (month year : Z)
    (w : world) (payrollRun : payroll_run) (runs : list payroll_run)
    (org : organization) (orgs : list organization) (j : joined) :
  select_completed_run tenantId month year (store w) = payrollRun :: runs ->
  select_organization tenantId (store w) = org :: orgs ->
  In j (processed_employees (pr_id payrollRun) tenantId (store w)) ->
  pre_gross_pay_cents (j_pre j) <= 2100000 ->
  generateESIReturn tenantId month year w
  = (Ok (esi_text (Date.last_day_before year month)
           (select_esi_employees (pr_id payrollRun) tenantId
              (Date.last_day_before year month) (store w))),
     mkWorld (store w)
       (trace w ++ [Query SelectCompletedRun; Query SelectEsiCode;
                    Query SelectEsiEmployees])).
Proof.
  intros Hrun Horg Hj Hgross.
  rewrite generateESIReturn_run, Hrun. unfold select_esi_code.
  rewrite Horg. simpl.
  destruct (select_esi_employees (pr_id payrollRun) tenantId
              (Date.last_day_before year month) (store w))
    as [|emp rows] eqn:Hrows; [|reflexivity].
  exfalso. unfold select_esi_employees in Hrows.
  apply map_eq_nil in Hrows.
  assert (Hin : In j (esi_selected (pr_id payrollRun) tenantId (store w)))
    by (apply esi_selected_In; auto).
  rewrite Hrows in Hin. contradiction.
Qed.

(** Claim C5. When the run is found, the organization row exists and some
    processed employee of the run is within the ceiling, the ESI return
    is produced with, after the header, one row per selected employee,
    and a processed employee of the run is selected if and only if their
    gross pay is at most 2,100,000 cents: one at 2,100,000 is in the
    output, one at 2,100,001 is not. *)
Theorem esi_inclusion (tenantId : string) (month year : Z) (w : world)
    (payrollRun : payroll_run) (runs : list payroll_run)
    (org : organization) (orgs : list organization) (j0 : joined) :
  select_completed_run tenantId month year (store w) = payrollRun :: runs ->
  select_organization tenantId (store w) = org :: orgs ->
  In j0 (processed_employees (pr_id payrollRun) tenantId (store w)) ->
  pre_gross_pay_cents (j_pre j0) <= 2100000 ->
  exists w' selected,
    generateESIReturn tenantId month year w =
      (Ok (JS.join newline
             (esi_header
              :: List.map
                   (fun j => esi_record (Date.last_day_before year month)
                               (esi_project (Date.last_day_before year month) j))
                   selected)),
       w')
    /\ (forall j, In j selected ->
          In j (processed_employees (pr_id payrollRun) tenantId (store w)))
    /\ (forall j,
          In j (processed_employees (pr_id payrollRun) tenantId (store w)) ->
          (In j selected <-> pre_gross_pay_cents (j_pre j) <= 2100000))
    /\ (forall j,
          In j (processed_employees (pr_id payrollRun) tenantId (store w)) ->
          pre_gross_pay_cents (j_pre j) = 2100000 -> In j selected)
    /\ (forall j,
          In j (processed_employees (pr_id payrollRun) tenantId (store w)) ->
          pre_gross_pay_cents (j_pre j) = 2100001 -> ~ In j selected)
    /\ length selected =
       length (List.filter (fun j => pre_gross_pay_cents (j_pre j) <=? 2100000)
                 (processed_employees (pr_id payrollRun) tenantId (store w))).
Proof.
  intros Hrun Horg Hj0 Hgross.
  eexists. exists (esi_selected (pr_id payrollRun) tenantId (store w)).
  split.
  { rewrite (generateESIReturn_succeeds _ _ _ _ _ _ _ _ _ Hrun Horg Hj0 Hgross).
    unfold esi_text, select_esi_employees. rewrite map_map. reflexivity. }
  split; [intros j Hj; now apply esi_selected_In in Hj|].
  split; [intros j Hj; rewrite esi_selected_In; tauto|].
  split; [intros j Hj Hg; apply esi_selected_In; split; [assumption | lia]|].
  split; [intros j Hj Hg Hin; apply esi_selected_In in Hin; lia|].
  unfold esi_selected. now rewrite order_by_length.
Qed.

(** In the boundary fixture the employee at 2,100,000 cents is the only
    row of the return; the one at 2,100,001 is left out. *)
Lemma esi_inclusion_witness :
  exists w',
    generateESIReturn "t1" 3 2025 (Fixture.fresh Fixture.acme_boundary) =
      (Ok (JS.join newline
             [ "IP Number,IP Name,Days Worked,Wages";
               "ESI2," ++ escapeCSV "Doe, Jane" ++ ",31,21000" ]),
       w').
Proof.
  destruct (esi_inclusion "t1" 3 2025 (Fixture.fresh Fixture.acme_boundary)
              Fixture.march_run [] Fixture.org_acme []
              (mkPre "r1" "e2" "processed" 2100000 ∅,
               mkEmployee "e2" "u2" "t1" (Some "EMP0") None (Some "ESI2") None,
               mkProfile "u2" (Some "Doe, Jane") None))
    as (w' & sel & Hok & _).
  - reflexivity.
  - reflexivity.
  - vm_compute. right. now left.
  - simpl. lia.
  - assert (Hrun : generateESIReturn "t1" 3 2025
                     (Fixture.fresh Fixture.acme_boundary)
                   = (Ok (JS.join newline
                            [ "IP Number,IP Name,Days Worked,Wages";
                              "ESI2," ++ escapeCSV "Doe, Jane" ++ ",31,21000" ]),
                      mkWorld Fixture.acme_boundary
                        [Query SelectCompletedRun; Query SelectEsiCode;
                         Query SelectEsiEmployees]))
      by (vm_compute; reflexivity).
    rewrite Hrun in Hok. injection Hok as _ <-.
    eexists. exact Hrun.
Defined.

Lemma leap_two_digit_year (year : Z) :
  1 <= year <= 99 -> Date.is_leap (1900 + year) = gregorian_leap year.
Proof.
  intros H.
  assert (Hall : forallb
            (fun n => Bool.eqb (Date.is_leap (1900 + Z.of_nat n))
                        (gregorian_leap (Z.of_nat n)))
            (seq 1 99) = true) by (vm_compute; reflexivity).
  rewrite forallb_forall in Hall.
  specialize (Hall (Z.to_nat year)).
  rewrite Z2Nat.id in Hall by lia.
  apply Bool.eqb_prop, Hall, in_seq. lia.
Qed.

Lemma last_day_is_calendar_days (year month : Z) :
  1 <= month <= 12 -> year <> 0 ->
  Date.last_day_before year month = calendar_days year month.
Proof.
  intros Hm Hy. unfold Date.last_day_before.
  assert (Hleap : Date.is_leap
            (if (0 <=? year) && (year <=? 99) then 1900 + year else year)
          = gregorian_leap year).
  { destruct ((0 <=? year) && (year <=? 99)) eqn:Hrange; [|reflexivity].
    apply andb_true_iff in Hrange as [H0 H99].
    apply Z.leb_le in H0, H99. apply leap_two_digit_year. lia. }
  assert (Hcases : In month [1; 2; 3; 4; 5; 6; 7; 8; 9; 10; 11; 12]).
  { simpl. lia. }
  simpl in Hcases.
  repeat (destruct Hcases as [<-|Hcases];
          [ simpl; unfold Date.month_length; simpl;
            rewrite ?Z.add_0_r, ?Hleap; reflexivity |]).
  contradiction.
Qed.

Lemma calendar_days_range (year month : Z) :
  1 <= month <= 12 -> 28 <= calendar_days year month <= 31.
Proof.
  intros Hm.
  assert (Hcases : In month [1; 2; 3; 4; 5; 6; 7; 8; 9; 10; 11; 12]).
  { simpl. lia. }
  simpl in Hcases.
  repeat (destruct Hcases as [<-|Hcases];
          [ simpl; try destruct (gregorian_leap year); lia |]).
  contradiction.
Qed.

Lemma escapeCSV_calendar_days (year month : Z) :
  1 <= month <= 12 ->
  escapeCSV (JS.String_of_Z (calendar_days year month))
  = JS.String_of_Z (calendar_days year month).
Proof.
  intros Hm.
  assert (Hcases : In month [1; 2; 3; 4; 5; 6; 7; 8; 9; 10; 11; 12]).
  { simpl. lia. }
  simpl in Hcases.
  repeat (destruct Hcases as [<-|Hcases];
          [ simpl; try destruct (gregorian_leap year); reflexivity |]).
  contradiction.
Qed.

(** *** The organization's ESI code *)







(** ** The TDS summary *)

Lemma tds_initial_consistent (org : organization) (month year : Z)
    (payrollRun : payroll_run) (rows : list tds_row) :
  tds_consistent (tds_initial org month year payrollRun rows).
Proof.
  eexists. split; [apply lookup_singleton_eq|].
  repeat split; constructor.
Qed.

Lemma tds_add_consistent (s : tds_summary) (emp : tds_row) :
  tds_consistent s -> tds_consistent (tds_add s emp).
Proof.
  intros (sec & Hsec & Hname & Htotal & Hsum & Hcount & Hmembers & Hall).
  unfold tds_consistent, tds_add. simpl.
  rewrite !lookup_alter_eq, Hsec. simpl.
  eexists. split; [reflexivity|]. simpl.
  split; [assumption|].
  split; [now rewrite Htotal|].
  split; [unfold tds_sum; rewrite fold_left_app; simpl; now rewrite Hsum|].
  split; [rewrite length_app, Hcount; reflexivity|].
  split; [now rewrite Hmembers|].
  apply Forall_app. split; [assumption|]. now repeat constructor.
Qed.

Lemma tds_fold_consistent (rows : list tds_row) (s : tds_summary) :
  tds_consistent s -> tds_consistent (fold_left tds_add rows s).
Proof.
  revert s. induction rows as [|emp rows IH]; simpl; intros s Hs; [assumption|].
  apply IH, tds_add_consistent, Hs.
Qed.

Lemma tds_fold_counts (rows : list tds_row) (s : tds_summary) :
  s_total_employees (fold_left tds_add rows s) = s_total_employees s
  /\ length (s_employees (fold_left tds_add rows s))
     = (length (s_employees s) + length rows)%nat.
Proof.
  revert s. induction rows as [|emp rows IH]; simpl; intros s.
  - split; [reflexivity | lia].
  - destruct (IH (tds_add s emp)) as [-> ->]. simpl.
    rewrite length_app. simpl. split; [reflexivity | lia].
Qed.

(** A summary is returned only when the run is found and the
    organization row exists; it is then built from the selected rows. *)
Lemma generateTDSSummary_ok (tenantId : string) (month year : Z) (w w' : world)
    (s : tds_summary) :
  generateTDSSummary tenantId month year w = (Ok s, w') ->
  exists payrollRun runs org orgs,
    select_completed_run tenantId month year (store w) = payrollRun :: runs
    /\ select_organization tenantId (store w) = org :: orgs
    /\ s = tds_build org month year payrollRun
             (select_tds_employees (pr_id payrollRun) tenantId (store w)).
Proof.
  rewrite generateTDSSummary_run. simpl.
  destruct (select_completed_run tenantId month year (store w)) as [|r rs];
    [intros [=]|].
  destruct (select_organization tenantId (store w)) as [|org orgs];
    [intros [=]|].
  destruct (tds_cast_failure (pr_id r) tenantId (store w)); [intros [=]|].
  intros [= <- _]. now exists r, rs, org, orgs.
Qed.

(** Claim C9. Every summary returned by [generateTDSSummary] is
    consistent: [total_tds] equals the total of section 192B and the sum
    (added up in list order) of [tds_deducted] over [employees];
    [total_employees] equals the section's count and the length of
    [employees]; the section's member list is the top-level list itself;
    and every record carries section 192B. *)
Theorem tds_summary_consistent (tenantId : string) (month year : Z)
    (w w' : world) (s : tds_summary) :
  generateTDSSummary tenantId month year w = (Ok s, w') ->
  exists sec,
    s_by_section s !! "192B" = Some sec
    /\ s_total_tds s = sec_total_amount sec
    /\ s_total_tds s
       = fold_left (fun sum r => (sum + te_tds_deducted r)%float)
           (s_employees s) 0%float
    /\ s_total_employees s = sec_employee_count sec
    /\ s_total_employees s = length (s_employees s)
    /\ sec_employees sec = s_employees s
    /\ Forall (fun r => te_section r = "192B") (s_employees s).
Proof.
  intros Hok.
  destruct (generateTDSSummary_ok _ _ _ _ _ _ Hok)
    as (r & rs & org & orgs & _ & _ & ->).
  unfold tds_build.
  destruct (tds_fold_consistent
              (select_tds_employees (pr_id r) tenantId (store w))
              _ (tds_initial_consistent org month year r
                   (select_tds_employees (pr_id r) tenantId (store w))))
    as (sec & Hsec & _ & Htotal & Hsum & Hcount & Hmembers & Hall).
  destruct (tds_fold_counts
              (select_tds_employees (pr_id r) tenantId (store w))
              (tds_initial org month year r
                 (select_tds_employees (pr_id r) tenantId (store w))))
    as [Hn Hlen].
  simpl in Hn, Hlen.
  exists sec. split; [assumption|].
  split; [now rewrite Htotal|].
  split; [exact Hsum|].
  split; [now rewrite Hcount, Hn, Hlen|].
  split; [now rewrite Hn, Hlen|].
  split; assumption.
Qed.

(** The fixture's March summary: one employee with 12,345 cents of TDS. *)
Lemma tds_summary_consistent_witness :
  exists s w' sec,
    generateTDSSummary "t1" 3 2025 (Fixture.fresh Fixture.acme) = (Ok s, w')
    /\ s_by_section s !! "192B" = Some sec
    /\ s_total_tds s = sec_total_amount sec
    /\ s_total_employees s = 1%nat.
Proof.
  destruct (generateTDSSummary "t1" 3 2025 (Fixture.fresh Fixture.acme))
    as [[s|e] w'] eqn:Hok; [|vm_compute in Hok; discriminate Hok].
  destruct (tds_summary_consistent _ _ _ _ _ _ Hok)
    as (sec & Hsec & Htotal & _ & _ & _ & _).
  exists s, w', sec. split; [reflexivity|]. split; [assumption|].
  split; [assumption|].
  vm_compute in Hok. injection Hok as <- _. reflexivity.
Defined.

Lemma select_tds_employees_nil (runId tenantId : string) (d : database) :
  (forall j, In j (processed_employees runId tenantId d) ->
     default 0 (pre_metadata (j_pre j) !! "tds_cents") <= 0) ->
  select_tds_employees runId tenantId d = [].
Proof.
  intros H. unfold select_tds_employees.
  replace (List.filter has_tds (processed_employees runId tenantId d))
    with (@nil joined); [reflexivity|].
  symmetry. apply filter_nil_iff. intros j Hj.
  unfold has_tds, SQL.metadata_cents. apply Z.ltb_ge. now apply H.
Qed.

(** Claim C7, as amended. When the lookup finds the run, the
    organization row exists and the [tds_cents] entries of the run
    results fit [bigint], and no processed employee of the run has a
    positive [tds_cents], [generateTDSSummary] returns a summary (it does
    not throw) with [total_tds = 0], [total_employees = 0], no employees,
    and section 192B present with total 0, count 0 and no members. The PF
    and ESI builders, in the same situation with no employee row
    selected, throw their EmptyResult errors instead. *)
Theorem tds_zero_rows_is_success (tenantId : string) (month year : Z)
    (w : world) (payrollRun : payroll_run) (runs : list payroll_run)
    (org : organization) (orgs : list organization) :
  select_completed_run tenantId month year (store w) = payrollRun :: runs ->
  select_organization tenantId (store w) = org :: orgs ->
  bigint_metadata "tds_cents" (store w) ->
  (forall j,
     In j (processed_employees (pr_id payrollRun) tenantId (store w)) ->
     default 0 (pre_metadata (j_pre j) !! "tds_cents") <= 0) ->
  (exists s w' sec,
     generateTDSSummary tenantId month year w = (Ok s, w')
     /\ s_total_tds s = 0%float
     /\ s_total_employees s = 0%nat
     /\ s_employees s = []
     /\ s_by_section s !! "192B" = Some sec
     /\ sec_section sec = "192B"
     /\ sec_total_amount sec = 0%float
     /\ sec_employee_count sec = 0%nat
     /\ sec_employees sec = [])
  /\ (JS.truthy (org_pf_code org) = true ->
      select_pf_employees (pr_id payrollRun) tenantId (store w) = [] ->
      exists e w',
        generatePFECR tenantId month year w = (Throw e, w')
        /\ error_class e = Some EmptyResult)
  /\ (select_esi_employees (pr_id payrollRun) tenantId
        (Date.last_day_before year month) (store w) = [] ->
      exists e w',
        generateESIReturn tenantId month year w = (Throw e, w')
        /\ error_class e = Some EmptyResult).
Proof.
  intros Hrun Horg Hfit Hnone. split; [|split].
  - rewrite generateTDSSummary_run, Hrun, Horg. simpl.
    unfold tds_cast_failure. rewrite (bigint_metadata_no_failure _ _ _ _ Hfit).
    rewrite (select_tds_employees_nil _ _ _ Hnone).
    eexists. eexists. eexists. split; [reflexivity|]. simpl.
    split; [reflexivity|]. split; [reflexivity|]. split; [reflexivity|].
    split; [apply lookup_singleton_eq|]. repeat split.
  - intros Hcode Hrows.
    assert (Hempty : processed_employees (pr_id payrollRun) tenantId (store w)
                     = []).
    { apply (f_equal (@length _)) in Hrows.
      rewrite select_pf_employees_length in Hrows.
      now apply length_zero_iff_nil. }
    rewrite generatePFECR_run, Hrun, Horg, Hcode. simpl.
    unfold pf_cast_failure. rewrite Hempty. simpl.
    fold (processed_employees (pr_id payrollRun) tenantId (store w)) in Hempty.
    rewrite Hrows.
    eexists. eexists. split; reflexivity.
  - intros Hrows.
    rewrite generateESIReturn_run, Hrun. unfold select_esi_code.
    rewrite Horg, Hrows. simpl.
    eexists. eexists. split; reflexivity.
Qed.

(** In the boundary fixture nobody has TDS: the summary is empty, not an
    error. *)
Lemma tds_zero_rows_is_success_witness :
  exists s w',
    generateTDSSummary "t1" 3 2025 (Fixture.fresh Fixture.acme_boundary)
    = (Ok s, w')
    /\ s_total_tds s = 0%float
    /\ s_total_employees s = 0%nat
    /\ s_employees s = [].
Proof.
  destruct (tds_zero_rows_is_success "t1" 3 2025
              (Fixture.fresh Fixture.acme_boundary)
              Fixture.march_run [] Fixture.org_acme [])
    as [(s & w' & sec & Hok & Htotal & Hn & Hemp & _) _].
  - reflexivity.
  - reflexivity.
  - repeat constructor.
  - intros j Hj. vm_compute in Hj.
    destruct Hj as [<-|[<-|[]]]; vm_compute; discriminate.
  - exists s, w'. auto.
Defined.

(** Claim C7 fails as stated: the run of the fixture has no employee
    with a positive [tds_cents], but without an organization row for the
    tenant [generateTDSSummary] throws "Organization not found". *)
Lemma tds_without_organization_throws : ~ tds_succeeds_without_deductions.
Proof.
  intros H.
  destruct (H "t1" 3 2025 (Fixture.fresh Fixture2.no_organization)
              Fixture.march_run [] eq_refl)
    as (s & w' & Hok & _).
  - intros j Hj. vm_compute in Hj.
    destruct Hj as [<-|[]]. vm_compute. discriminate.
  - vm_compute in Hok. discriminate Hok.
Qed.

(** With the organization row in place and no positive [tds_cents], the
    summary is still not returned when an entry of a processed employee
    of the run does not fit [bigint]: the server rejects the statement
    and the builder rethrows its error. *)
Example tds_cast_rejection :
  generateTDSSummary "t1" 3 2025 (Fixture.fresh Fixture2.tds_out_of_range)
  = (Throw (out_of_range (-9223372036854775809)),
     mkWorld Fixture2.tds_out_of_range
       [Query SelectCompletedRun; Query SelectOrganization;
        Query SelectTdsEmployees;
        ConsoleError tds_label (out_of_range (-9223372036854775809))]).
Proof. vm_compute; reflexivity. Qed.

(** ** Order of the selected rows *)

Section Sorting.
Context {A : Type} (le : A -> A -> bool).
Hypothesis le_total : forall a b, le a b = true \/ le b a = true.
Hypothesis le_trans : forall a b c, le a b = true -> le b c = true -> le a c = true.

Lemma insert_by_sorted (x : A) (l : list A) :
  StronglySorted (fun a b => le a b = true) l ->
  StronglySorted (fun a b => le a b = true) (SQL.insert_by le x l).
Proof.
  induction 1 as [|y l Hsorted IH Hy]; simpl.
  - constructor; constructor.
  - destruct (le x y) eqn:Hxy.
    + constructor; [now constructor|].
      constructor; [assumption|].
      apply List.Forall_forall. intros z Hz.
      rewrite List.Forall_forall in Hy. eauto.
    + constructor; [assumption|].
      apply List.Forall_forall. intros z Hz.
      apply insert_by_In in Hz as [->|Hz].
      * destruct (le_total x y) as [H|H]; [congruence | assumption].
      * rewrite List.Forall_forall in Hy. auto.
Qed.

Lemma order_by_sorted (l : list A) :
  StronglySorted (fun a b => le a b = true) (SQL.order_by le l).
Proof.
  induction l as [|x l IH]; simpl; [constructor|].
  now apply insert_by_sorted.
Qed.

Lemma order_by_head (l : list A) (x : A) (rest : list A) :
  SQL.order_by le l = x :: rest ->
  forall y, In y l -> le x y = true.
Proof.
  intros Heq y Hy.
  assert (Hs := order_by_sorted l). rewrite Heq in Hs.
  apply (order_by_In le) in Hy. rewrite Heq in Hy.
  destruct Hy as [<-|Hy].
  - destruct (le_total x x); assumption.
  - inversion Hs as [|? ? _ Hall]; subst.
    rewrite List.Forall_forall in Hall. auto.
Qed.
End Sorting.

Lemma insert_by_perm {A} (le : A -> A -> bool) (x : A) (l : list A) :
  Permutation (SQL.insert_by le x l) (x :: l).
Proof.
  induction l as [|y l IH]; simpl; [reflexivity|].
  destruct (le x y); [reflexivity|].
  rewrite IH. apply perm_swap.
Qed.

Lemma order_by_perm {A} (le : A -> A -> bool) (l : list A) :
  Permutation (SQL.order_by le l) l.
Proof.
  induction l as [|x l IH]; simpl; [reflexivity|].
  rewrite insert_by_perm. now constructor.
Qed.

Lemma date_leb_spec (a b : date) :
  date_leb a b = true <->
  d_year a < d_year b
  \/ (d_year a = d_year b
      /\ (d_month a < d_month b
          \/ (d_month a = d_month b /\ d_day a <= d_day b))).
Proof.
  unfold date_leb.
  rewrite !orb_true_iff, !andb_true_iff, !orb_true_iff, !andb_true_iff,
    !Z.ltb_lt, !Z.eqb_eq, Z.leb_le.
  tauto.
Qed.

Lemma date_leb_total (a b : date) : date_leb a b = true \/ date_leb b a = true.
Proof. rewrite !date_leb_spec. lia. Qed.

Lemma date_leb_trans (a b c : date) :
  date_leb a b = true -> date_leb b c = true -> date_leb a c = true.
Proof. rewrite !date_leb_spec. lia. Qed.

(** When the lookup returns a run, it is a completed run of the tenant
    paid in the requested month and year, no other such run has a later
    pay date, one statement was issued and the store is as it was. *)
Theorem lookup_returns_latest (tenantId : string) (month year : Z)
    (w w' : world) (r : payroll_run) :
  getPayrollRunForMonth tenantId month year w = (Ok r, w') ->
  In r (payroll_runs (store w))
  /\ pr_tenant_id r = tenantId
  /\ d_month (pr_pay_date r) = month
  /\ d_year (pr_pay_date r) = year
  /\ pr_status r = "completed"
  /\ (forall r',
        In r' (payroll_runs (store w)) ->
        is_completed_run_for tenantId month year r' = true ->
        date_leb (pr_pay_date r') (pr_pay_date r) = true)
  /\ w' = mkWorld (store w) (trace w ++ [Query SelectCompletedRun]).
Proof.
  intros Hok.
  destruct (select_completed_run tenantId month year (store w)) as [|r0 rest] eqn:Hsel.
  - rewrite (getPayrollRunForMonth_missing _ _ _ _ Hsel) in Hok. discriminate Hok.
  - rewrite (getPayrollRunForMonth_found _ _ _ _ _ _ Hsel) in Hok.
    injection Hok as -> <-.
    destruct (select_completed_run_head _ _ _ _ _ _ Hsel) as [Hin Hr].
    split; [assumption|].
    pose proof Hr as Hr'. unfold is_completed_run_for in Hr'.
    rewrite !andb_true_iff, !Z.eqb_eq, !String.eqb_eq in Hr'.
    destruct Hr' as [[[Ht Hm] Hy] Hs].
    repeat (split; [assumption|]).
    split; [|reflexivity].
    intros r' Hin' Hr''.
    unfold select_completed_run, SQL.limit in Hsel.
    destruct (SQL.order_by (fun a b => date_leb (pr_pay_date b) (pr_pay_date a))
                (List.filter (is_completed_run_for tenantId month year)
                   (payroll_runs (store w)))) as [|r1 rest1] eqn:Hord;
      [discriminate Hsel|].
    simpl in Hsel. injection Hsel as -> _.
    apply (order_by_head _
             (fun a b => date_leb_total (pr_pay_date b) (pr_pay_date a))
             (fun a b c Hab Hbc => date_leb_trans _ _ _ Hbc Hab)
             _ _ _ Hord).
    apply filter_In. auto.
Qed.

(** Of two completed March runs the one paid on the 31st is returned. *)
Lemma lookup_returns_latest_witness :
  exists r w',
    getPayrollRunForMonth "t1" 3 2025 (Fixture.fresh Fixture2.two_march_runs)
    = (Ok r, w')
    /\ pr_id r = "r1"
    /\ date_leb (mkDate 2025 3 15) (pr_pay_date r) = true.
Proof.
  assert (Hok : getPayrollRunForMonth "t1" 3 2025
                  (Fixture.fresh Fixture2.two_march_runs)
                = (Ok Fixture.march_run,
                   mkWorld Fixture2.two_march_runs [Query SelectCompletedRun]))
    by (vm_compute; reflexivity).
  destruct (lookup_returns_latest _ _ _ _ _ _ Hok) as (_ & _ & _ & _ & _ & Hmax & _).
  eexists. eexists. split; [exact Hok|]. split; [reflexivity|].
  apply (Hmax (mkRun "r0" "t1" Fixture.jan1 Fixture.jan1 (mkDate 2025 3 15) "completed")).
  - now left.
  - reflexivity.
Defined.

Lemma nulls_last_total (le : string -> string -> bool) :
  is_collation le ->
  forall a b, SQL.nulls_last le a b = true \/ SQL.nulls_last le b a = true.
Proof.
  intros [Htotal _] [a|] [b|]; simpl; auto.
Qed.

Lemma nulls_last_trans (le : string -> string -> bool) :
  is_collation le ->
  forall a b c,
    SQL.nulls_last le a b = true -> SQL.nulls_last le b c = true ->
    SQL.nulls_last le a c = true.
Proof.
  intros [_ Htrans] [a|] [b|] [c|]; simpl; try congruence; eauto.
Qed.

Lemma sorted_map {A B} (f : A -> B) (R : B -> B -> Prop) (l : list A) :
  StronglySorted (fun a b => R (f a) (f b)) l ->
  StronglySorted R (List.map f l).
Proof.
  induction 1 as [|x l _ IH Hx]; simpl; constructor; [assumption|].
  rewrite List.Forall_forall in *. intros y Hy.
  apply in_map_iff in Hy as [z [<- Hz]]. auto.
Qed.

Lemma string_leb_is_collation : is_collation String.leb.
Proof.
  split; [apply String.leb_total|].
  intros a b c Hab Hbc.
  apply Is_true_true. apply Is_true_true in Hab, Hbc.
  change (String.le a c). now transitivity b.
Qed.

(** Under a total and transitive collation, the rows each builder reads
    are in ascending [employee_id] order with null ids last, and they
    are, up to order, exactly the processed employees of the run that
    pass the builder's own filter: none is lost and none is repeated. *)
Theorem rows_in_employee_id_order (runId tenantId : string) (days : Z)
    (d : database) :
  is_collation (collation d) ->
  (StronglySorted
     (fun a b => SQL.nulls_last (collation d)
                   (pf_employee_id a) (pf_employee_id b) = true)
     (select_pf_employees runId tenantId d)
   /\ Permutation (select_pf_employees runId tenantId d)
        (List.map pf_project (processed_employees runId tenantId d)))
  /\ (StronglySorted
        (fun a b => SQL.nulls_last (collation d)
                      (esi_employee_id a) (esi_employee_id b) = true)
        (select_esi_employees runId tenantId days d)
      /\ Permutation (select_esi_employees runId tenantId days d)
           (List.map (esi_project days)
              (List.filter esi_eligible (processed_employees runId tenantId d))))
  /\ (StronglySorted
        (fun a b => SQL.nulls_last (collation d)
                      (tds_employee_id a) (tds_employee_id b) = true)
        (select_tds_employees runId tenantId d)
      /\ Permutation (select_tds_employees runId tenantId d)
           (List.map tds_project
              (List.filter has_tds (processed_employees runId tenantId d)))).
Proof.
  intros Hcoll.
  assert (Hsorted : forall l,
            StronglySorted (fun a b => by_employee_id d a b = true)
              (SQL.order_by (by_employee_id d) l)).
  { intros l. apply order_by_sorted.
    - intros a b. apply (nulls_last_total _ Hcoll).
    - intros a b c. apply (nulls_last_trans _ Hcoll). }
  repeat split.
  - unfold select_pf_employees. apply sorted_map. apply Hsorted.
  - unfold select_pf_employees. apply Permutation_map, order_by_perm.
  - unfold select_esi_employees, esi_selected. apply sorted_map. apply Hsorted.
  - unfold select_esi_employees, esi_selected. apply Permutation_map, order_by_perm.
  - unfold select_tds_employees. apply sorted_map. apply Hsorted.
  - unfold select_tds_employees. apply Permutation_map, order_by_perm.
Qed.

(** In the fixture EMP0 comes before EMP1 in the PF rows. *)
Lemma rows_in_employee_id_order_witness :
  List.map pf_employee_id (select_pf_employees "r1" "t1" Fixture.acme)
  = [Some "EMP0"; Some "EMP1"]
  /\ StronglySorted
       (fun a b => SQL.nulls_last String.leb
                     (pf_employee_id a) (pf_employee_id b) = true)
       (select_pf_employees "r1" "t1" Fixture.acme).
Proof.
  split; [vm_compute; reflexivity|].
  apply (rows_in_employee_id_order "r1" "t1" 31 Fixture.acme
           string_leb_is_collation).
Defined.

(** ** Failures of the builders *)

Lemma error_class_lookup (month year : Z) (rows : list run_group) :
  error_class (Error (no_run_message month year rows)) <> None.
Proof. rewrite no_run_message_class. discriminate. Qed.

(** Every builder keeps the store as it was, leaves only statements in
    the trace when it returns, and when it throws, whatever the error,
    has written that error to the console exactly once, under its own
    label, after its statements. The TDS builder never throws an
    EmptyResult error. *)
Theorem failures_are_reported_once (tenantId : string) (month year : Z) :
  reports_failure_once pf_label (generatePFECR tenantId month year)
  /\ reports_failure_once esi_label (generateESIReturn tenantId month year)
  /\ reports_failure_once tds_label (generateTDSSummary tenantId month year)
  /\ (forall w e w',
        generateTDSSummary tenantId month year w = (Throw e, w') ->
        error_class e <> Some EmptyResult).
Proof.
  split; [|split; [|split]].
  - intros w. rewrite generatePFECR_run. simpl.
    destruct (select_completed_run tenantId month year (store w)) as [|r rs].
    { split; [reflexivity|].
      now exists [SelectCompletedRun; SelectAllRuns]. }
    destruct (select_organization tenantId (store w)) as [|org orgs].
    { split; [reflexivity|].
      now exists [SelectCompletedRun; SelectOrganization]. }
    destruct (negb (JS.truthy (org_pf_code org))).
    { split; [reflexivity|].
      now exists [SelectCompletedRun; SelectOrganization]. }
    destruct (pf_cast_failure (pr_id r) tenantId (store w)).
    { split; [reflexivity|].
      now exists [SelectCompletedRun; SelectOrganization; SelectPfEmployees]. }
    destruct (select_pf_employees (pr_id r) tenantId (store w)).
    { split; [reflexivity|].
      now exists [SelectCompletedRun; SelectOrganization; SelectPfEmployees]. }
    split; [reflexivity|].
    now exists [SelectCompletedRun; SelectOrganization; SelectPfEmployees].
  - intros w. rewrite generateESIReturn_run. simpl.
    destruct (select_completed_run tenantId month year (store w)) as [|r rs].
    { split; [reflexivity|].
      now exists [SelectCompletedRun; SelectAllRuns]. }
    destruct (select_esi_code tenantId (store w)) as [|org orgs].
    { split; [reflexivity|].
      now exists [SelectCompletedRun; SelectEsiCode]. }
    destruct (select_esi_employees (pr_id r) tenantId _ (store w)).
    { split; [reflexivity|].
      now exists [SelectCompletedRun; SelectEsiCode; SelectEsiEmployees]. }
    split; [reflexivity|].
    now exists [SelectCompletedRun; SelectEsiCode; SelectEsiEmployees].
  - intros w. rewrite generateTDSSummary_run. simpl.
    destruct (select_completed_run tenantId month year (store w)) as [|r rs].
    { split; [reflexivity|].
      now exists [SelectCompletedRun; SelectAllRuns]. }
    destruct (select_organization tenantId (store w)) as [|org orgs].
    { split; [reflexivity|].
      now exists [SelectCompletedRun; SelectOrganization]. }
    destruct (tds_cast_failure (pr_id r) tenantId (store w)).
    { split; [reflexivity|].
      now exists [SelectCompletedRun; SelectOrganization; SelectTdsEmployees]. }
    split; [reflexivity|].
    now exists [SelectCompletedRun; SelectOrganization; SelectTdsEmployees].
  - intros w e w'. rewrite generateTDSSummary_run. simpl.
    destruct (select_completed_run tenantId month year (store w)) as [|r rs].
    { intros [= <- _]. rewrite no_run_message_class. discriminate. }
    destruct (select_organization tenantId (store w)) as [|org orgs].
    { intros [= <- _]. discriminate. }
    destruct (tds_cast_failure (pr_id r) tenantId (store w)) as [e0|] eqn:Hcast;
      [|intros [=]].
    intros [= <- _]. apply cast_failure_some in Hcast as (j & _ & _ & ->).
    rewrite out_of_range_class. discriminate.
Qed.

(** A processed employee of the run whose [pf_cents] does not fit
    [bigint] makes the PF statement fail: [generatePFECR] throws the
    server's error, which is none of the specification's three kinds,
    after the three statements, and writes it to the console once. *)
Theorem pf_cast_rejection_is_rethrown (tenantId : string) (month year : Z)
    (w : world) (payrollRun : payroll_run) (runs : list payroll_run)
    (org : organization) (orgs : list organization) (j : joined) :
  select_completed_run tenantId month year (store w) = payrollRun :: runs ->
  select_organization tenantId (store w) = org :: orgs ->
  JS.truthy (org_pf_code org) = true ->
  In j (processed_employees (pr_id payrollRun) tenantId (store w)) ->
  SQL.in_bigint (default 0 (pre_metadata (j_pre j) !! "pf_cents")) = false ->
  exists e,
    generatePFECR tenantId month year w
    = (Throw e,
       mkWorld (store w)
         (trace w ++ [Query SelectCompletedRun; Query SelectOrganization;
                      Query SelectPfEmployees; ConsoleError pf_label e]))
    /\ error_class e = None.
Proof.
  intros Hrun Horg Hcode Hj Hout.
  destruct (cast_failure_found "pf_cents" _ j Hj Hout) as [e He].
  exists e. rewrite generatePFECR_run, Hrun, Horg, Hcode. simpl.
  unfold pf_cast_failure. rewrite He. split; [reflexivity|].
  apply cast_failure_some in He as (j' & _ & _ & ->).
  apply out_of_range_class.
Qed.

(** A contribution of 2^63 cents is one too many for [bigint]. *)
Lemma pf_cast_rejection_is_rethrown_witness :
  exists e,
    generatePFECR "t1" 3 2025 (Fixture.fresh Fixture2.pf_out_of_range)
    = (Throw e,
       mkWorld Fixture2.pf_out_of_range
         [Query SelectCompletedRun; Query SelectOrganization;
          Query SelectPfEmployees; ConsoleError pf_label e])
    /\ error_class e = None.
Proof.
  apply (pf_cast_rejection_is_rethrown "t1" 3 2025
           (Fixture.fresh Fixture2.pf_out_of_range)
           Fixture.march_run [] Fixture.org_acme []
           (mkPre "r1" "e1" "processed" 2000000
              {[ "pf_cents" := 9223372036854775808 ]},
            mkEmployee "e1" "u1" "t1" (Some "EMP1") (Some "UAN1") None
              (Some "PAN1"),
            mkProfile "u1" (Some "John") (Some "Doe"))).
  - reflexivity.
  - reflexivity.
  - reflexivity.
  - vm_compute. now left.
  - reflexivity.
Defined.

(** When the lookup throws, each builder throws that same error, writes
    it to the console under its own label, and issues no statement after
    the lookup's two. *)
Theorem lookup_failure_is_rethrown (tenantId : string) (month year : Z)
    (w w1 : world) (e : error) :
  getPayrollRunForMonth tenantId month year w = (Throw e, w1) ->
  generatePFECR tenantId month year w
  = (Throw e, mkWorld (store w1) (trace w1 ++ [ConsoleError pf_label e]))
  /\ generateESIReturn tenantId month year w
     = (Throw e, mkWorld (store w1) (trace w1 ++ [ConsoleError esi_label e]))
  /\ generateTDSSummary tenantId month year w
     = (Throw e, mkWorld (store w1) (trace w1 ++ [ConsoleError tds_label e]))
  /\ trace w1 = (trace w ++ [Query SelectCompletedRun; Query SelectAllRuns])%list.
Proof.
  intros Hlookup.
  repeat split.
  - unfold generatePFECR, try_catch, bind. now rewrite Hlookup.
  - unfold generateESIReturn, try_catch, bind. now rewrite Hlookup.
  - unfold generateTDSSummary, try_catch, bind. now rewrite Hlookup.
  - destruct (select_completed_run tenantId month year (store w)) as [|r rs] eqn:Hsel.
    + rewrite (getPayrollRunForMonth_missing _ _ _ _ Hsel) in Hlookup.
      now injection Hlookup as _ <-.
    + rewrite (getPayrollRunForMonth_found _ _ _ _ _ _ Hsel) in Hlookup.
      discriminate Hlookup.
Qed.

Lemma lookup_failure_is_rethrown_witness :
  exists e w',
    generateTDSSummary "t1" 12 2025 (Fixture.fresh Fixture.drafts_only)
    = (Throw e, w')
    /\ getPayrollRunForMonth "t1" 12 2025 (Fixture.fresh Fixture.drafts_only)
       = (Throw e, mkWorld Fixture.drafts_only
                     [Query SelectCompletedRun; Query SelectAllRuns]).
Proof.
  destruct (getPayrollRunForMonth "t1" 12 2025 (Fixture.fresh Fixture.drafts_only))
    as [[r|e] w1] eqn:Hlookup; [vm_compute in Hlookup; discriminate Hlookup|].
  destruct (lookup_failure_is_rethrown _ _ _ _ _ _ Hlookup) as (_ & _ & Htds & _).
  exists e. eexists. split; [exact Htds|].
  vm_compute in Hlookup. injection Hlookup as <- <-. reflexivity.
Defined.

Lemma select_organization_nil (tenantId : string) (d : database) :
  (forall o, In o (organizations d) -> org_id o <> tenantId) ->
  select_organization tenantId d = [].
Proof.
  intros H. apply filter_nil_iff. intros o Ho.
  apply String.eqb_neq. now apply H.
Qed.

(** When a completed run exists for the period but no organization row
    has the tenant's id, each builder throws "Organization not found" (an
    InvalidConfig error) after the run lookup and the organization
    statement, before any employee statement. *)
Theorem missing_organization_fails (tenantId : string) (month year : Z)
    (w : world) :
  has_completed_run_for tenantId month year (store w) ->
  (forall o, In o (organizations (store w)) -> org_id o <> tenantId) ->
  error_class (Error "Organization not found") = Some InvalidConfig
  /\ generatePFECR tenantId month year w
     = (Throw (Error "Organization not found"),
        mkWorld (store w)
          (trace w ++ [Query SelectCompletedRun; Query SelectOrganization;
                       ConsoleError pf_label (Error "Organization not found")]))
  /\ generateESIReturn tenantId month year w
     = (Throw (Error "Organization not found"),
        mkWorld (store w)
          (trace w ++ [Query SelectCompletedRun; Query SelectEsiCode;
                       ConsoleError esi_label (Error "Organization not found")]))
  /\ generateTDSSummary tenantId month year w
     = (Throw (Error "Organization not found"),
        mkWorld (store w)
          (trace w ++ [Query SelectCompletedRun; Query SelectOrganization;
                       ConsoleError tds_label (Error "Organization not found")])).
Proof.
  intros Hrun Horg.
  apply select_organization_nil in Horg.
  destruct (select_completed_run tenantId month year (store w)) as [|r rs] eqn:Hsel.
  { apply select_completed_run_nil in Hsel. contradiction. }
  split; [reflexivity|].
  split; [|split].
  - now rewrite generatePFECR_run, Hsel, Horg.
  - rewrite generateESIReturn_run, Hsel. unfold select_esi_code. now rewrite Horg.
  - now rewrite generateTDSSummary_run, Hsel, Horg.
Qed.

Lemma missing_organization_fails_witness :
  fst (generatePFECR "t1" 3 2025 (Fixture.fresh Fixture2.no_organization))
  = Throw (Error "Organization not found").
Proof.
  destruct (missing_organization_fails "t1" 3 2025
              (Fixture.fresh Fixture2.no_organization)) as (_ & Hpf & _).
  - exists Fixture.march_run. split; [now left | reflexivity].
  - intros o [].
  - now rewrite Hpf.
Defined.

(** ** When a report is produced *)

(** Where the [pf_cents] and [tds_cents] entries of the run results fit
    [bigint], so that the server rejects no statement, each builder
    returns a result exactly when its checks pass on the run the lookup
    selects: the PF report when the organization row carries a non-empty
    PF code and the run has a processed employee of the tenant; the ESI
    return when the organization row exists and a processed employee is
    within the wage ceiling; the TDS summary as soon as the organization
    row exists. *)
Theorem reports_produced_exactly_when (tenantId : string) (month year : Z)
    (w : world) :
  bigint_metadata "pf_cents" (store w) ->
  bigint_metadata "tds_cents" (store w) ->
  ((exists text w', generatePFECR tenantId month year w = (Ok text, w'))
   <-> exists payrollRun runs org orgs code j,
         select_completed_run tenantId month year (store w) = payrollRun :: runs
         /\ select_organization tenantId (store w) = org :: orgs
         /\ org_pf_code org = Some code /\ code <> ""
         /\ In j (processed_employees (pr_id payrollRun) tenantId (store w)))
  /\ ((exists text w', generateESIReturn tenantId month year w = (Ok text, w'))
      <-> exists payrollRun runs org orgs j,
            select_completed_run tenantId month year (store w) = payrollRun :: runs
            /\ select_organization tenantId (store w) = org :: orgs
            /\ In j (processed_employees (pr_id payrollRun) tenantId (store w))
            /\ pre_gross_pay_cents (j_pre j) <= 2100000)
  /\ ((exists s w', generateTDSSummary tenantId month year w = (Ok s, w'))
      <-> exists payrollRun runs org orgs,
            select_completed_run tenantId month year (store w) = payrollRun :: runs
            /\ select_organization tenantId (store w) = org :: orgs).
Proof.
  intros Hpf Htds.
  split; [|split]; split.
  - intros (text & w' & Hok).
    destruct (generatePFECR_ok _ _ _ _ _ _ Hok)
      as (r & rs & org & orgs & code & Hrun & Horg & Hcode & Hne & Hrows & _).
    destruct (processed_employees (pr_id r) tenantId (store w)) as [|j js] eqn:Hproc.
    + exfalso. apply Hrows. unfold select_pf_employees. now rewrite Hproc.
    + exists r, rs, org, orgs, code, j. rewrite Hproc. repeat split; auto.
      now left.
  - intros (r & rs & org & orgs & code & j & Hrun & Horg & Hcode & Hne & Hj).
    eexists. eexists.
    exact (generatePFECR_succeeds _ _ _ _ _ _ _ _ _ _ Hrun Horg Hcode Hne Hj
             (bigint_metadata_no_failure _ _ _ _ Hpf)).
  - intros (text & w' & Hok).
    destruct (generateESIReturn_ok _ _ _ _ _ _ Hok)
      as (r & rs & Hrun & Hcode & Hsel & _).
    destruct (select_organization tenantId (store w)) as [|org orgs] eqn:Horg.
    { exfalso. apply Hcode. unfold select_esi_code. now rewrite Horg. }
    destruct (esi_selected (pr_id r) tenantId (store w)) as [|j js] eqn:Hj;
      [congruence|].
    assert (Hin : In j (esi_selected (pr_id r) tenantId (store w)))
      by (rewrite Hj; now left).
    apply esi_selected_In in Hin as [Hin Hg].
    now exists r, rs, org, orgs, j.
  - intros (r & rs & org & orgs & j & Hrun & Horg & Hj & Hg).
    eexists. eexists.
    exact (generateESIReturn_succeeds _ _ _ _ _ _ _ _ _ Hrun Horg Hj Hg).
  - intros (s & w' & Hok).
    destruct (generateTDSSummary_ok _ _ _ _ _ _ Hok)
      as (r & rs & org & orgs & Hrun & Horg & _).
    now exists r, rs, org, orgs.
  - intros (r & rs & org & orgs & Hrun & Horg).
    rewrite generateTDSSummary_run, Hrun, Horg. simpl.
    unfold tds_cast_failure. rewrite (bigint_metadata_no_failure _ _ _ _ Htds).
    eauto.
Qed.

(** In the fixture every entry fits, and the three reports for March are
    produced. *)
Lemma reports_produced_exactly_when_witness :
  exists text w',
    generatePFECR "t1" 3 2025 (Fixture.fresh Fixture.acme) = (Ok text, w').
Proof.
  apply (reports_produced_exactly_when "t1" 3 2025 (Fixture.fresh Fixture.acme)).
  - repeat constructor.
  - repeat constructor.
  - exists Fixture.march_run, [], Fixture.org_acme, [], "MH123",
      (mkPre "r1" "e1" "processed" 2000000
         {[ "pf_cents" := 240000; "tds_cents" := 12345 ]},
       mkEmployee "e1" "u1" "t1" (Some "EMP1") (Some "UAN1") None
         (Some "PAN1"),
       mkProfile "u1" (Some "John") (Some "Doe")).
    repeat split; try discriminate. vm_compute. now left.
Defined.

(** ** Records of the TDS summary *)

Lemma tds_fold_employees (rows : list tds_row) (s : tds_summary) :
  s_employees (fold_left tds_add rows s)
  = (s_employees s ++ List.map employeeRecord rows)%list
  /\ s_organization (fold_left tds_add rows s) = s_organization s
  /\ s_period (fold_left tds_add rows s) = s_period s.
Proof.
  revert s. induction rows as [|emp rows IH]; intros s; simpl.
  - now rewrite app_nil_r.
  - destruct (IH (tds_add s emp)) as (-> & -> & ->). simpl.
    now rewrite <- app_assoc.
Qed.

(** A returned TDS summary lists one record per row of the TDS statement,
    in the statement's order: the processed employees of the selected run
    whose [tds_cents] is positive, each with its PAN (empty when null),
    trimmed name and amounts in whole currency units. Its organization
    block holds the name, PAN and TAN with null read as empty, and its
    period block the requested month and year with the run's pay date. *)
Theorem tds_summary_lists_selected_rows (tenantId : string) (month year : Z)
    (w w' : world) (s : tds_summary) :
  generateTDSSummary tenantId month year w = (Ok s, w') ->
  exists payrollRun runs org orgs,
    select_completed_run tenantId month year (store w) = payrollRun :: runs
    /\ select_organization tenantId (store w) = org :: orgs
    /\ s_employees s
       = List.map employeeRecord
           (select_tds_employees (pr_id payrollRun) tenantId (store w))
    /\ Permutation
         (select_tds_employees (pr_id payrollRun) tenantId (store w))
         (List.map tds_project
            (List.filter (fun j => 0 <? default 0 (pre_metadata (j_pre j) !! "tds_cents"))
               (processed_employees (pr_id payrollRun) tenantId (store w))))
    /\ s_total_employees s
       = length (List.filter
                   (fun j => 0 <? default 0 (pre_metadata (j_pre j) !! "tds_cents"))
                   (processed_employees (pr_id payrollRun) tenantId (store w)))
    /\ s_organization s
       = mkTdsOrg (JS.or_empty (org_name org))
           (JS.or_empty (org_company_pan org))
           (JS.or_empty (org_company_tan org))
    /\ s_period s = mkTdsPeriod month year (pr_pay_date payrollRun).
Proof.
  intros Hok.
  destruct (generateTDSSummary_ok _ _ _ _ _ _ Hok)
    as (r & rs & org & orgs & Hrun & Horg & ->).
  exists r, rs, org, orgs.
  split; [assumption|]. split; [assumption|].
  unfold tds_build.
  destruct (tds_fold_employees
              (select_tds_employees (pr_id r) tenantId (store w))
              (tds_initial org month year r
                 (select_tds_employees (pr_id r) tenantId (store w))))
    as (-> & -> & ->).
  destruct (tds_fold_counts
              (select_tds_employees (pr_id r) tenantId (store w))
              (tds_initial org month year r
                 (select_tds_employees (pr_id r) tenantId (store w))))
    as [-> _].
  simpl.
  split; [reflexivity|].
  split; [unfold select_tds_employees; apply Permutation_map, order_by_perm|].
  split; [|split; reflexivity].
  unfold select_tds_employees. now rewrite length_map, order_by_length.
Qed.

Lemma tds_summary_lists_selected_rows_witness :
  exists s w',
    generateTDSSummary "t1" 3 2025 (Fixture.fresh Fixture.acme) = (Ok s, w')
    /\ List.map te_name (s_employees s) = ["John Doe"].
Proof.
  destruct (generateTDSSummary "t1" 3 2025 (Fixture.fresh Fixture.acme))
    as [[s|e] w'] eqn:Hok; [|vm_compute in Hok; discriminate Hok].
  destruct (tds_summary_lists_selected_rows _ _ _ _ _ _ Hok)
    as (r & rs & org & orgs & Hrun & _ & Hemp & _).
  exists s, w'. split; [reflexivity|].
  rewrite Hemp.
  vm_compute in Hrun. injection Hrun as <- _.
  vm_compute. reflexivity.
Defined.

(** An employee whose [tds_cents] is between 1 and 49 passes the TDS
    filter and is listed, with a deducted amount of 0 whole units: the
    filter is on cents, the record is rounded. *)
Theorem small_tds_is_listed_as_zero (j : joined) :
  0 < default 0 (pre_metadata (j_pre j) !! "tds_cents") < 50 ->
  has_tds j = true
  /\ te_tds_deducted (employeeRecord (tds_project j)) = 0%float.
Proof.
  intros Hc. unfold has_tds, employeeRecord, tds_project, SQL.metadata_cents.
  simpl.
  split; [apply Z.ltb_lt; lia|].
  set (c := default 0 (pre_metadata (j_pre j) !! "tds_cents")) in *.
  assert (Hn : exists n, (n < 49)%nat /\ c = 1 + Z.of_nat n).
  { exists (Z.to_nat (c - 1)). lia. }
  destruct Hn as (n & Hn & ->). clear Hc.
  do 49 (destruct n as [|n]; [vm_compute; reflexivity|]).
  lia.
Qed.

(** With 49 cents of TDS the employee is in the summary with 0. *)
Lemma small_tds_is_listed_as_zero_witness :
  (exists s w',
     generateTDSSummary "t1" 3 2025 (Fixture.fresh Fixture2.small_tds) = (Ok s, w')
     /\ s_total_employees s = 1%nat)
  /\ te_tds_deducted
       (employeeRecord
          (tds_project
             (mkPre "r1" "e1" "processed" 2000000 {[ "tds_cents" := 49 ]},
              mkEmployee "e1" "u1" "t1" (Some "EMP1") (Some "UAN1") None
                (Some "PAN1"),
              mkProfile "u1" (Some "John") (Some "Doe"))))
     = 0%float.
Proof.
  split.
  - eexists. eexists. split; [vm_compute; reflexivity | reflexivity].
  - apply small_tds_is_listed_as_zero. vm_compute. split; reflexivity.
Defined.

(** ** Reading the PF file back *)

Lemma chars_of_uint (d : Decimal.uint) (c : ascii) :
  In c (list_ascii_of_string (NilEmpty.string_of_uint d)) -> In c number_chars.
Proof.
  induction d; simpl; try tauto;
    (intros [<-|H]; [vm_compute; tauto | auto]).
Qed.

Lemma chars_of_String_of_Z (z : Z) (c : ascii) :
  In c (list_ascii_of_string (JS.String_of_Z z)) -> In c number_chars.
Proof.
  unfold JS.String_of_Z, NilZero.string_of_int.
  assert (Hu : forall d, In c (list_ascii_of_string (NilZero.string_of_uint d)) ->
                         In c number_chars).
  { intros d H. unfold NilZero.string_of_uint in H.
    destruct d; try exact (chars_of_uint _ c H).
    simpl in H. destruct H as [<-|[]]. vm_compute. tauto. }
  destruct (Z.to_int z) as [d|d]; [exact (Hu d)|].
  intros H.
  change (In c ("-"%char :: list_ascii_of_string (NilZero.string_of_uint d))) in H.
  destruct H as [<-|H]; [vm_compute; tauto | exact (Hu d H)].
Qed.

Lemma chars_app (s t : string) :
  list_ascii_of_string (s ++ t)
  = (list_ascii_of_string s ++ list_ascii_of_string t)%list.
Proof.
  induction s as [|a s IH]; [reflexivity|].
  rewrite append_cons. simpl. now rewrite IH.
Qed.

Lemma chars_of_drop_trailing_zeros (s : string) (c : ascii) :
  In c (list_ascii_of_string (JS.drop_trailing_zeros s)) ->
  In c (list_ascii_of_string s).
Proof.
  induction s as [|a s IH]; [tauto|].
  cbn [JS.drop_trailing_zeros].
  destruct (JS.drop_trailing_zeros s) as [|b t].
  - destruct (Ascii.eqb a "0"); simpl; tauto.
  - intros [<-|H]; [now left|]. right. apply IH. exact H.
Qed.

Lemma chars_of_integer_text (z : Z) (c : ascii) :
  In c (list_ascii_of_string (JS.integer_text z)) -> In c number_chars.
Proof.
  unfold JS.integer_text.
  destruct (String.length (JS.String_of_Z z) <=? 21)%nat;
    [apply chars_of_String_of_Z|].
  pose proof (chars_of_String_of_Z z) as Hz.
  destruct (JS.String_of_Z z) as [|d rest]; [apply Hz|].
  intros [<-|H]; [apply Hz; now left|].
  rewrite !chars_app in H. apply in_app_or in H as [H|H].
  - destruct (String.eqb (JS.drop_trailing_zeros rest) ""); [destruct H|].
    rewrite chars_app in H. apply in_app_or in H as [H|H].
    + destruct H as [<-|[]]. vm_compute. tauto.
    + apply Hz. right. now apply chars_of_drop_trailing_zeros.
  - apply in_app_or in H as [H|H].
    + destruct H as [<-|[<-|[]]]; vm_compute; tauto.
    + now apply chars_of_String_of_Z in H.
Qed.

Lemma chars_of_String_of_number (x : float) (c : ascii) :
  In c (list_ascii_of_string (JS.String_of_number x)) -> In c number_chars.
Proof.
  unfold JS.String_of_number.
  destruct (Prim2SF x) as [s|s| |s m e].
  - simpl. intros [<-|[]]. vm_compute. tauto.
  - destruct s; vm_compute; tauto.
  - vm_compute. tauto.
  - cbv zeta.
    destruct ((if 0 <=? e then Z.pos m * 2 ^ e
               else Z.quot (Z.pos m) (2 ^ (- e))) <? 2 ^ 53);
      [apply chars_of_String_of_Z|].
    rewrite chars_app. intros H. apply in_app_or in H as [H|H].
    + destruct s; [|destruct H].
      destruct H as [<-|[]]. vm_compute. tauto.
    + now apply chars_of_integer_text in H.
Qed.

Lemma includes_false_iff (c : ascii) (s : string) :
  JS.includes c s = false <-> ~ In c (list_ascii_of_string s).
Proof.
  rewrite <- includes_In. destruct (JS.includes c s); split; congruence.
Qed.

Lemma number_has_no (c : ascii) (x : float) :
  ~ In c number_chars -> JS.includes c (JS.String_of_number x) = false.
Proof.
  intros Hc. apply includes_false_iff. intros H.
  apply Hc. now apply chars_of_String_of_number in H.
Qed.

Lemma integer_has_no (c : ascii) (z : Z) :
  ~ In c number_chars -> JS.includes c (JS.String_of_Z z) = false.
Proof.
  intros Hc. apply includes_false_iff. intros H.
  apply Hc. now apply chars_of_String_of_Z in H.
Qed.

Lemma includes_app (c : ascii) (s t : string) :
  JS.includes c (s ++ t) = JS.includes c s || JS.includes c t.
Proof.
  induction s as [|a s IH]; [reflexivity|].
  rewrite append_cons. simpl. now rewrite IH, orb_assoc.
Qed.

Lemma includes_join (c : ascii) (sep : string) (parts : list string) :
  JS.includes c sep = false ->
  Forall (fun p => JS.includes c p = false) parts ->
  JS.includes c (JS.join sep parts) = false.
Proof.
  intros Hsep. induction 1 as [|p parts Hp _ IH]; [reflexivity|].
  unfold JS.join in *. simpl. destruct parts as [|q parts]; [assumption|].
  now rewrite !includes_app, Hp, Hsep, IH.
Qed.

Lemma includes_trimStart (c : ascii) (s : string) :
  JS.includes c s = false -> JS.includes c (JS.trimStart s) = false.
Proof.
  induction s as [|a s IH]; simpl; [reflexivity|].
  intros H. apply orb_false_iff in H as [Ha Hs].
  destruct (JS.is_space a); [auto|]. simpl. now rewrite Ha, Hs.
Qed.

Lemma includes_trimEnd (c : ascii) (s : string) :
  JS.includes c s = false -> JS.includes c (JS.trimEnd s) = false.
Proof.
  induction s as [|a s IH]; simpl; [reflexivity|].
  intros H. apply orb_false_iff in H as [Ha Hs]. specialize (IH Hs).
  destruct (JS.trimEnd s) as [|b t].
  - destruct (JS.is_space a); simpl; [reflexivity | now rewrite Ha].
  - simpl in *. now rewrite Ha, IH.
Qed.

Lemma includes_trim (c : ascii) (s : string) :
  JS.includes c s = false -> JS.includes c (JS.trim s) = false.
Proof. intros H. now apply includes_trimEnd, includes_trimStart. Qed.

Lemma upper_ascii_delimiter (c a : ascii) :
  c = "|"%char \/ c = line_feed ->
  Ascii.eqb (JS.upper_ascii a) c = Ascii.eqb a c.
Proof.
  intros [-> | ->];
    destruct a as [[] [] [] [] [] [] [] []]; reflexivity.
Qed.

Lemma includes_toUpperCase (c : ascii) (s : string) :
  c = "|"%char \/ c = line_feed ->
  JS.includes c (JS.toUpperCase s) = JS.includes c s.
Proof.
  intros Hc. induction s as [|a s IH]; simpl; [reflexivity|].
  now rewrite (upper_ascii_delimiter _ _ Hc), IH.
Qed.

Lemma includes_padStart (c filler : ascii) (n : nat) (s : string) :
  c <> filler -> JS.includes c s = false ->
  JS.includes c (JS.padStart n filler s) = false.
Proof.
  intros Hne Hs. unfold JS.padStart. rewrite includes_app, Hs, orb_false_r.
  induction (n - String.length s)%nat as [|k IH]; simpl; [reflexivity|].
  rewrite IH, orb_false_r. apply Ascii.eqb_neq. congruence.
Qed.

Lemma split_without (sep : ascii) (s : string) :
  JS.includes sep s = false -> Reader.split sep s = [s].
Proof.
  induction s as [|a s IH]; simpl; [reflexivity|].
  intros H. apply orb_false_iff in H as [Ha Hs].
  now rewrite Ha, (IH Hs).
Qed.

Lemma split_app (sep : ascii) (s t : string) :
  JS.includes sep s = false ->
  Reader.split sep (s ++ String sep t) = s :: Reader.split sep t.
Proof.
  induction s as [|a s IH]; intros H.
  - simpl. now rewrite Ascii.eqb_refl.
  - simpl in H. apply orb_false_iff in H as [Ha Hs].
    rewrite append_cons. simpl. now rewrite Ha, (IH Hs).
Qed.

(** Splitting what [join] produced gives the parts back, when no part
    holds the separator. *)
Lemma split_join (sep : ascii) (parts : list string) :
  parts <> [] ->
  Forall (fun p => JS.includes sep p = false) parts ->
  Reader.split sep (JS.join (String sep EmptyString) parts) = parts.
Proof.
  intros Hne Hall. induction Hall as [|p parts Hp Hall IH]; [congruence|].
  unfold JS.join in *. simpl. destruct parts as [|q parts].
  - now apply split_without.
  - change (String sep EmptyString ++ String.concat (String sep EmptyString) (q :: parts))
      with (String sep (String.concat (String sep EmptyString) (q :: parts))).
    rewrite (split_app _ _ _ Hp). f_equal. apply IH. discriminate.
Qed.

Lemma split_length (sep : ascii) (s : string) :
  length (Reader.split sep s) = S (count_char sep s).
Proof.
  induction s as [|a s IH]; simpl; [reflexivity|].
  destruct (Ascii.eqb a sep); simpl; [now rewrite IH|].
  destruct (Reader.split sep s); simpl in *; lia.
Qed.

Lemma count_char_app (c : ascii) (s t : string) :
  count_char c (s ++ t) = (count_char c s + count_char c t)%nat.
Proof.
  induction s as [|a s IH]; [reflexivity|].
  rewrite append_cons. simpl. rewrite IH. lia.
Qed.

Lemma count_char_zero (c : ascii) (s : string) :
  JS.includes c s = false -> count_char c s = 0%nat.
Proof.
  induction s as [|a s IH]; simpl; [reflexivity|].
  intros H. apply orb_false_iff in H as [-> Hs]. now rewrite IH.
Qed.

Lemma pipe_not_numeric : ~ In "|"%char number_chars.
Proof. vm_compute. intuition discriminate. Qed.

Lemma line_feed_not_numeric : ~ In line_feed number_chars.
Proof. vm_compute. intuition discriminate. Qed.

Lemma pf_safe_number (x : float) : pf_safe (JS.String_of_number x).
Proof.
  split; apply number_has_no;
    [apply pipe_not_numeric | apply line_feed_not_numeric].
Qed.

Lemma pf_safe_integer (z : Z) : pf_safe (JS.String_of_Z z).
Proof.
  split; apply integer_has_no;
    [apply pipe_not_numeric | apply line_feed_not_numeric].
Qed.

Lemma pf_safe_name (s : string) :
  pf_safe s -> pf_safe (JS.toUpperCase (JS.trim s)).
Proof.
  intros [Hp Hl]. split.
  - rewrite includes_toUpperCase by now left. now apply includes_trim.
  - rewrite includes_toUpperCase by now right. now apply includes_trim.
Qed.

Lemma pf_record_fields_safe (emp : pf_row) :
  pf_safe (JS.or_empty (pf_uan_number emp)) ->
  pf_safe (pf_employee_name emp) ->
  Forall pf_safe (pf_record_fields emp).
Proof.
  intros Huan Hname. unfold pf_record_fields.
  apply List.Forall_cons; [exact Huan|].
  apply List.Forall_cons; [exact (pf_safe_name _ Hname)|].
  repeat (apply List.Forall_cons; [apply pf_safe_number|]).
  apply List.Forall_nil.
Qed.

Lemma pf_header_fields_safe (org : organization) (month year : Z)
    (rows : list pf_row) :
  pf_safe (JS.or_empty (org_pf_code org)) ->
  Forall pf_safe (pf_header_fields org month year rows).
Proof.
  intros Hcode. unfold pf_header_fields.
  apply List.Forall_cons; [exact Hcode|].
  apply List.Forall_cons.
  { split; (apply includes_padStart; [discriminate | apply pf_safe_integer]). }
  repeat (apply List.Forall_cons; [apply pf_safe_integer|]).
  repeat (apply List.Forall_cons; [apply pf_safe_number|]).
  apply List.Forall_nil.
Qed.

Lemma pf_line_reads_back (fields : list string) :
  fields <> [] -> Forall pf_safe fields ->
  Reader.split "|" (JS.join "|" fields) = fields
  /\ JS.includes line_feed (JS.join "|" fields) = false.
Proof.
  intros Hne Hall. split.
  - apply (split_join "|" fields Hne).
    revert Hall. apply List.Forall_impl. now intros f [Hp _].
  - apply includes_join; [reflexivity|].
    revert Hall. apply List.Forall_impl. now intros f [_ Hl].
Qed.

(** The PF file is not escaped, and reads back when it need not be: if
    the organization's PF code and every employee's UAN and name hold
    neither a pipe nor a line feed, splitting the text on line feeds and
    each line on pipes gives the seven header fields followed by the
    eight fields of each employee, in order. *)
Theorem pf_file_splits_back (org : organization) (month year : Z)
    (rows : list pf_row) :
  pf_safe (JS.or_empty (org_pf_code org)) ->
  (forall emp, In emp rows ->
     pf_safe (JS.or_empty (pf_uan_number emp))
     /\ pf_safe (pf_employee_name emp)) ->
  List.map (Reader.split "|")
    (Reader.split line_feed (pf_text org month year rows))
  = pf_header_fields org month year rows :: List.map pf_record_fields rows
  /\ length (pf_header_fields org month year rows) = 7%nat
  /\ Forall (fun fields => length fields = 8%nat)
       (List.map pf_record_fields rows).
Proof.
  intros Hcode Hrows.
  assert (Hheader := pf_line_reads_back (pf_header_fields org month year rows)
                       ltac:(discriminate) (pf_header_fields_safe _ _ _ _ Hcode)).
  assert (Hrecords : forall emp, In emp rows ->
            Reader.split "|" (pf_record emp) = pf_record_fields emp
            /\ JS.includes line_feed (pf_record emp) = false).
  { intros emp Hemp. destruct (Hrows emp Hemp) as [Huan Hname].
    apply pf_line_reads_back; [discriminate|].
    now apply pf_record_fields_safe. }
  split; [|split; [reflexivity|]].
  - unfold pf_text.
    change newline with (String line_feed EmptyString).
    rewrite split_join.
    + simpl. f_equal; [apply Hheader|].
      rewrite map_map. apply map_ext_in. intros emp Hemp.
      apply (Hrecords emp Hemp).
    + discriminate.
    + constructor; [apply Hheader|].
      apply List.Forall_forall. intros line Hline.
      apply in_map_iff in Hline as [emp [<- Hemp]].
      apply (Hrecords emp Hemp).
  - apply List.Forall_forall. intros fields Hf.
    apply in_map_iff in Hf as [emp [<- _]]. reflexivity.
Qed.

Lemma pf_file_splits_back_witness :
  List.map (Reader.split "|")
    (Reader.split line_feed
       (pf_text Fixture.org_acme 3 2025
          (select_pf_employees "r1" "t1" Fixture.acme)))
  = [ ["MH123"; "03"; "2025"; "2"; "4201"; "3500"; "2"];
      [""; "DOE, JANE"; "21000"; "15000"; "15000"; "1801"; "1501"; "1"];
      ["UAN1"; "JOHN DOE"; "20000"; "15000"; "15000"; "2400"; "2000"; "1"] ].
Proof.
  destruct (pf_file_splits_back Fixture.org_acme 3 2025
              (select_pf_employees "r1" "t1" Fixture.acme)) as [Hsplit _].
  - vm_compute. split; reflexivity.
  - intros emp Hemp. vm_compute in Hemp.
    destruct Hemp as [<-|[<-|[]]]; vm_compute; repeat split; reflexivity.
  - rewrite Hsplit. vm_compute. reflexivity.
Defined.

(** A record line has seven pipes from the format plus those of the UAN
    and of the upper-cased name: a pipe in either adds a field for the
    reader, since the builder does not escape. *)
Theorem pf_record_pipe_count (emp : pf_row) :
  length (Reader.split "|" (pf_record emp))
  = (8 + count_char "|" (JS.or_empty (pf_uan_number emp))
       + count_char "|" (JS.toUpperCase (JS.trim (pf_employee_name emp))))%nat.
Proof.
  rewrite split_length. unfold pf_record, pf_record_fields, JS.join. simpl.
  rewrite !count_char_app. simpl.
  rewrite !(count_char_zero _ _ (proj1 (pf_safe_number _))). lia.
Qed.

(** ** Reading the ESI file back *)

Lemma push_text_new_field (f : string) (r : Reader.csv) :
  push_text f (Reader.new_field r) = cons_field f r.
Proof.
  induction f as [|a f IH]; simpl.
  - now destruct r.
  - rewrite IH. now destruct r.
Qed.

Lemma push_text_new_record (f : string) (r : Reader.csv) :
  push_text f (Reader.new_record r) = [f] :: r.
Proof.
  induction f as [|a f IH]; simpl; [reflexivity|]. now rewrite IH.
Qed.

Lemma push_text_end (f : string) : push_text f [[EmptyString]] = [[f]].
Proof.
  induction f as [|a f IH]; simpl; [reflexivity|]. now rewrite IH.
Qed.

Lemma parse_field_end (tail : string) :
  field_end tail ->
  Reader.parse Reader.FieldStart tail = Reader.parse Reader.QuoteSeen tail
  /\ Reader.parse Reader.Unquoted tail = Reader.parse Reader.QuoteSeen tail.
Proof.
  intros [->|[[t ->]|[t ->]]]; split; reflexivity.
Qed.

Lemma parse_quoted (f tail : string) :
  Reader.parse Reader.Quoted (double_quotes f ++ String dquote tail)
  = push_text f (Reader.parse Reader.QuoteSeen tail).
Proof.
  induction f as [|a f IH].
  - simpl. reflexivity.
  - simpl double_quotes. destruct (Ascii.eqb a dquote) eqn:Ha.
    + apply Ascii.eqb_eq in Ha. subst a.
      rewrite !append_cons. simpl. now rewrite IH.
    + rewrite append_cons. simpl. now rewrite Ha, IH.
Qed.

Lemma parse_unquoted (f tail : string) :
  JS.includes comma f = false ->
  JS.includes line_feed f = false ->
  field_end tail ->
  Reader.parse Reader.Unquoted (f ++ tail)
  = push_text f (Reader.parse Reader.QuoteSeen tail).
Proof.
  intros Hc Hl Htail. induction f as [|a f IH].
  - simpl. apply (parse_field_end _ Htail).
  - simpl in Hc, Hl.
    apply orb_false_iff in Hc as [Hca Hc].
    apply orb_false_iff in Hl as [Hla Hl].
    rewrite append_cons. simpl. now rewrite Hca, Hla, (IH Hc Hl).
Qed.

(** One escaped field, followed by the end of a field, is read as the
    field's text. *)
Lemma parse_escaped_field (f tail : string) :
  field_end tail ->
  Reader.parse Reader.FieldStart (escapeCSV f ++ tail)
  = push_text f (Reader.parse Reader.QuoteSeen tail).
Proof.
  intros Htail. unfold escapeCSV.
  destruct (JS.includes comma f || JS.includes dquote f || JS.includes line_feed f)
    eqn:Hq.
  - rewrite append_cons. simpl.
    rewrite string_app_assoc, append_cons. apply parse_quoted.
  - apply orb_false_iff in Hq as [Hq Hl].
    apply orb_false_iff in Hq as [Hc Hd].
    destruct f as [|a f].
    + simpl. apply (parse_field_end _ Htail).
    + simpl in Hc, Hd, Hl.
      apply orb_false_iff in Hc as [Hca Hc].
      apply orb_false_iff in Hd as [Hda Hd].
      apply orb_false_iff in Hl as [Hla Hl].
      rewrite append_cons. simpl. rewrite Hca, Hda, Hla.
      now rewrite (parse_unquoted _ _ Hc Hl Htail).
Qed.

Lemma string_app_nil_r (s : string) : s ++ EmptyString = s.
Proof.
  induction s as [|a s IH]; [reflexivity|].
  rewrite append_cons. now rewrite IH.
Qed.

Lemma join_cons_app (sep x y : string) (l : list string) (tail : string) :
  JS.join sep (x :: y :: l) ++ tail = x ++ (sep ++ (JS.join sep (y :: l) ++ tail)).
Proof. rewrite join_cons_cons. now rewrite !string_app_assoc. Qed.

(** One record, ended by the text's end or by a line feed. *)
Lemma parse_record (fields : list string) :
  fields <> [] ->
  Reader.parse Reader.FieldStart (JS.join "," (List.map escapeCSV fields))
  = [fields]
  /\ forall t,
       Reader.parse Reader.FieldStart
         (JS.join "," (List.map escapeCSV fields) ++ String line_feed t)
       = fields :: Reader.parse Reader.FieldStart t.
Proof.
  induction fields as [|f fields IH]; [congruence|]. intros _.
  destruct fields as [|g fields].
  - split.
    + rewrite <- (push_text_end f).
      change (JS.join "," (List.map escapeCSV [f])) with (escapeCSV f).
      rewrite <- (string_app_nil_r (escapeCSV f)).
      apply parse_escaped_field. now left.
    + intros t.
      change (JS.join "," (List.map escapeCSV [f])) with (escapeCSV f).
      rewrite parse_escaped_field by (right; right; eauto).
      change (Reader.parse Reader.QuoteSeen (String line_feed t))
        with (Reader.new_record (Reader.parse Reader.FieldStart t)).
      apply push_text_new_record.
  - destruct IH as [IHend IHline]; [discriminate|].
    assert (Hstep : forall tail,
              Reader.parse Reader.FieldStart
                (JS.join "," (List.map escapeCSV (f :: g :: fields)) ++ tail)
              = cons_field f
                  (Reader.parse Reader.FieldStart
                     (JS.join "," (List.map escapeCSV (g :: fields)) ++ tail))).
    { intros tail.
      change (List.map escapeCSV (f :: g :: fields))
        with (escapeCSV f :: escapeCSV g :: List.map escapeCSV fields).
      rewrite join_cons_app.
      change ("," ++ (JS.join "," (escapeCSV g :: List.map escapeCSV fields) ++ tail))
        with (String comma
                (JS.join "," (escapeCSV g :: List.map escapeCSV fields) ++ tail)).
      rewrite parse_escaped_field by (right; left; eauto).
      change (Reader.parse Reader.QuoteSeen
                (String comma
                   (JS.join "," (escapeCSV g :: List.map escapeCSV fields) ++ tail)))
        with (Reader.new_field
                (Reader.parse Reader.FieldStart
                   (JS.join "," (escapeCSV g :: List.map escapeCSV fields) ++ tail))).
      apply push_text_new_field. }
    split.
    + rewrite <- (string_app_nil_r
                    (JS.join "," (List.map escapeCSV (f :: g :: fields)))).
      rewrite Hstep, string_app_nil_r. now rewrite IHend.
    + intros t. rewrite Hstep, IHline. reflexivity.
Qed.

(** A text of escaped records, one per line, is read back as those
    records. *)
Lemma read_csv_records (records : list (list string)) :
  records <> [] ->
  Forall (fun fields => fields <> []) records ->
  Reader.read_csv
    (JS.join newline
       (List.map (fun fields => JS.join "," (List.map escapeCSV fields)) records))
  = records.
Proof.
  unfold Reader.read_csv. intros Hne Hall.
  induction Hall as [|fields records Hf Hall IH]; [congruence|].
  destruct records as [|fields' records].
  - apply (parse_record fields Hf).
  - cbn [List.map]. rewrite join_cons_cons.
    change (newline ++ ?s) with (String line_feed s).
    rewrite (proj2 (parse_record fields Hf)).
    f_equal. apply IH. discriminate.
Qed.

(** The records a reader gets from the ESI text. *)
Lemma esi_text_records (daysInMonth : Z) (rows : list esi_row) :
  Reader.read_csv (esi_text daysInMonth rows)
  = esi_header_fields :: List.map (esi_record_fields daysInMonth) rows.
Proof.
  unfold esi_text.
  change esi_header
    with (JS.join "," (List.map escapeCSV esi_header_fields)).
  unfold esi_record.
  rewrite <- (map_map (esi_record_fields daysInMonth)
                (fun fields => JS.join "," (List.map escapeCSV fields))).
  change (JS.join "," (List.map escapeCSV esi_header_fields)
          :: List.map (fun fields => JS.join "," (List.map escapeCSV fields))
               (List.map (esi_record_fields daysInMonth) rows))
    with (List.map (fun fields => JS.join "," (List.map escapeCSV fields))
            (esi_header_fields :: List.map (esi_record_fields daysInMonth) rows)).
  apply read_csv_records; [discriminate|].
  constructor; [discriminate|].
  apply List.Forall_forall. intros fields Hf.
  apply in_map_iff in Hf as [emp [<- _]]. discriminate.
Qed.

Lemma days_worked_fields (days : Z) (selected : list joined) :
  List.map (fun record => nth 2 record "")
    (List.map (esi_record_fields days) (List.map (esi_project days) selected))
  = repeat (JS.String_of_Z days) (length selected).
Proof.
  induction selected as [|j selected IH]; [reflexivity|].
  cbn [List.map length repeat]. rewrite IH. f_equal.
  unfold esi_record_fields, daysWorked, esi_project.
  cbn [nth esi_days_worked]. now destruct (days =? 0).
Qed.

(** Claim C8. For a calendar month (1 to 12) of a year that a JavaScript
    date can hold (-271820 to 275759) other than 0, when the ESI return
    is produced (run found, organization row present, some processed
    employee within the ceiling), the file read as CSV has the header and
    one record per selected employee, and the Days Worked field, the
    third of every such record, is the number of calendar days of the
    requested month (28 to 31, February having 29 in leap years and 28
    otherwise), whoever the employee is: no attendance enters the row. *)
Theorem esi_days_are_calendar_days (tenantId : string) (month year : Z)
    (w : world) (payrollRun : payroll_run) (runs : list payroll_run)
    (org : organization) (orgs : list organization) (j0 : joined) :
  1 <= month <= 12 ->
  - 271820 <= year <= 275759 ->
  year <> 0 ->
  select_completed_run tenantId month year (store w) = payrollRun :: runs ->
  select_organization tenantId (store w) = org :: orgs ->
  In j0 (processed_employees (pr_id payrollRun) tenantId (store w)) ->
  pre_gross_pay_cents (j_pre j0) <= 2100000 ->
  exists w' text,
    generateESIReturn tenantId month year w = (Ok text, w')
    /\ hd [] (Reader.read_csv text) = esi_header_fields
    /\ List.map (fun record => nth 2 record "") (tl (Reader.read_csv text))
       = repeat (JS.String_of_Z (calendar_days year month))
           (length
              (List.filter esi_eligible
                 (processed_employees (pr_id payrollRun) tenantId (store w))))
    /\ 28 <= calendar_days year month <= 31
    /\ (month = 2 ->
        calendar_days year month = if gregorian_leap year then 29 else 28).
Proof.
  intros Hm Hrange Hy Hrun Horg Hj0 Hgross.
  eexists. eexists.
  split; [exact (generateESIReturn_succeeds _ _ _ _ _ _ _ _ _ Hrun Horg Hj0
                   Hgross)|].
  rewrite (last_day_is_calendar_days _ _ Hm Hy), esi_text_records.
  split; [reflexivity|].
  split; [|split; [now apply calendar_days_range | now intros ->]].
  cbn [tl]. unfold select_esi_employees, esi_selected.
  rewrite days_worked_fields. now rewrite order_by_length.
Qed.

(** March 2025 has 31 days, whatever the employees worked. *)
Lemma esi_days_are_calendar_days_witness :
  (exists w',
     generateESIReturn "t1" 3 2025 (Fixture.fresh Fixture.acme) =
       (Ok (JS.join newline
              [ "IP Number,IP Name,Days Worked,Wages";
                "EMP1,John Doe,31,20000" ]),
        w'))
  /\ calendar_days 2025 3 = 31.
Proof.
  destruct (esi_days_are_calendar_days "t1" 3 2025 (Fixture.fresh Fixture.acme)
              Fixture.march_run [] Fixture.org_acme []
              (mkPre "r1" "e1" "processed" 2000000
                 {[ "pf_cents" := 240000; "tds_cents" := 12345 ]},
               mkEmployee "e1" "u1" "t1" (Some "EMP1") (Some "UAN1") None
                 (Some "PAN1"),
               mkProfile "u1" (Some "John") (Some "Doe")))
    as (w' & text & Hok & _).
  - lia.
  - lia.
  - lia.
  - reflexivity.
  - reflexivity.
  - vm_compute. now left.
  - simpl. lia.
  - split; [|reflexivity].
    assert (Hrun : generateESIReturn "t1" 3 2025 (Fixture.fresh Fixture.acme)
                   = (Ok (JS.join newline
                            [ "IP Number,IP Name,Days Worked,Wages";
                              "EMP1,John Doe,31,20000" ]),
                      mkWorld Fixture.acme
                        [Query SelectCompletedRun; Query SelectEsiCode;
                         Query SelectEsiEmployees]))
      by (vm_compute; reflexivity).
    rewrite Hrun in Hok. injection Hok as _ <-.
    eexists. exact Hrun.
Defined.

(** The ESI file always reads back: whatever the IP numbers and names
    hold (commas, double quotes, line feeds), an RFC 4180 style reader
    gets the header record and then the four fields of each employee, in
    order. *)
Theorem esi_file_reads_back (daysInMonth : Z) (rows : list esi_row) :
  Reader.read_csv (esi_text daysInMonth rows)
  = esi_header_fields :: List.map (esi_record_fields daysInMonth) rows.
Proof.
  unfold esi_text.
  change esi_header
    with (JS.join "," (List.map escapeCSV esi_header_fields)).
  unfold esi_record.
  rewrite <- (map_map (esi_record_fields daysInMonth)
                (fun fields => JS.join "," (List.map escapeCSV fields))).
  change (JS.join "," (List.map escapeCSV esi_header_fields)
          :: List.map (fun fields => JS.join "," (List.map escapeCSV fields))
               (List.map (esi_record_fields daysInMonth) rows))
    with (List.map (fun fields => JS.join "," (List.map escapeCSV fields))
            (esi_header_fields :: List.map (esi_record_fields daysInMonth) rows)).
  apply read_csv_records; [discriminate|].
  constructor; [discriminate|].
  apply List.Forall_forall. intros fields Hf.
  apply in_map_iff in Hf as [emp [<- _]]. discriminate.
Qed.

(** The Days Worked and Wages columns are never quoted: the texts of
    numbers hold no comma, double quote or line feed. *)
Theorem esi_numbers_are_not_quoted (daysInMonth : Z) (emp : esi_row) :
  esi_record daysInMonth emp
  = JS.join ","
      [ escapeCSV (ipNumber emp);
        escapeCSV (JS.trim (esi_employee_name emp));
        JS.String_of_Z (daysWorked daysInMonth emp);
        JS.String_of_number (rupees (esi_gross_pay_cents emp)) ].
Proof.
  assert (Hplain : forall s,
            (forall c, In c (list_ascii_of_string s) -> In c number_chars) ->
            escapeCSV s = s).
  { intros s Hs. unfold escapeCSV.
    assert (Hno : forall c, ~ In c number_chars -> JS.includes c s = false).
    { intros c Hc. apply includes_false_iff. intros H. apply Hc, Hs, H. }
    rewrite !Hno; [reflexivity | | |]; vm_compute; intuition discriminate. }
  unfold esi_record, esi_record_fields. cbn [List.map].
  rewrite (Hplain (JS.String_of_Z _)) by (intros c; apply chars_of_String_of_Z).
  rewrite (Hplain (JS.String_of_number _))
    by (intros c; apply chars_of_String_of_number).
  reflexivity.
Qed.

(** ** The wage ceiling *)

(** An employee at or above 1,500,000 cents of gross pay shows 15000 in
    both wage-base fields of the PF record; below it both wage bases are
    the gross pay itself. *)
Theorem pf_wage_bases_are_capped (j : joined) :
  (1500000 <= pre_gross_pay_cents (j_pre j) ->
   JS.String_of_number (rupees (pf_epf_wages_cents (pf_project j))) = "15000"
   /\ JS.String_of_number (rupees (pf_eps_wages_cents (pf_project j))) = "15000")
  /\ (pre_gross_pay_cents (j_pre j) <= 1500000 ->
      pf_epf_wages_cents (pf_project j) = pre_gross_pay_cents (j_pre j)
      /\ pf_eps_wages_cents (pf_project j) = pre_gross_pay_cents (j_pre j)).
Proof.
  unfold pf_project. simpl. split; intros H.
  - rewrite Z.min_r by assumption. split; vm_compute; reflexivity.
  - rewrite Z.min_l by assumption. split; reflexivity.
Qed.

Lemma pf_wage_bases_are_capped_witness :
  JS.String_of_number
    (rupees (pf_epf_wages_cents
               (pf_project
                  (mkPre "r1" "e1" "processed" 2000000 {[ "pf_cents" := 240000 ]},
                   mkEmployee "e1" "u1" "t1" (Some "EMP1") (Some "UAN1") None None,
                   mkProfile "u1" (Some "John") (Some "Doe")))))
  = "15000".
Proof.
  apply (pf_wage_bases_are_capped
           (mkPre "r1" "e1" "processed" 2000000 {[ "pf_cents" := 240000 ]},
            mkEmployee "e1" "u1" "t1" (Some "EMP1") (Some "UAN1") None None,
            mkProfile "u1" (Some "John") (Some "Doe"))).
  simpl. lia.
Defined.

(** ** The sections of the TDS summary *)

Lemma tds_add_sections (s : tds_summary) (emp : tds_row) :
  dom (s_by_section (tds_add s emp)) = dom (s_by_section s).
Proof. unfold tds_add. simpl. now rewrite !dom_alter_L. Qed.

Lemma tds_fold_sections (rows : list tds_row) (s : tds_summary) :
  dom (s_by_section (fold_left tds_add rows s)) = dom (s_by_section s).
Proof.
  revert s. induction rows as [|emp rows IH]; intros s; simpl; [reflexivity|].
  now rewrite IH, tds_add_sections.
Qed.

(** A returned TDS summary has exactly one section, keyed 192B, whatever
    the rows: the loop never adds a key to [by_section]. *)
Theorem tds_summary_has_one_section (tenantId : string) (month year : Z)
    (w w' : world) (s : tds_summary) :
  generateTDSSummary tenantId month year w = (Ok s, w') ->
  dom (s_by_section s) = {[ "192B" ]}
  /\ forall key sec, s_by_section s !! key = Some sec ->
       key = "192B" /\ sec_section sec = "192B"
       /\ sec_description sec = "Tax Deducted at Source on Salary".
Proof.
  intros Hok.
  destruct (generateTDSSummary_ok _ _ _ _ _ _ Hok)
    as (r & rs & org & orgs & _ & _ & ->).
  unfold tds_build.
  assert (Hdom : dom (s_by_section
                        (fold_left tds_add
                           (select_tds_employees (pr_id r) tenantId (store w))
                           (tds_initial org month year r
                              (select_tds_employees (pr_id r) tenantId (store w)))))
                 = {[ "192B" ]}).
  { rewrite tds_fold_sections. simpl. apply dom_singleton_L. }
  split; [exact Hdom|].
  intros key sec Hkey.
  assert (Hin : key ∈ dom (s_by_section
                        (fold_left tds_add
                           (select_tds_employees (pr_id r) tenantId (store w))
                           (tds_initial org month year r
                              (select_tds_employees (pr_id r) tenantId (store w))))))
    by (apply elem_of_dom; eauto).
  rewrite Hdom in Hin. apply elem_of_singleton in Hin. subst key.
  split; [reflexivity|].
  revert Hkey.
  generalize (select_tds_employees (pr_id r) tenantId (store w)) at 1.
  intros rows.
  assert (Hinv : forall rows s0 sec0,
            s_by_section s0 !! "192B" = Some sec0 ->
            exists sec1,
              s_by_section (fold_left tds_add rows s0) !! "192B" = Some sec1
              /\ sec_section sec1 = sec_section sec0
              /\ sec_description sec1 = sec_description sec0).
  { clear. induction rows as [|emp rows IH]; intros s0 sec0 H0; simpl.
    - eauto.
    - destruct (IH (tds_add s0 emp)
                  (push_employee (employeeRecord emp)
                     (add_count (add_amount (rupees (tds_cents emp)) sec0))))
        as (sec1 & H1 & Hn & Hd).
      + unfold tds_add. simpl. rewrite !lookup_alter_eq, H0. reflexivity.
      + exists sec1. auto. }
  destruct (Hinv rows
              (tds_initial org month year r
                 (select_tds_employees (pr_id r) tenantId (store w)))
              _ (lookup_singleton_eq _ _))
    as (sec1 & H1 & Hn & Hd).
  intros Hkey. rewrite H1 in Hkey. injection Hkey as <-. auto.
Qed.

Lemma tds_summary_has_one_section_witness :
  exists s w',
    generateTDSSummary "t1" 3 2025 (Fixture.fresh Fixture.acme) = (Ok s, w')
    /\ dom (s_by_section s) = {[ "192B" ]}.
Proof.
  destruct (generateTDSSummary "t1" 3 2025 (Fixture.fresh Fixture.acme))
    as [[s|e] w'] eqn:Hok; [|vm_compute in Hok; discriminate Hok].
  exists s, w'. split; [reflexivity|].
  apply (tds_summary_has_one_section _ _ _ _ _ _ Hok).
Defined.

(** ** Tenant isolation *)

Lemma filter_filter_implied {A} (p q : A -> bool) (l : list A) :
  (forall x, p x = true -> q x = true) ->
  List.filter p (List.filter q l) = List.filter p l.
Proof.
  intros Himp. induction l as [|x l IH]; simpl; [reflexivity|].
  destruct (q x) eqn:Hq; simpl.
  - now rewrite IH.
  - destruct (p x) eqn:Hp; [|assumption].
    apply Himp in Hp. congruence.
Qed.

Lemma join_employees_unfold (d : database) :
  join_employees d
  = flat_map (fun pre => flat_map (join_one d pre) (employees d))
      (payroll_run_employees d).
Proof. reflexivity. Qed.

Lemma join_one_employee (d : database) (pre : payroll_run_employee)
    (e : employee) (j : joined) :
  In j (join_one d pre e) -> j_e j = e.
Proof.
  unfold join_one. destruct (String.eqb (e_id e) (pre_employee_id pre));
    [|contradiction].
  intros H. apply in_flat_map in H as (p & _ & Hp).
  destruct (String.eqb (p_id p) (e_user_id e)); [|contradiction].
  destruct Hp as [<-|[]]. reflexivity.
Qed.

Lemma filter_flat_map {A B} (p : B -> bool) (f : A -> list B) (l : list A) :
  List.filter p (flat_map f l) = flat_map (fun x => List.filter p (f x)) l.
Proof.
  induction l as [|x l IH]; simpl; [reflexivity|].
  now rewrite List.filter_app, IH.
Qed.

Lemma flat_map_filter_nil {A B} (q : A -> bool) (f : A -> list B) (l : list A) :
  (forall x, q x = false -> f x = []) ->
  flat_map f (List.filter q l) = flat_map f l.
Proof.
  intros Hnil. induction l as [|x l IH]; simpl; [reflexivity|].
  destruct (q x) eqn:Hq; simpl; rewrite IH; [reflexivity|].
  now rewrite (Hnil x Hq).
Qed.

(** The processed employees of a tenant are found among the tenant's own
    employee rows. *)
Lemma processed_employees_of_tenant (runId tenantId : string) (d : database) :
  processed_employees runId tenantId d
  = flat_map
      (fun pre =>
         flat_map
           (fun e => List.filter (is_processed runId tenantId) (join_one d pre e))
           (List.filter (fun e => String.eqb (e_tenant_id e) tenantId)
              (employees d)))
      (payroll_run_employees d).
Proof.
  unfold processed_employees. rewrite join_employees_unfold, filter_flat_map.
  apply flat_map_ext. intros pre.
  rewrite filter_flat_map.
  symmetry. apply flat_map_filter_nil.
  intros e He. apply filter_nil_iff. intros j Hj.
  apply join_one_employee in Hj. unfold is_processed.
  rewrite Hj, He. apply andb_false_r.
Qed.

Lemma flat_map_all_nil {A B} (f : A -> list B) (l : list A) :
  (forall x, In x l -> f x = []) -> flat_map f l = [].
Proof.
  induction l as [|x l IH]; intros H; [reflexivity|].
  simpl. rewrite (H x) by now left.
  apply IH. intros y Hy. apply H. now right.
Qed.

Lemma flat_map_members {A B} (f g : A -> list B) (l : list A) :
  (forall a, In a l -> f a = g a) -> flat_map f l = flat_map g l.
Proof.
  induction l as [|a l IH]; intros H; [reflexivity|].
  simpl. rewrite (H a) by now left.
  rewrite IH; [reflexivity|]. intros b Hb. apply H. now right.
Qed.

Lemma existsb_false_all {A} (q : A -> bool) (l : list A) (x : A) :
  existsb q l = false -> In x l -> q x = false.
Proof.
  intros Hnone Hin. destruct (q x) eqn:Hq; [|reflexivity].
  assert (existsb q l = true) by (apply existsb_exists; eauto). congruence.
Qed.

(** For an employee of the tenant only the tenant's profiles are joined. *)
Lemma join_one_tenant_profiles (tenantId : string) (d : database)
    (pre : payroll_run_employee) (e : employee) :
  In e (tenant_employees tenantId d) ->
  join_one d pre e = join_with (tenant_profiles tenantId d) pre e.
Proof.
  intros He. unfold join_one, join_with, tenant_profiles.
  destruct (String.eqb (e_id e) (pre_employee_id pre)); [|reflexivity].
  symmetry. apply flat_map_filter_nil.
  intros p Hp. unfold profile_of_tenant in Hp.
  apply (existsb_false_all _ _ e Hp) in He. now rewrite He.
Qed.

(** The processed employees of a tenant are found among the tenant's own
    employees, run results and profiles. *)
Lemma processed_employees_tenant_rows (runId tenantId : string) (d : database) :
  processed_employees runId tenantId d
  = flat_map
      (fun pre =>
         flat_map
           (fun e =>
              List.filter (is_processed runId tenantId)
                (join_with (tenant_profiles tenantId d) pre e))
           (tenant_employees tenantId d))
      (tenant_results tenantId d).
Proof.
  rewrite processed_employees_of_tenant.
  fold (tenant_employees tenantId d).
  transitivity
    (flat_map
       (fun pre =>
          flat_map
            (fun e =>
               List.filter (is_processed runId tenantId)
                 (join_with (tenant_profiles tenantId d) pre e))
            (tenant_employees tenantId d))
       (payroll_run_employees d)).
  - apply flat_map_ext. intros pre.
    apply flat_map_members. intros e He.
    now rewrite (join_one_tenant_profiles tenantId d pre e He).
  - unfold tenant_results. symmetry. apply flat_map_filter_nil.
    intros pre Hpre. apply flat_map_all_nil. intros e He.
    unfold result_of_tenant in Hpre.
    apply (existsb_false_all _ _ e Hpre) in He.
    unfold join_with. now rewrite He.
Qed.

Lemma processed_employees_same (runId tenantId : string) (d1 d2 : database) :
  same_for_tenant tenantId d1 d2 ->
  processed_employees runId tenantId d1 = processed_employees runId tenantId d2.
Proof.
  intros (_ & _ & Hemp & Hpre & Hprof & _).
  now rewrite !processed_employees_tenant_rows, Hemp, Hpre, Hprof.
Qed.

Lemma select_completed_run_same (tenantId : string) (month year : Z)
    (d1 d2 : database) :
  same_for_tenant tenantId d1 d2 ->
  select_completed_run tenantId month year d1
  = select_completed_run tenantId month year d2.
Proof.
  intros (Hruns & _). unfold select_completed_run.
  rewrite <- (filter_filter_implied (is_completed_run_for tenantId month year)
                (fun r => String.eqb (pr_tenant_id r) tenantId) (payroll_runs d1)).
  - rewrite <- (filter_filter_implied (is_completed_run_for tenantId month year)
                  (fun r => String.eqb (pr_tenant_id r) tenantId) (payroll_runs d2)).
    + now rewrite Hruns.
    + unfold is_completed_run_for. intros r Hr.
      now rewrite !andb_true_iff in Hr.
  - unfold is_completed_run_for. intros r Hr.
    now rewrite !andb_true_iff in Hr.
Qed.

(** What a builder returns for a tenant depends only on the tenant's own
    rows: its runs, its organization row, its employees and their run
    results and profiles. Two stores that agree on those and differ in
    the rows of other tenants, in any table, give the same PF report, ESI
    return and TDS summary, or the same error. (The entries of the run
    results are taken to fit [bigint] in both stores, so that no cast
    can fail on a row of another tenant either.) *)
Theorem builders_read_only_the_tenant (tenantId : string) (month year : Z)
    (d1 d2 : database) (tr : list event) :
  same_for_tenant tenantId d1 d2 ->
  bigint_metadata "pf_cents" d1 /\ bigint_metadata "tds_cents" d1 ->
  bigint_metadata "pf_cents" d2 /\ bigint_metadata "tds_cents" d2 ->
  fst (generatePFECR tenantId month year (mkWorld d1 tr))
  = fst (generatePFECR tenantId month year (mkWorld d2 tr))
  /\ fst (generateESIReturn tenantId month year (mkWorld d1 tr))
     = fst (generateESIReturn tenantId month year (mkWorld d2 tr))
  /\ fst (generateTDSSummary tenantId month year (mkWorld d1 tr))
     = fst (generateTDSSummary tenantId month year (mkWorld d2 tr)).
Proof.
  intros Hsame [Hpf1 Htds1] [Hpf2 Htds2].
  assert (Hrun := select_completed_run_same tenantId month year _ _ Hsame).
  assert (Hproc := fun runId => processed_employees_same runId tenantId _ _ Hsame).
  destruct Hsame as (Hruns & Horgs & _ & _ & _ & Hcoll & Htie).
  assert (Hall : select_all_runs tenantId d1 = select_all_runs tenantId d2)
    by (unfold select_all_runs, group_before; now rewrite Hruns, Htie).
  assert (Horg : select_organization tenantId d1 = select_organization tenantId d2)
    by exact Horgs.
  assert (Hpf : forall runId, select_pf_employees runId tenantId d1
                              = select_pf_employees runId tenantId d2).
  { intros runId. unfold select_pf_employees, by_employee_id.
    now rewrite Hproc, Hcoll. }
  assert (Hesi : forall runId days, select_esi_employees runId tenantId days d1
                                    = select_esi_employees runId tenantId days d2).
  { intros runId days. unfold select_esi_employees, esi_selected, by_employee_id.
    now rewrite Hproc, Hcoll. }
  assert (Htds : forall runId, select_tds_employees runId tenantId d1
                               = select_tds_employees runId tenantId d2).
  { intros runId. unfold select_tds_employees, by_employee_id.
    now rewrite Hproc, Hcoll. }
  rewrite !generatePFECR_run, !generateESIReturn_run, !generateTDSSummary_run.
  simpl. unfold select_esi_code, pf_cast_failure, tds_cast_failure.
  rewrite Hrun, Hall, Horg.
  destruct (select_completed_run tenantId month year d2) as [|r rs];
    [repeat split|].
  rewrite !bigint_metadata_no_failure by assumption.
  rewrite Hpf, Hesi, Htds.
  destruct (select_organization tenantId d2) as [|org orgs]; [repeat split|].
  simpl. repeat split.
  - destruct (negb (JS.truthy (org_pf_code org))); [reflexivity|].
    now destruct (select_pf_employees (pr_id r) tenantId d2).
  - now destruct (select_esi_employees (pr_id r) tenantId _ d2).
Qed.

(** The fixture's report is the same with a second tenant in the store,
    which has rows of its own in all five tables. *)
Lemma builders_read_only_the_tenant_witness :
  fst (generatePFECR "t1" 3 2025 (mkWorld Fixture.acme []))
  = fst (generatePFECR "t1" 3 2025 (mkWorld Fixture3.two_tenants [])).
Proof.
  apply (builders_read_only_the_tenant "t1" 3 2025
           Fixture.acme Fixture3.two_tenants []).
  - repeat split.
  - split; repeat constructor.
  - split; repeat constructor.
Defined.


(** ** Financial years *)

Import FinancialYear.

(** The current financial year is the April-to-March year that holds the
    given month: it is labelled [S-(S+1)] for the one start year [S] with
    April of [S] at or before the month and April of [S+1] after it. *)
Theorem current_financial_year_holds_now (year month : Z) :
  0 <= month <= 11 ->
  exists S,
    getCurrentFinancialYear year month
    = JS.String_of_Z S ++ "-" ++ JS.String_of_Z (S + 1)
    /\ 12 * S + 3 <= 12 * year + month < 12 * (S + 1) + 3
    /\ forall S', 12 * S' + 3 <= 12 * year + month < 12 * (S' + 1) + 3 -> S' = S.
Proof.
  intros Hm. unfold getCurrentFinancialYear.
  destruct (3 <=? month) eqn:Hq.
  - apply Z.leb_le in Hq. exists year. split; [reflexivity|].
    split; [lia | intros S' HS'; lia].
  - apply Z.leb_gt in Hq. exists (year - 1). split; [reflexivity|].
    split; [lia | intros S' HS'; lia].
Qed.

Lemma current_financial_year_holds_now_witness :
  getCurrentFinancialYear 2026 2 = "2025-2026"
  /\ getCurrentFinancialYear 2026 3 = "2026-2027".
Proof.
  destruct (current_financial_year_holds_now 2026 2 ltac:(lia)) as (S & H1 & _).
  split; vm_compute; reflexivity.
Defined.

Lemma digits_value_from_uint (d : Decimal.uint) (p : positive) :
  digits_value_from (Zpos p) (NilEmpty.string_of_uint d)
  = Zpos (Pos.of_uint_acc d p).
Proof.
  revert p. induction d; intros p; simpl; try reflexivity.
  all: rewrite <- IHd; f_equal.
  all: try match goal with
           | |- context [nat_of_ascii ?c] =>
               let v := eval vm_compute in (nat_of_ascii c) in
               change (nat_of_ascii c) with v
           end.
  all: lia.
Qed.

Lemma digits_value_uint (d : Decimal.uint) :
  digits_value (NilEmpty.string_of_uint d) = Z.of_N (Pos.of_uint d).
Proof.
  unfold digits_value.
  induction d; simpl; try reflexivity; try exact IHd;
    apply (digits_value_from_uint d).
Qed.

Lemma all_digits_uint (d : Decimal.uint) :
  all_digits (NilEmpty.string_of_uint d) = true.
Proof. induction d; simpl; auto. Qed.

(** Printing a natural number and reading the digits back. *)
Lemma String_of_Z_digits (n : Z) :
  0 <= n ->
  all_digits (JS.String_of_Z n) = true
  /\ digits_value (JS.String_of_Z n) = n
  /\ JS.String_of_Z n <> "".
Proof.
  intros Hn. unfold JS.String_of_Z.
  assert (Hof := DecimalZ.of_to n).
  destruct (Z.to_int n) as [d|d] eqn:Hd.
  - simpl in Hof. unfold NilZero.string_of_int, NilZero.string_of_uint.
    destruct d; try (split; [apply all_digits_uint|];
                     split; [rewrite digits_value_uint; exact Hof|];
                     discriminate).
    split; [reflexivity|]. split; [|discriminate].
    simpl in Hof. subst n. reflexivity.
  - exfalso. destruct n; simpl in Hd; try discriminate. lia.
Qed.


Lemma digit_facts (a : ascii) :
  is_digit a = true ->
  JS.is_space a = false /\ Ascii.eqb a "-" = false /\ Ascii.eqb a "+" = false
  /\ 0 <= Z.of_nat (nat_of_ascii a) - 48 <= 9.
Proof.
  destruct a as [[] [] [] [] [] [] [] []]; vm_compute; intros H;
    try discriminate H; repeat split; congruence.
Qed.

Lemma all_digits_no_hyphen (s : string) :
  all_digits s = true -> JS.includes "-" s = false.
Proof.
  induction s as [|a s IH]; simpl; [reflexivity|].
  intros H. apply andb_true_iff in H as [Ha Hs].
  destruct (digit_facts a Ha) as (_ & -> & _). now apply IH.
Qed.

Lemma digit_prefix_all (s : string) :
  all_digits s = true -> digit_prefix s = s.
Proof.
  induction s as [|a s IH]; simpl; [reflexivity|].
  intros H. apply andb_true_iff in H as [-> Hs]. now rewrite IH.
Qed.

(** [parseInt] reads back what [String] printed for a natural number. *)
Lemma parseInt_String_of_Z (n : Z) :
  0 <= n -> parseInt (JS.String_of_Z n) = Some n.
Proof.
  intros Hn. destruct (String_of_Z_digits n Hn) as (Hall & Hval & Hne).
  unfold parseInt.
  destruct (JS.String_of_Z n) as [|a t] eqn:Hs; [congruence|].
  pose proof Hall as Hall'. simpl in Hall'.
  apply andb_true_iff in Hall' as [Ha Ht].
  destruct (digit_facts a Ha) as (Hsp & Hminus & Hplus & _).
  simpl JS.trimStart. rewrite Hsp, Hminus, Hplus.
  rewrite (digit_prefix_all _ Hall). simpl String.eqb.
  now rewrite Hval.
Qed.

Lemma financial_year_options_lemma (year month : Z) :
  1 <= year ->
  0 <= month <= 11 ->
  exists S,
    0 <= S
    /\ getCurrentFinancialYear year month = label (Some S)
    /\ financialYearOptions year month
       = [label (Some (S - 1)); label (Some S); label (Some (S + 1))].
Proof.
  intros Hy Hm.
  set (S := if 3 <=? month then year else year - 1).
  assert (HS : 0 <= S) by (unfold S; destruct (3 <=? month); lia).
  assert (Hcur : getCurrentFinancialYear year month = label (Some S))
    by reflexivity.
  exists S. split; [assumption|]. split; [assumption|].
  assert (Hhd : hd "" (Reader.split "-" (label (Some S))) = JS.String_of_Z S).
  { destruct (String_of_Z_digits S HS) as (Hall & _ & _).
    change (label (Some S))
      with (JS.String_of_Z S ++ String "-" (JS.String_of_Z (S + 1))).
    now rewrite (split_app "-" _ _ (all_digits_no_hyphen _ Hall)). }
  unfold financialYearOptions.
  rewrite Hcur, Hhd, (parseInt_String_of_Z S HS). reflexivity.
Qed.

(** For a year from 1 on, the form offers three consecutive financial
    years, the one before the current one, the current one and the next,
    so that the current financial year is always the second option. *)
Theorem financial_year_options_around_now (year month : Z) :
  1 <= year ->
  0 <= month <= 11 ->
  exists S,
    0 <= S
    /\ getCurrentFinancialYear year month = label (Some S)
    /\ financialYearOptions year month
       = [label (Some (S - 1)); label (Some S); label (Some (S + 1))]
    /\ nth 1 (financialYearOptions year month) ""
       = getCurrentFinancialYear year month.
Proof.
  intros Hy Hm.
  destruct (financial_year_options_lemma year month Hy Hm)
    as (S & HS & Hcur & Hopts).
  exists S. split; [assumption|]. split; [assumption|].
  split; [assumption|]. rewrite Hopts, Hcur. reflexivity.
Qed.

Lemma financial_year_options_around_now_witness :
  financialYearOptions 2026 10 = ["2025-2026"; "2026-2027"; "2027-2028"].
Proof.
  destruct (financial_year_options_around_now 2026 10 ltac:(lia) ltac:(lia))
    as (S & _ & _ & Hopts & _).
  vm_compute. reflexivity.
Defined.

(** *** normalizeFinancialYear *)

Lemma digits_value_from_bounds (s : string) (acc : Z) :
  all_digits s = true -> 0 <= acc ->
  acc * 10 ^ Z.of_nat (String.length s) <= digits_value_from acc s
    < (acc + 1) * 10 ^ Z.of_nat (String.length s).
Proof.
  revert acc. induction s as [|a s IH]; intros acc Hall Hacc.
  - simpl. lia.
  - simpl in Hall. apply andb_true_iff in Hall as [Ha Hs].
    destruct (digit_facts a Ha) as (_ & _ & _ & Hd).
    cbn [digits_value_from String.length].
    specialize (IH (10 * acc + (Z.of_nat (nat_of_ascii a) - 48)) Hs ltac:(lia)).
    rewrite Nat2Z.inj_succ, Z.pow_succ_r by lia.
    assert (0 < 10 ^ Z.of_nat (String.length s)) by (apply Z.pow_pos_nonneg; lia).
    nia.
Qed.

Lemma digits_value_bounds (s : string) :
  all_digits s = true ->
  0 <= digits_value s < 10 ^ Z.of_nat (String.length s).
Proof.
  intros H. pose proof (digits_value_from_bounds s 0 H ltac:(lia)).
  unfold digits_value. lia.
Qed.

Lemma all_digits_skip_spaces (s : string) :
  all_digits s = true -> skip_spaces s = s.
Proof.
  destruct s as [|a s]; [reflexivity|]. simpl. intros H.
  apply andb_true_iff in H as [Ha _].
  now destruct (digit_facts a Ha) as (-> & _).
Qed.

Lemma fy_match_groups (s g1 g2 : string) :
  fy_match s = Some (g1, g2) ->
  all_digits g1 = true /\ String.length g1 = 4%nat
  /\ all_digits g2 = true
  /\ (String.length g2 = 2%nat \/ String.length g2 = 4%nat).
Proof.
  unfold fy_match.
  destruct s as [|a [|b [|c [|d rest]]]]; try discriminate.
  destruct (is_digit a && is_digit b && is_digit c && is_digit d) eqn:Hd;
    [|discriminate].
  destruct (skip_spaces rest) as [|sep rest1]; [discriminate|].
  destruct (Ascii.eqb sep "-" || Ascii.eqb sep "/"); [|discriminate].
  destruct (all_digits (skip_spaces rest1)
            && ((String.length (skip_spaces rest1) =? 2)%nat
                || (String.length (skip_spaces rest1) =? 4)%nat)) eqn:He;
    [|discriminate].
  intros [= <- <-].
  apply andb_true_iff in He as [He1 He2].
  apply orb_true_iff in He2. rewrite !Nat.eqb_eq in He2.
  rewrite !andb_true_iff in Hd. destruct Hd as [[[Ha Hb] Hc] Hd].
  simpl. rewrite Ha, Hb, Hc, Hd. auto.
Qed.

(** What a matching input is turned into: a start year and an end year
    after it. *)
Lemma normalize_matched (v g1 g2 : string) :
  v <> "" ->
  fy_match (JS.trim v) = Some (g1, g2) ->
  exists S E,
    0 <= S <= 9999
    /\ (S < E <= 10000 /\ (E = 10000 -> S = 9999))
    /\ S = digits_value g1
    /\ normalizeFinancialYear v = JS.String_of_Z S ++ "-" ++ JS.String_of_Z E.
Proof.
  intros Hv Hmatch. unfold normalizeFinancialYear.
  apply String.eqb_neq in Hv. rewrite Hv, Hmatch.
  destruct (fy_match_groups _ _ _ Hmatch) as (H1 & Hl1 & H2 & Hl2).
  pose proof (digits_value_bounds g1 H1) as B1. rewrite Hl1 in B1.
  pose proof (digits_value_bounds g2 H2) as B2.
  change (10 ^ Z.of_nat 4) with 10000 in B1.
  set (S := digits_value g1) in *.
  exists S.
  eexists. split; [lia|]. split; [|split; [reflexivity|reflexivity]].
  destruct Hl2 as [Hl2|Hl2]; rewrite Hl2 in *; simpl (_ =? _)%nat;
    [change (10 ^ Z.of_nat 2) with 100 in B2
    |change (10 ^ Z.of_nat 4) with 10000 in B2].
  - assert (0 <= S / 100 * 100 <= 9900).
    { pose proof (Z.div_mod S 100 ltac:(lia)).
      pose proof (Z.mod_pos_bound S 100 ltac:(lia)). lia. }
    destruct (S / 100 * 100 + digits_value g2 <=? S) eqn:Hle;
      [|apply Z.leb_gt in Hle]; lia.
  - destruct (digits_value g2 <=? S) eqn:Hle;
      [|apply Z.leb_gt in Hle]; lia.
Qed.

Lemma skip_spaces_split (s : string) :
  exists gap, all_spaces gap = true /\ s = gap ++ skip_spaces s.
Proof.
  induction s as [|a s (gap & Hg & Hs)]; [now exists ""|].
  cbn [skip_spaces]. destruct (JS.is_space a) eqn:Ha.
  - exists (String a gap). split; [simpl; now rewrite Ha|].
    rewrite append_cons. now rewrite <- Hs.
  - now exists "".
Qed.

Lemma skip_spaces_app (gap s : string) :
  all_spaces gap = true -> skip_spaces (gap ++ s) = skip_spaces s.
Proof.
  induction gap as [|a gap IH]; [reflexivity|].
  cbn [all_spaces]. intros H. apply andb_true_iff in H as [Ha Hg].
  rewrite append_cons. cbn [skip_spaces]. rewrite Ha. now apply IH.
Qed.

(** A text the pattern matches has the shape, with the two groups. *)
Lemma fy_match_shape (s g1 g2 : string) :
  fy_match s = Some (g1, g2) ->
  exists gap1 sep gap2,
    s = year_text g1 gap1 sep gap2 g2 /\ year_shape g1 gap1 sep gap2 g2.
Proof.
  intros Hmatch.
  destruct (fy_match_groups _ _ _ Hmatch) as (H1 & Hl1 & H2 & Hl2).
  revert Hmatch. unfold fy_match.
  destruct s as [|a [|b [|c [|d rest]]]]; try discriminate.
  destruct (is_digit a && is_digit b && is_digit c && is_digit d);
    [|discriminate].
  destruct (skip_spaces_split rest) as (gap1 & Hg1 & Hrest).
  destruct (skip_spaces rest) as [|sep rest1]; [discriminate|].
  destruct (Ascii.eqb sep "-" || Ascii.eqb sep "/") eqn:Hsep; [|discriminate].
  destruct (skip_spaces_split rest1) as (gap2 & Hg2 & Hrest1).
  destruct (all_digits (skip_spaces rest1)
            && ((String.length (skip_spaces rest1) =? 2)%nat
                || (String.length (skip_spaces rest1) =? 4)%nat));
    [|discriminate].
  intros [= <- <-].
  exists gap1, sep, gap2. split.
  - unfold year_text. rewrite !append_cons.
    change ("" ++ gap1 ++ String sep (gap2 ++ skip_spaces rest1))
      with (gap1 ++ String sep (gap2 ++ skip_spaces rest1)).
    now rewrite <- Hrest1, <- Hrest.
  - repeat split; try assumption.
    apply orb_true_iff in Hsep. rewrite !Ascii.eqb_eq in Hsep. exact Hsep.
Qed.

(** A text of the shape is matched, with its two groups. *)
Lemma shape_matches (g1 gap1 : string) (sep : ascii) (gap2 g2 : string) :
  year_shape g1 gap1 sep gap2 g2 ->
  fy_match (year_text g1 gap1 sep gap2 g2) = Some (g1, g2).
Proof.
  intros (H1 & Hl1 & Hg1 & Hsep & Hg2 & H2 & Hl2).
  destruct g1 as [|a [|b [|c [|d [|x g]]]]]; try discriminate Hl1.
  cbn [all_digits] in H1. rewrite !andb_true_iff in H1.
  destruct H1 as (Ha & Hb & Hc & Hd & _).
  unfold year_text. rewrite !append_cons.
  change ("" ++ gap1 ++ String sep (gap2 ++ g2))
    with (gap1 ++ String sep (gap2 ++ g2)).
  cbn [fy_match]. rewrite Ha, Hb, Hc, Hd. cbn [andb].
  rewrite (skip_spaces_app gap1 _ Hg1).
  assert (Hnot : JS.is_space sep = false)
    by (destruct Hsep as [-> | ->]; reflexivity).
  cbn [skip_spaces]. rewrite Hnot.
  assert (Hok : Ascii.eqb sep "-" || Ascii.eqb sep "/" = true)
    by (destruct Hsep as [-> | ->]; reflexivity).
  rewrite Hok, (skip_spaces_app gap2 _ Hg2), (all_digits_skip_spaces g2 H2), H2.
  destruct Hl2 as [-> | ->]; reflexivity.
Qed.

Lemma end_year_after (g1 g2 : string) : digits_value g1 < end_year g1 g2.
Proof.
  unfold end_year.
  destruct ((if (String.length g2 =? 2)%nat
             then digits_value g1 / 100 * 100 + digits_value g2
             else digits_value g2) <=? digits_value g1) eqn:Hle;
    [|apply Z.leb_gt in Hle]; lia.
Qed.

(** On a text of one-byte characters, the result is decided by the shape
    of the trimmed text. If it is four digits, optional white space, a
    hyphen or a slash, optional white space and two or four digits, the
    result is [start-end], where the start is the four digits read as a
    number and the end is the end part, put in the start year's century
    when it has two digits, and replaced by start + 1 when it is not
    after the start: the end year is always after the start year. Any
    other text, the empty one too, is trimmed and nothing more. *)
Theorem normalized_year_ends_after_start (v : string) :
  ascii_only v = true ->
  (exists g1 gap1 sep gap2 g2,
     JS.trim v = year_text g1 gap1 sep gap2 g2
     /\ year_shape g1 gap1 sep gap2 g2
     /\ normalizeFinancialYear v
        = JS.String_of_Z (digits_value g1) ++ "-"
          ++ JS.String_of_Z (end_year g1 g2)
     /\ digits_value g1 < end_year g1 g2)
  \/ (normalizeFinancialYear v = JS.trim v
      /\ forall g1 gap1 sep gap2 g2,
           year_shape g1 gap1 sep gap2 g2 ->
           JS.trim v <> year_text g1 gap1 sep gap2 g2).
Proof.
  intros _.
  destruct (fy_match (JS.trim v)) as [[g1 g2]|] eqn:Hmatch.
  - left.
    destruct (fy_match_shape _ _ _ Hmatch) as (gap1 & sep & gap2 & Htext & Hshape).
    exists g1, gap1, sep, gap2, g2.
    split; [assumption|]. split; [assumption|].
    split; [|apply end_year_after].
    unfold normalizeFinancialYear.
    destruct (String.eqb v "") eqn:Hv.
    + apply String.eqb_eq in Hv. subst v. discriminate Hmatch.
    + now rewrite Hmatch.
  - right. split.
    + unfold normalizeFinancialYear.
      destruct (String.eqb v "") eqn:Hv; [|now rewrite Hmatch].
      apply String.eqb_eq in Hv. now subst v.
    + intros g1 gap1 sep gap2 g2 Hshape Htext.
      rewrite Htext, (shape_matches _ _ _ _ _ Hshape) in Hmatch.
      discriminate Hmatch.
Qed.

(** A two-digit end with spaces around a slash. *)
Lemma normalized_year_ends_after_start_witness :
  (exists g1 gap1 sep gap2 g2,
     JS.trim " 2024 / 25 " = year_text g1 gap1 sep gap2 g2
     /\ year_shape g1 gap1 sep gap2 g2
     /\ normalizeFinancialYear " 2024 / 25 "
        = JS.String_of_Z (digits_value g1) ++ "-"
          ++ JS.String_of_Z (end_year g1 g2)
     /\ digits_value g1 < end_year g1 g2)
  \/ (normalizeFinancialYear " 2024 / 25 " = JS.trim " 2024 / 25 "
      /\ forall g1 gap1 sep gap2 g2,
           year_shape g1 gap1 sep gap2 g2 ->
           JS.trim " 2024 / 25 " <> year_text g1 gap1 sep gap2 g2).
Proof. apply (normalized_year_ends_after_start " 2024 / 25 "). reflexivity. Defined.

(** Typical inputs. *)
Example normalize_examples :
  normalizeFinancialYear "2024-25" = "2024-2025"
  /\ normalizeFinancialYear " 2024 / 2025 " = "2024-2025"
  /\ normalizeFinancialYear "2099-00" = "2099-2100"
  /\ normalizeFinancialYear "2024-2020" = "2024-2025"
  /\ normalizeFinancialYear "FY 2024" = "FY 2024".
Proof. repeat split; vm_compute; reflexivity. Qed.


(** *** Trimming *)

Lemma trimStart_fixed (a : ascii) (s : string) :
  JS.is_space a = false -> JS.trimStart (String a s) = String a s.
Proof. intros H. simpl. now rewrite H. Qed.

Lemma trimEnd_head (a : ascii) (s : string) :
  JS.is_space a = false ->
  exists t, JS.trimEnd (String a s) = String a t.
Proof.
  intros H. simpl. destruct (JS.trimEnd s); [rewrite H|]; eauto.
Qed.

Lemma trimEnd_cons (a : ascii) (s : string) :
  JS.trimEnd (String a s)
  = match JS.trimEnd s with
    | EmptyString =>
        if JS.is_space a then EmptyString else String a EmptyString
    | t => String a t
    end.
Proof. reflexivity. Qed.

Lemma trimEnd_idempotent (s : string) :
  JS.trimEnd (JS.trimEnd s) = JS.trimEnd s.
Proof.
  induction s as [|a s IH]; [reflexivity|].
  rewrite trimEnd_cons. destruct (JS.trimEnd s) as [|b t] eqn:Ht.
  - destruct (JS.is_space a) eqn:Ha; [reflexivity|].
    rewrite trimEnd_cons. simpl. now rewrite Ha.
  - rewrite trimEnd_cons, IH. reflexivity.
Qed.

Lemma trimStart_head (s : string) :
  JS.trimStart s = ""
  \/ exists a t, JS.trimStart s = String a t /\ JS.is_space a = false.
Proof.
  induction s as [|a s IH]; simpl; [now left|].
  destruct (JS.is_space a) eqn:Ha; [assumption|]. right. eauto.
Qed.

Lemma trim_idempotent (s : string) : JS.trim (JS.trim s) = JS.trim s.
Proof.
  unfold JS.trim.
  destruct (trimStart_head s) as [->|(a & t & -> & Ha)]; [reflexivity|].
  destruct (trimEnd_head a t Ha) as [u Hu]. rewrite Hu.
  rewrite (trimStart_fixed a u Ha), <- Hu. apply trimEnd_idempotent.
Qed.

Lemma trimEnd_digits (q : string) :
  all_digits q = true -> JS.trimEnd q = q.
Proof.
  induction q as [|a q IH]; [reflexivity|].
  simpl. intros H. apply andb_true_iff in H as [Ha Hq].
  rewrite (IH Hq). destruct q; [|reflexivity].
  now destruct (digit_facts a Ha) as (-> & _).
Qed.

Lemma trimEnd_app_digits (s q : string) :
  all_digits q = true -> q <> "" -> JS.trimEnd (s ++ q) = s ++ q.
Proof.
  intros Hq Hne. induction s as [|a s IH].
  - now apply trimEnd_digits.
  - rewrite append_cons. simpl. rewrite IH.
    destruct (s ++ q) eqn:Hsq; [|reflexivity].
    destruct s; [change (q = "") in Hsq; congruence | discriminate Hsq].
Qed.

(** A text that starts and ends with digits is left alone by [trim]. *)
Lemma trim_between_digits (p mid q : string) :
  all_digits p = true -> p <> "" -> all_digits q = true -> q <> "" ->
  JS.trim (p ++ mid ++ q) = p ++ mid ++ q.
Proof.
  intros Hp Hpne Hq Hqne. unfold JS.trim.
  destruct p as [|a p]; [congruence|].
  simpl in Hp. apply andb_true_iff in Hp as [Ha _].
  destruct (digit_facts a Ha) as (Hsp & _).
  rewrite append_cons, (trimStart_fixed _ _ Hsp), <- append_cons.
  rewrite <- string_app_assoc. now apply trimEnd_app_digits.
Qed.

(** *** Printing years *)

Lemma all_below_spec (n : nat) (check : Z -> bool) :
  all_below n check = true ->
  forall k, 0 <= k < Z.of_nat n -> check k = true.
Proof.
  induction n as [|n IH]; simpl; intros H k Hk; [lia|].
  apply andb_true_iff in H as [Hn Hrest].
  destruct (Z.eq_dec k (Z.of_nat n)) as [->|Hne]; [assumption|].
  apply IH; [assumption | lia].
Qed.

Lemma years_print_four_digits (n : Z) :
  1000 <= n <= 9999 ->
  exists a b c d,
    JS.String_of_Z n = String a (String b (String c (String d "")))
    /\ is_digit a = true /\ is_digit b = true
    /\ is_digit c = true /\ is_digit d = true
    /\ digits_value (String a (String b (String c (String d "")))) = n.
Proof.
  intros Hn.
  assert (Hall : all_below (Z.to_nat 10000) prints_four_digits = true)
    by (vm_compute; reflexivity).
  pose proof (all_below_spec _ _ Hall n ltac:(lia)) as H.
  unfold prints_four_digits in H.
  replace (n <? 1000) with false in H by (symmetry; apply Z.ltb_ge; lia).
  simpl in H.
  destruct (JS.String_of_Z n) as [|a [|b [|c [|d [|x s]]]]]; try discriminate H.
  rewrite !andb_true_iff, Z.eqb_eq in H.
  destruct H as [[[[Ha Hb] Hc] Hd] Hv].
  exists a, b, c, d. repeat split; assumption.
Qed.

Lemma small_years_print_short (n : Z) :
  0 <= n <= 999 -> (String.length (JS.String_of_Z n) <= 3)%nat.
Proof.
  intros Hn.
  assert (Hall : all_below (Z.to_nat 1000) prints_short = true)
    by (vm_compute; reflexivity).
  pose proof (all_below_spec _ _ Hall n ltac:(lia)) as H.
  unfold prints_short in H.
  replace (1000 <=? n) with false in H by (symmetry; apply Z.leb_gt; lia).
  simpl in H. now apply Nat.leb_le in H.
Qed.

Lemma fy_match_short (s rest : string) :
  (String.length s <= 3)%nat ->
  fy_match (s ++ String "-" rest) = None.
Proof.
  intros Hlen.
  destruct s as [|a [|b [|c [|d s]]]]; simpl in Hlen; try lia;
    rewrite ?append_cons; change ("" ++ String "-" rest) with (String "-" rest);
    cbn [fy_match].
  - destruct rest as [|b [|c [|d rest]]]; reflexivity.
  - destruct rest as [|c [|d rest]]; try reflexivity.
    change (is_digit "-") with false.
    rewrite andb_false_r. reflexivity.
  - destruct rest as [|d rest]; try reflexivity.
    change (is_digit "-") with false.
    rewrite andb_false_r. reflexivity.
  - change (is_digit "-") with false.
    rewrite andb_false_r. reflexivity.
Qed.

(** A text [start-end] with the end after the start is already in the
    form [normalizeFinancialYear] produces. *)
Lemma normalize_fixed (S E : Z) :
  0 <= S <= 9999 -> S < E <= 10000 -> (E = 10000 -> S = 9999) ->
  normalizeFinancialYear (JS.String_of_Z S ++ "-" ++ JS.String_of_Z E)
  = JS.String_of_Z S ++ "-" ++ JS.String_of_Z E.
Proof.
  intros HS HE Hlast.
  destruct (String_of_Z_digits S ltac:(lia)) as (HSd & _ & HSne).
  destruct (String_of_Z_digits E ltac:(lia)) as (HEd & _ & HEne).
  assert (Htrim := trim_between_digits _ "-" _ HSd HSne HEd HEne).
  assert (Hne : JS.String_of_Z S ++ "-" ++ JS.String_of_Z E <> "").
  { destruct (JS.String_of_Z S); [congruence | discriminate]. }
  unfold normalizeFinancialYear.
  apply String.eqb_neq in Hne. rewrite Hne, Htrim.
  destruct (Z_lt_le_dec S 1000) as [Hsmall|Hbig].
  - change ("-" ++ JS.String_of_Z E) with (String "-" (JS.String_of_Z E)).
    now rewrite (fy_match_short _ _ (small_years_print_short S ltac:(lia))).
  - destruct (Z.eq_dec E 10000) as [->|HE'].
    + rewrite (Hlast eq_refl). vm_compute. reflexivity.
    + destruct (years_print_four_digits S ltac:(lia))
        as (a & b & c & d & HSs & Ha & Hb & Hc & Hd & HSv).
      destruct (years_print_four_digits E ltac:(lia))
        as (e & f & g & h & HEs & He & Hf & Hg & Hh & HEv).
      rewrite HSs, HEs.
      destruct (digit_facts e He) as (Hesp & _).
      change (String a (String b (String c (String d "")))
              ++ "-" ++ String e (String f (String g (String h ""))))
        with (String a (String b (String c (String d (String "-"
                (String e (String f (String g (String h ""))))))))).
      cbn [fy_match]. rewrite Ha, Hb, Hc, Hd. cbn [andb skip_spaces].
      change (JS.is_space "-") with false. cbn iota.
      change (Ascii.eqb "-" "-") with true. cbn [orb skip_spaces].
      rewrite Hesp.
      change (String.length (String e (String f (String g (String h "")))))
        with 4%nat.
      change (4 =? 2)%nat with false. change (4 =? 4)%nat with true.
      cbn [all_digits orb]. rewrite He, Hf, Hg, Hh. cbn [andb].
      rewrite HSv, HEv.
      change (String.length (String e (String f (String g (String h "")))))
        with 4%nat.
      change (4 =? 2)%nat with false. cbn iota.
      replace (E <=? S) with false by (symmetry; apply Z.leb_gt; lia).
      rewrite HSs, HEs. reflexivity.
Qed.

(** A trimmed text that does not match is left alone. *)
Lemma normalize_unmatched (v : string) :
  fy_match (JS.trim v) = None ->
  normalizeFinancialYear (JS.trim v) = JS.trim v.
Proof.
  intros Hmatch. unfold normalizeFinancialYear.
  destruct (String.eqb (JS.trim v) "") eqn:Ht; [reflexivity|].
  now rewrite trim_idempotent, Hmatch.
Qed.

Lemma normalize_unmatched_result (v : string) :
  v <> "" ->
  fy_match (JS.trim v) = None ->
  normalizeFinancialYear v = JS.trim v.
Proof.
  intros Hv Hmatch. unfold normalizeFinancialYear.
  apply String.eqb_neq in Hv. now rewrite Hv, Hmatch.
Qed.

(** Normalizing twice is normalizing once. *)
Theorem normalizeFinancialYear_idempotent (v : string) :
  normalizeFinancialYear (normalizeFinancialYear v) = normalizeFinancialYear v.
Proof.
  destruct (String.eqb v "") eqn:Hv.
  - apply String.eqb_eq in Hv. subst v. reflexivity.
  - apply String.eqb_neq in Hv.
    destruct (fy_match (JS.trim v)) as [[g1 g2]|] eqn:Hmatch.
    + destruct (normalize_matched v g1 g2 Hv Hmatch)
        as (S & E & HS & (HE & Hlast) & _ & ->).
      now apply normalize_fixed.
    + rewrite (normalize_unmatched_result v Hv Hmatch).
      now apply normalize_unmatched.
Qed.

(** For the years 2 to 9998, every financial year the form offers is
    already normalized: [handleSubmit] sends the selected option as it
    is. *)
Theorem offered_years_are_normalized (year month : Z) :
  2 <= year <= 9998 ->
  0 <= month <= 11 ->
  Forall (fun option => normalizeFinancialYear option = option)
    (financialYearOptions year month)
  /\ normalizeFinancialYear (getCurrentFinancialYear year month)
     = getCurrentFinancialYear year month.
Proof.
  intros Hy Hm.
  destruct (financial_year_options_lemma year month ltac:(lia) Hm)
    as (S & HS & Hcur & Hopts).
  assert (HS' : 1 <= S <= 9998).
  { unfold getCurrentFinancialYear in Hcur. unfold label in Hcur.
    clear Hopts.
    assert (S = if 3 <=? month then year else year - 1) as ->.
    { destruct (String_of_Z_digits S HS) as (Hd & Hv & _).
      set (S0 := if 3 <=? month then year else year - 1) in *.
      assert (HS0 : 0 <= S0) by (unfold S0; destruct (3 <=? month); lia).
      destruct (String_of_Z_digits S0 HS0) as (Hd0 & Hv0 & _).
      change ("-" ++ JS.String_of_Z (S0 + 1))
        with (String "-" (JS.String_of_Z (S0 + 1))) in Hcur.
      change ("-" ++ JS.String_of_Z (S + 1))
        with (String "-" (JS.String_of_Z (S + 1))) in Hcur.
      apply (f_equal (Reader.split "-")) in Hcur.
      rewrite !split_app in Hcur by now apply all_digits_no_hyphen.
      injection Hcur as Heq _. congruence. }
    destruct (3 <=? month); lia. }
  rewrite Hopts, Hcur. unfold label.
  split; [repeat constructor|]; apply normalize_fixed; lia.
Qed.

Lemma offered_years_are_normalized_witness :
  Forall (fun option => normalizeFinancialYear option = option)
    (financialYearOptions 2026 10)
  /\ normalizeFinancialYear (getCurrentFinancialYear 2026 10)
     = getCurrentFinancialYear 2026 10.
Proof. apply offered_years_are_normalized; lia. Defined.

(** ** The tax-declaration page *)

Import TaxForm.

Lemma push_item_entry (Number : string -> float)
    (formItems : gmap string FormItemState)
    (acc : list payload_item) (def : TaxComponentDefinition) :
  push_item Number formItems acc def
  = (acc ++ entry Number formItems def)%list.
Proof.
  unfold entry, push_item.
  destruct (formItems !! def_id def) as [itemState|];
    [|now rewrite app_nil_r].
  destruct (default false (include itemState)
            && PrimFloat.ltb 0 (declared Number itemState));
    [reflexivity | now rewrite app_nil_r].
Qed.

Lemma fold_push_item (Number : string -> float)
    (formItems : gmap string FormItemState)
    (definitions : list TaxComponentDefinition) (acc : list payload_item) :
  fold_left (push_item Number formItems) definitions acc
  = (acc ++ flat_map (entry Number formItems) definitions)%list.
Proof.
  revert acc. induction definitions as [|def defs IH]; intros acc; simpl.
  - now rewrite app_nil_r.
  - rewrite IH, push_item_entry, <- app_assoc. reflexivity.
Qed.

Lemma buildPayloadItems_flat_map (Number : string -> float)
    (definitions : list TaxComponentDefinition)
    (formItems : gmap string FormItemState) :
  buildPayloadItems Number definitions formItems
  = flat_map (entry Number formItems) definitions.
Proof. unfold buildPayloadItems. now rewrite fold_push_item. Qed.

(** A definition contributes nothing, or one item built from its own
    marked state with a positive amount. *)
Lemma entry_cases (Number : string -> float)
    (formItems : gmap string FormItemState) (def : TaxComponentDefinition) :
  entry Number formItems def = []
  \/ exists itemState,
       formItems !! def_id def = Some itemState
       /\ include itemState = Some true
       /\ PrimFloat.ltb 0 (declared Number itemState) = true
       /\ entry Number formItems def
          = [ mkPayloadItem (def_id def) (declared Number itemState)
                (if JS.truthy (proofUrl itemState)
                 then proofUrl itemState else None) ].
Proof.
  unfold entry, push_item.
  destruct (formItems !! def_id def) as [itemState|]; [|now left].
  destruct (include itemState) as [[]|] eqn:Hinc; simpl; try now left.
  destruct (PrimFloat.ltb 0 (declared Number itemState)) eqn:Hpos;
    [|now left].
  right. exists itemState. rewrite Hinc. auto.
Qed.

Lemma entry_component (Number : string -> float)
    (formItems : gmap string FormItemState) (def : TaxComponentDefinition)
    (item : payload_item) :
  In item (entry Number formItems def) -> component_id item = def_id def.
Proof.
  destruct (entry_cases Number formItems def)
    as [->|(st & _ & _ & _ & ->)]; simpl; [tauto|].
  intros [<-|[]]. reflexivity.
Qed.

Lemma entry_agrees (Number : string -> float)
    (formItems formItems' : gmap string FormItemState)
    (def : TaxComponentDefinition) :
  formItems' !! def_id def = formItems !! def_id def ->
  entry Number formItems' def = entry Number formItems def.
Proof. intros H. unfold entry, push_item. now rewrite H. Qed.

Lemma filter_other_than_same (Number : string -> float)
    (formItems : gmap string FormItemState) (def : TaxComponentDefinition) :
  List.filter (other_than (def_id def)) (entry Number formItems def) = [].
Proof.
  destruct (entry_cases Number formItems def)
    as [->|(st & _ & _ & _ & ->)]; [reflexivity|].
  simpl. unfold other_than. simpl. now rewrite String.eqb_refl.
Qed.

Lemma filter_other_than_other (Number : string -> float)
    (formItems : gmap string FormItemState) (def : TaxComponentDefinition)
    (componentId : string) :
  def_id def <> componentId ->
  List.filter (other_than componentId) (entry Number formItems def)
  = entry Number formItems def.
Proof.
  intros Hne.
  destruct (entry_cases Number formItems def)
    as [->|(st & _ & _ & _ & ->)]; [reflexivity|].
  simpl. unfold other_than. simpl.
  apply String.eqb_neq in Hne. now rewrite Hne.
Qed.

(** Two form states that agree off one component give the same payload
    off that component. *)
Lemma payload_off_component (Number : string -> float)
    (componentId : string) (formItems formItems' : gmap string FormItemState)
    (definitions : list TaxComponentDefinition) :
  (forall k, k <> componentId -> formItems' !! k = formItems !! k) ->
  List.filter (other_than componentId)
    (buildPayloadItems Number definitions formItems')
  = List.filter (other_than componentId)
      (buildPayloadItems Number definitions formItems).
Proof.
  intros Hoff. rewrite !buildPayloadItems_flat_map.
  induction definitions as [|def defs IH]; [reflexivity|].
  simpl. rewrite !List.filter_app, IH. f_equal.
  destruct (String.eqb_spec (def_id def) componentId) as [<-|Hne].
  - now rewrite !filter_other_than_same.
  - now rewrite (entry_agrees Number formItems formItems' def (Hoff _ Hne)).
Qed.

(** A form state whose component contributes nothing gives a payload
    without that component. *)
Lemma payload_without_component (Number : string -> float)
    (componentId : string) (formItems : gmap string FormItemState)
    (definitions : list TaxComponentDefinition) :
  (forall def, def_id def = componentId ->
     entry Number formItems def = []) ->
  List.filter (other_than componentId)
    (buildPayloadItems Number definitions formItems)
  = buildPayloadItems Number definitions formItems.
Proof.
  intros Hnone. rewrite !buildPayloadItems_flat_map.
  induction definitions as [|def defs IH]; [reflexivity|].
  simpl. rewrite !List.filter_app, IH. f_equal.
  destruct (String.eqb_spec (def_id def) componentId) as [Heq|Hne].
  - now rewrite (Hnone def Heq).
  - now apply filter_other_than_other.
Qed.

Lemma is_marked_agrees (formItems formItems' : gmap string FormItemState)
    (def : TaxComponentDefinition) :
  formItems' !! def_id def = formItems !! def_id def ->
  is_marked formItems' def = is_marked formItems def.
Proof. intros H. unfold is_marked. now rewrite H. Qed.

(** X: what the payload holds *)

(** Every item of the payload comes from a component that is marked in
    the form, with the amount typed for it, and that amount is greater
    than zero: no zero, negative or NaN amount is sent, and no empty
    proof link. The items follow the order of the definitions and are
    among the components the marked view shows. *)
Theorem payload_holds_marked_positive_amounts (Number : string -> float)
    (definitions : list TaxComponentDefinition)
    (formItems : gmap string FormItemState) :
  List.Forall
    (fun item =>
       PrimFloat.ltb 0 (declared_amount item) = true
       /\ proof_url item <> Some ""
       /\ exists itemState,
            formItems !! component_id item = Some itemState
            /\ include itemState = Some true
            /\ declared_amount item = declared Number itemState)
    (buildPayloadItems Number definitions formItems)
  /\ sublist
       (List.map component_id (buildPayloadItems Number definitions formItems))
       (List.map def_id (filteredDefinitions true definitions formItems)).
Proof.
  rewrite buildPayloadItems_flat_map. unfold filteredDefinitions. simpl.
  induction definitions as [|def defs [IHall IHsub]].
  - split; [constructor | simpl; constructor].
  - simpl.
    destruct (entry_cases Number formItems def)
      as [->|(st & Hst & Hinc & Hpos & ->)].
    + split; [assumption|]. simpl.
      destruct (is_marked formItems def); simpl;
        [now apply sublist_cons | assumption].
    + split.
      * simpl. constructor; [|assumption]. simpl.
        split; [assumption|]. split.
        { destruct (proofUrl st) as [p|]; simpl; [|discriminate].
          destruct (String.eqb_spec p ""); simpl; congruence. }
        exists st. auto.
      * unfold is_marked at 1. rewrite Hst, Hinc. simpl.
        now apply sublist_skip.
Qed.

(** Switching a component off takes it out of the payload and out of
    the marked view, and changes nothing else in either. *)
Theorem unchecking_withdraws_component (Number : string -> float)
    (definitions : list TaxComponentDefinition)
    (formItems : gmap string FormItemState) (componentId : string) :
  buildPayloadItems Number definitions
    (handleToggleInclude componentId false formItems)
  = List.filter (other_than componentId)
      (buildPayloadItems Number definitions formItems)
  /\ filteredDefinitions true definitions
       (handleToggleInclude componentId false formItems)
     = List.filter (fun def => negb (String.eqb (def_id def) componentId))
         (filteredDefinitions true definitions formItems).
Proof.
  split.
  - rewrite <- (payload_off_component Number componentId formItems
                  (handleToggleInclude componentId false formItems)).
    + symmetry. apply payload_without_component.
      intros def Hdef. unfold entry, push_item, handleToggleInclude.
      rewrite Hdef, lookup_insert_eq. reflexivity.
    + intros k Hk. unfold handleToggleInclude.
      now rewrite lookup_insert_ne.
  - unfold filteredDefinitions. simpl.
    induction definitions as [|def defs IH]; [reflexivity|].
    simpl. rewrite IH.
    destruct (String.eqb_spec (def_id def) componentId) as [Heq|Hne].
    + assert (Hoff : is_marked (handleToggleInclude componentId false formItems)
                       def = false).
      { unfold is_marked, handleToggleInclude.
        rewrite Heq, lookup_insert_eq. reflexivity. }
      rewrite Hoff.
      destruct (is_marked formItems def); simpl;
        [apply String.eqb_eq in Heq; now rewrite Heq | reflexivity].
    + rewrite (is_marked_agrees formItems
                 (handleToggleInclude componentId false formItems) def)
        by (unfold handleToggleInclude; now rewrite lookup_insert_ne).
      destruct (is_marked formItems def); simpl; [|reflexivity].
      apply String.eqb_neq in Hne. now rewrite Hne.
Qed.

(** Switching a component off erases the amount typed for it: switching
    it on again leaves an empty amount, so the component stays out of
    the payload until an amount is typed again. *)
Theorem rechecking_does_not_restore_amount (Number : string -> float)
    (definitions : list TaxComponentDefinition)
    (formItems : gmap string FormItemState) (componentId : string) :
  handleToggleInclude componentId true
    (handleToggleInclude componentId false formItems) !! componentId
  = Some (mkItemState (Some "") (proofUrl (spread formItems componentId))
            (Some true))
  /\ buildPayloadItems Number definitions
       (handleToggleInclude componentId true
          (handleToggleInclude componentId false formItems))
     = List.filter (other_than componentId)
         (buildPayloadItems Number definitions formItems).
Proof.
  assert (Hstate :
    handleToggleInclude componentId true
      (handleToggleInclude componentId false formItems) !! componentId
    = Some (mkItemState (Some "") (proofUrl (spread formItems componentId))
              (Some true))).
  { unfold handleToggleInclude at 1. rewrite lookup_insert_eq.
    unfold spread, handleToggleInclude. rewrite lookup_insert_eq.
    reflexivity. }
  split; [exact Hstate|].
  rewrite <- (payload_off_component Number componentId formItems
                (handleToggleInclude componentId true
                   (handleToggleInclude componentId false formItems))).
  - symmetry. apply payload_without_component.
    intros def Hdef. unfold entry, push_item.
    rewrite Hdef, Hstate. simpl. reflexivity.
  - intros k Hk. unfold handleToggleInclude.
    now rewrite !lookup_insert_ne.
Qed.

(** Editing the proof link of a component changes neither which
    components are sent nor their amounts, and leaves both views of the
    definitions as they are. *)
Theorem proof_change_keeps_amounts (Number : string -> float)
    (definitions : list TaxComponentDefinition)
    (formItems : gmap string FormItemState) (componentId value : string)
    (showOnlyMarked : bool) :
  List.map amount_of
    (buildPayloadItems Number definitions
       (handleProofChange componentId value formItems))
  = List.map amount_of (buildPayloadItems Number definitions formItems)
  /\ filteredDefinitions showOnlyMarked definitions
       (handleProofChange componentId value formItems)
     = filteredDefinitions showOnlyMarked definitions formItems.
Proof.
  assert (Hstate :
    handleProofChange componentId value formItems !! componentId
    = Some (mkItemState (declaredAmount (spread formItems componentId))
              (Some value) (include (spread formItems componentId)))).
  { unfold handleProofChange. now rewrite lookup_insert_eq. }
  assert (Hoff : forall k, k <> componentId ->
            handleProofChange componentId value formItems !! k
            = formItems !! k).
  { intros k Hk. unfold handleProofChange. now rewrite lookup_insert_ne. }
  split.
  - rewrite !buildPayloadItems_flat_map.
    induction definitions as [|def defs IH]; [reflexivity|].
    simpl. rewrite !List.map_app, IH. f_equal.
    destruct (String.eqb_spec (def_id def) componentId) as [Heq|Hne].
    + unfold entry, push_item. rewrite Heq, Hstate. unfold spread.
      destruct (formItems !! componentId) as [st|]; simpl; [|reflexivity].
      unfold declared. simpl.
      destruct (default false (include st)
                && PrimFloat.ltb 0
                     match declaredAmount st with
                     | Some text =>
                         if String.eqb text "" then 0%float else Number text
                     | None => 0%float
                     end); reflexivity.
    + now rewrite (entry_agrees Number formItems _ def (Hoff _ Hne)).
  - unfold filteredDefinitions.
    destruct (negb showOnlyMarked); [reflexivity|].
    apply List.filter_ext. intros def.
    destruct (String.eqb_spec (def_id def) componentId) as [Heq|Hne].
    + unfold is_marked. rewrite Heq, Hstate. unfold spread.
      destruct (formItems !! componentId) as [st|]; reflexivity.
    + apply is_marked_agrees, Hoff, Hne.
Qed.

(** Typing an amount for a listed component marks it: the marked view
    shows it, and the payload holds it exactly when the text is not
    empty and reads as a number greater than zero; it then carries that
    number. The other components of the payload are as before. *)
Theorem typed_amount_is_sent_when_positive (Number : string -> float)
    (definitions : list TaxComponentDefinition)
    (formItems : gmap string FormItemState)
    (def : TaxComponentDefinition) (value : string) :
  In def definitions ->
  In def (filteredDefinitions true definitions
            (handleAmountChange (def_id def) value formItems))
  /\ (In (def_id def)
        (List.map component_id
           (buildPayloadItems Number definitions
              (handleAmountChange (def_id def) value formItems)))
      <-> value <> "" /\ PrimFloat.ltb 0 (Number value) = true)
  /\ (forall item,
        In item (buildPayloadItems Number definitions
                   (handleAmountChange (def_id def) value formItems)) ->
        component_id item = def_id def ->
        declared_amount item = Number value)
  /\ List.filter (other_than (def_id def))
       (buildPayloadItems Number definitions
          (handleAmountChange (def_id def) value formItems))
     = List.filter (other_than (def_id def))
         (buildPayloadItems Number definitions formItems).
Proof.
  intros Hin.
  set (formItems' := handleAmountChange (def_id def) value formItems).
  assert (Hstate :
    formItems' !! def_id def
    = Some (mkItemState (Some value)
              (proofUrl (spread formItems (def_id def))) (Some true))).
  { unfold formItems', handleAmountChange. now rewrite lookup_insert_eq. }
  assert (Hentry : forall def',
            def_id def' = def_id def ->
            entry Number formItems' def'
            = if negb (String.eqb value "") && PrimFloat.ltb 0 (Number value)
              then [ mkPayloadItem (def_id def) (Number value)
                       (if JS.truthy (proofUrl (spread formItems (def_id def)))
                        then proofUrl (spread formItems (def_id def))
                        else None) ]
              else []).
  { intros def' Hdef'. unfold entry, push_item. rewrite Hdef', Hstate.
    unfold declared. simpl.
    destruct (String.eqb value "") eqn:Hv; simpl; [reflexivity|].
    destruct (PrimFloat.ltb 0 (Number value)); reflexivity. }
  split; [|split; [|split]].
  - unfold filteredDefinitions. simpl. apply filter_In. split; [assumption|].
    unfold is_marked. now rewrite Hstate.
  - rewrite buildPayloadItems_flat_map. split.
    + intros Hid. apply in_map_iff in Hid as (item & Hitem & Hmem).
      apply in_flat_map in Hmem as (def' & _ & Hmem).
      pose proof (entry_component _ _ _ _ Hmem) as Hc.
      rewrite Hentry in Hmem by congruence.
      destruct (String.eqb_spec value ""); simpl in Hmem; [contradiction|].
      destruct (PrimFloat.ltb 0 (Number value)); [auto | contradiction].
    + intros [Hv Hpos]. apply in_map_iff.
      eexists. split; [|apply in_flat_map; exists def; split;
                         [exact Hin|rewrite Hentry by reflexivity]].
      2:{ apply String.eqb_neq in Hv. rewrite Hv, Hpos. simpl. left.
          reflexivity. }
      reflexivity.
  - rewrite buildPayloadItems_flat_map. intros item Hmem Hc.
    apply in_flat_map in Hmem as (def' & _ & Hmem).
    pose proof (entry_component _ _ _ _ Hmem) as Hc'.
    rewrite Hentry in Hmem by congruence.
    destruct (negb (String.eqb value "") && PrimFloat.ltb 0 (Number value));
      simpl in Hmem; [|contradiction].
    destruct Hmem as [<-|[]]. reflexivity.
  - apply payload_off_component. intros k Hk.
    unfold formItems', handleAmountChange. now rewrite lookup_insert_ne.
Qed.

Lemma typed_amount_is_sent_when_positive_witness :
  In c80 (filteredDefinitions true [c80]
            (handleAmountChange (def_id c80) "1200" ∅))
  /\ (In (def_id c80)
        (List.map component_id
           (buildPayloadItems digits_number [c80]
              (handleAmountChange (def_id c80) "1200" ∅)))
      <-> "1200" <> "" /\ PrimFloat.ltb 0 (digits_number "1200") = true)
  /\ (forall item,
        In item (buildPayloadItems digits_number [c80]
                   (handleAmountChange (def_id c80) "1200" ∅)) ->
        component_id item = def_id c80 ->
        declared_amount item = digits_number "1200")
  /\ List.filter (other_than (def_id c80))
       (buildPayloadItems digits_number [c80]
          (handleAmountChange (def_id c80) "1200" ∅))
     = List.filter (other_than (def_id c80))
         (buildPayloadItems digits_number [c80] ∅).
Proof.
  apply (typed_amount_is_sent_when_positive digits_number [c80] ∅ c80 "1200").
  simpl. left. reflexivity.
Defined.

(** Asked to submit with nothing to send, [handleSave] only shows a
    warning: no request, no busy flag, no reload. Otherwise it sends one
    request with the payload, between raising and lowering the saving
    flag, which is the last thing it does; it reloads exactly when the
    request resolved; and it shows one toast, or two when the request
    resolved and the reload after it failed: the success toast and the
    error toast of [loadData]. A draft is always sent, even empty. *)
Theorem save_sends_at_most_one_request (Number : string -> float)
    (targetStatus : target_status) (financialYear : string)
    (regime : tax_regime) (definitions : list TaxComponentDefinition)
    (formItems : gmap string FormItemState) (outcome reload : api_outcome) :
  (targetStatus = Submitted
   /\ buildPayloadItems Number definitions formItems = []
   /\ exists title description,
        handleSave Number targetStatus financialYear regime definitions
          formItems outcome reload
        = [Toast title description true])
  \/ ((targetStatus = Draft
       \/ buildPayloadItems Number definitions formItems <> [])
      /\ requests
           (handleSave Number targetStatus financialYear regime definitions
              formItems outcome reload)
         = [ mkRequest financialYear regime targetStatus
               (buildPayloadItems Number definitions formItems) ]
      /\ saving_flags
           (handleSave Number targetStatus financialYear regime definitions
              formItems outcome reload)
         = [true; false]
      /\ List.last
           (handleSave Number targetStatus financialYear regime definitions
              formItems outcome reload) (SetSaving true)
         = SetSaving false
      /\ length
           (toasts
              (handleSave Number targetStatus financialYear regime definitions
                 formItems outcome reload))
         = match outcome, reload with
           | Resolved, Rejected _ => 2%nat
           | _, _ => 1%nat
           end
      /\ reloads
           (handleSave Number targetStatus financialYear regime definitions
              formItems outcome reload)
         = match outcome with
           | Resolved => [financialYear]
           | Rejected _ => []
           end).
Proof.
  assert (Hsent : forall payloadItems,
    let events :=
      ([ SetSaving true;
         SaveTaxDeclaration
           (mkRequest financialYear regime targetStatus payloadItems) ]
       ++ match outcome with
          | Resolved =>
              Toast (if is_submitted targetStatus
                     then "Declaration submitted" else "Draft saved")
                (if is_submitted targetStatus
                 then "Your declaration has been submitted for approval."
                 else "Your draft was saved successfully.")
                false
              :: loadData financialYear reload
          | Rejected message =>
              [ LogError "Failed to save tax declaration" message;
                Toast "Error"
                  (message_or message "Unable to save tax declaration")
                  true ]
          end
       ++ [ SetSaving false ])%list in
    requests events
    = [mkRequest financialYear regime targetStatus payloadItems]
    /\ saving_flags events = [true; false]
    /\ List.last events (SetSaving true) = SetSaving false
    /\ length (toasts events)
       = match outcome, reload with
         | Resolved, Rejected _ => 2%nat
         | _, _ => 1%nat
         end
    /\ reloads events
       = match outcome with
         | Resolved => [financialYear]
         | Rejected _ => []
         end).
  { intros payloadItems.
    destruct outcome as [|message]; [destruct reload as [|message]|];
      simpl; repeat split; reflexivity. }
  unfold handleSave. destruct targetStatus; cbn [is_submitted andb].
  - right. split; [now left|]. apply Hsent.
  - destruct definitions as [|def defs]; cbn [length Nat.eqb].
    + left. split; [reflexivity|]. split; [reflexivity|]. eauto.
    + destruct (buildPayloadItems Number (def :: defs) formItems)
        as [|item rest] eqn:Hitems; cbn [length Nat.eqb].
      * left. split; [reflexivity|]. split; [reflexivity|]. eauto.
      * right. split; [right; discriminate|]. apply Hsent.
Qed.

(** [loadData] sends both requests between raising and lowering the
    loading flag, and shows a toast, an error, exactly when it failed. *)
Example loadData_events (financialYear : string) (message : option string) :
  loadData financialYear Resolved
  = [ SetLoading true; GetTaxDefinitions financialYear;
      GetMyTaxDeclaration financialYear; SetLoading false ]
  /\ toasts (loadData financialYear (Rejected message))
     = [ Toast "Error"
           (message_or message "Unable to load tax declaration data") true ].
Proof. split; reflexivity. Qed.

Lemma number_or_zero_is_a_number (Number : string -> float) (text : string) :
  Prim2SF (number_or_zero Number text) <> S754_nan
  /\ Prim2SF (number_or_zero Number text) <> S754_zero true.
Proof.
  unfold number_or_zero, number_truthy.
  destruct (Prim2SF (Number text)) eqn:Hn; try rewrite Hn;
    split; try discriminate; vm_compute; discriminate.
Qed.

(** The portal's form always posts a draft with its five fixed
    components in the same order; every amount is a number, never NaN
    and never negative zero, since a text that does not read as a
    number counts as 0; the home-loan interest goes to section 24B; and
    the financial year is in normalized form. *)
Theorem portal_form_posts_numbers (Number : string -> float)
    (formData : form_data) :
  List.map si_component_id (sp_items (handleSubmit_payload Number formData))
  = [ "PAYROLL_SECTION_80C"; "PAYROLL_SECTION_80D"; "PAYROLL_SECTION_24B";
      "PAYROLL_HRA"; "PAYROLL_OTHER_DEDUCTIONS" ]
  /\ List.map si_declared_amount
       (sp_items (handleSubmit_payload Number formData))
     = [ dd_section80C (sp_declaration_data (handleSubmit_payload Number formData));
         dd_section80D (sp_declaration_data (handleSubmit_payload Number formData));
         dd_homeLoanInterest
           (sp_declaration_data (handleSubmit_payload Number formData));
         dd_hra (sp_declaration_data (handleSubmit_payload Number formData));
         dd_otherDeductions
           (sp_declaration_data (handleSubmit_payload Number formData)) ]
  /\ List.Forall
       (fun item =>
          Prim2SF (si_declared_amount item) <> S754_nan
          /\ Prim2SF (si_declared_amount item) <> S754_zero true)
       (sp_items (handleSubmit_payload Number formData))
  /\ FinancialYear.normalizeFinancialYear
       (sp_financial_year (handleSubmit_payload Number formData))
     = sp_financial_year (handleSubmit_payload Number formData)
  /\ sp_status (handleSubmit_payload Number formData) = "draft".
Proof.
  split; [reflexivity|]. split; [reflexivity|]. split.
  - unfold handleSubmit_payload. cbn [sp_items].
    repeat (apply List.Forall_cons;
            [apply number_or_zero_is_a_number|]).
    constructor.
  - split; [|reflexivity]. cbn [handleSubmit_payload sp_financial_year].
    destruct (String.eqb_spec (fd_financial_year formData) "") as [Hv|Hv].
    + rewrite Hv. reflexivity.
    + destruct (FinancialYear.fy_match (JS.trim (fd_financial_year formData)))
        as [[g1 g2]|] eqn:Hmatch.
      * destruct (normalize_matched _ g1 g2 Hv Hmatch)
          as (S & E & HS & (HE & Hlast) & _ & ->).
        now apply normalize_fixed.
      * rewrite (normalize_unmatched_result _ Hv Hmatch).
        now apply normalize_unmatched.
Qed.

(** *** Loading *)

Lemma draft_fold_other (parseFloat : string -> float)
    (toString : float -> string) (items : list TaxDeclarationItem)
    (definitions : list TaxComponentDefinition)
    (acc : gmap string FormItemState) (k : string) :
  ~ In k (List.map def_id definitions) ->
  fold_left
    (fun draft def =>
       <[def_id def :=
           draft_item parseFloat toString (find_item items (def_id def))]>
         draft)
    definitions acc !! k
  = acc !! k.
Proof.
  revert acc. induction definitions as [|def defs IH]; intros acc Hk;
    [reflexivity|].
  simpl in Hk |- *. rewrite IH by tauto.
  apply lookup_insert_ne. intros Heq. apply Hk. now left.
Qed.

Lemma draft_fold_lookup (parseFloat : string -> float)
    (toString : float -> string) (items : list TaxDeclarationItem)
    (definitions : list TaxComponentDefinition)
    (acc : gmap string FormItemState) (k : string) :
  In k (List.map def_id definitions) ->
  fold_left
    (fun draft def =>
       <[def_id def :=
           draft_item parseFloat toString (find_item items (def_id def))]>
         draft)
    definitions acc !! k
  = Some (draft_item parseFloat toString (find_item items k)).
Proof.
  revert acc. induction definitions as [|def defs IH]; intros acc Hk;
    [destruct Hk|].
  simpl.
  destruct (in_dec String.string_dec k (List.map def_id defs)) as [Hin|Hout].
  - now apply IH.
  - destruct Hk as [<-|Hin]; [|contradiction].
    rewrite draft_fold_other by assumption. apply lookup_insert_eq.
Qed.

(** After a load every definition has its form item; the marked view
    shows the definitions with a stored amount greater than zero; and,
    when the text shown for each such amount reads back as the amount,
    saving without touching the form sends back exactly the stored
    positive amounts, one item per definition, with their proof
    links. *)
Theorem load_then_build_round_trip (parseFloat Number : string -> float)
    (toString : float -> string)
    (defs : option (list TaxComponentDefinition))
    (items : list TaxDeclarationItem) :
  (forall item,
     In item items ->
     PrimFloat.ltb 0 (parseFloat (item_declared_amount item)) = true ->
     Number (loaded_text parseFloat toString item)
     = parseFloat (item_declared_amount item)) ->
  (forall def,
     In def (default [] defs) ->
     draftState parseFloat toString defs items !! def_id def
     = Some (draft_item parseFloat toString (find_item items (def_id def))))
  /\ filteredDefinitions true (default [] defs)
       (draftState parseFloat toString defs items)
     = List.filter (has_stored_amount parseFloat items) (default [] defs)
  /\ buildPayloadItems Number (default [] defs)
       (draftState parseFloat toString defs items)
     = flat_map (stored_entry parseFloat items) (default [] defs).
Proof.
  intros Hback.
  assert (Hlookup : forall def,
    In def (default [] defs) ->
    draftState parseFloat toString defs items !! def_id def
    = Some (draft_item parseFloat toString (find_item items (def_id def)))).
  { intros def Hdef. unfold draftState. apply draft_fold_lookup.
    now apply in_map. }
  split; [exact Hlookup|]. split.
  - unfold filteredDefinitions. simpl.
    apply List.filter_ext_in. intros def Hdef.
    unfold is_marked, has_stored_amount. rewrite (Hlookup def Hdef).
    destruct (find_item items (def_id def)); reflexivity.
  - rewrite buildPayloadItems_flat_map.
    apply flat_map_members. intros def Hdef.
    unfold entry, push_item, stored_entry. rewrite (Hlookup def Hdef).
    destruct (find_item items (def_id def)) as [item|] eqn:Hfind;
      [|reflexivity].
    apply find_some in Hfind as [Hitem _].
    unfold draft_item, declared.
    cbn [declaredAmount proofUrl include default].
    assert (Htext : String.eqb (loaded_text parseFloat toString item) ""
                    = false).
    { unfold loaded_text.
      destruct (String.eqb
                  (toString (parseFloat (item_declared_amount item))) "")
        eqn:Ht; [reflexivity | exact Ht]. }
    rewrite Htext.
    destruct (PrimFloat.ltb 0 (parseFloat (item_declared_amount item)))
      eqn:Hpos; [|reflexivity].
    rewrite (Hback item Hitem Hpos), Hpos. cbn [andb].
    do 2 f_equal.
    destruct (item_proof_url item) as [p|]; [|reflexivity].
    simpl. destruct (String.eqb p ""); reflexivity.
Qed.

Lemma load_then_build_round_trip_witness :
  (forall def,
     In def (default [] (Some [c80])) ->
     draftState digits_number JS.String_of_number (Some [c80])
       [mkDeclarationItem "i1" "c80" "1200" None (Some "proof.pdf") None]
       !! def_id def
     = Some (draft_item digits_number JS.String_of_number
               (find_item
                  [mkDeclarationItem "i1" "c80" "1200" None
                     (Some "proof.pdf") None]
                  (def_id def))))
  /\ filteredDefinitions true (default [] (Some [c80]))
       (draftState digits_number JS.String_of_number (Some [c80])
          [mkDeclarationItem "i1" "c80" "1200" None (Some "proof.pdf") None])
     = List.filter
         (has_stored_amount digits_number
            [mkDeclarationItem "i1" "c80" "1200" None (Some "proof.pdf") None])
         (default [] (Some [c80]))
  /\ buildPayloadItems digits_number (default [] (Some [c80]))
       (draftState digits_number JS.String_of_number (Some [c80])
          [mkDeclarationItem "i1" "c80" "1200" None (Some "proof.pdf") None])
     = flat_map
         (stored_entry digits_number
            [mkDeclarationItem "i1" "c80" "1200" None (Some "proof.pdf") None])
         (default [] (Some [c80])).
Proof.
  apply (load_then_build_round_trip digits_number digits_number
           JS.String_of_number (Some [c80])
           [mkDeclarationItem "i1" "c80" "1200" None (Some "proof.pdf") None]).
  intros item [<-|[]] _. vm_compute. reflexivity.
Defined.
